(** * uploader: the webhook receiver of [server.py]

    A shallow embedding of the functions of [server.py]:
    [verify_mailgun_request], [download_attachments], [get_new_oid],
    [get_img_data], [delete], [upload_files], [autolink_posts],
    [resize_image], [create_img_tag], [process_image] and [create_post],
    followed by the properties stated about them.

    Conventions of the embedding.
    - A Python [str] is a [string]: a sequence of code points below 256,
      which is what the form decoding of the web framework (latin-1)
      hands to the handlers.  [bytes] are [list byte].
    - A Python [int] is a [Z]; a Python [float] is the rational [Q] it
      denotes, and every float operation rounds its exact result to
      binary64 ([Float.b64]).
    - A function that may raise returns a [result]; the exception is the
      error value.
    - Module-level mutable state ([cached_mailgun_token]) and the outside
      world (clock, file system, network, image library, object store)
      are passed explicitly; a call to the outside world may raise
      ([Run]). *)

From Stdlib Require Import ZArith QArith Qround Qabs Qpower Lia Lqa Bool List Ascii String.
From Stdlib.Strings Require Import Byte.
From stdpp Require Import gmap strings sorting.
Import ListNotations.

Local Open Scope Z_scope.

(* ================================================================== *)
(** * Python values and exceptions *)
(* ================================================================== *)

Module Py.

(** The exceptions the modelled code can raise. *)
Inductive exn : Type :=
| ValueError (msg : string)
| TypeError
| IndexError
| KeyError
| AttributeError
| ZeroDivisionError
| OverflowError
| HTTPError
| OSError (msg : string).

Inductive result (A : Type) : Type :=
| Ok (a : A)
| Raise (e : exn).
Arguments Ok {A} a.
Arguments Raise {A} e.

Definition bind {A B : Type} (r : result A) (k : A -> result B) : result B :=
  match r with
  | Ok a => k a
  | Raise e => Raise e
  end.

Definition of_option {A : Type} (e : exn) (o : option A) : result A :=
  match o with
  | Some a => Ok a
  | None => Raise e
  end.

(** [l[i]] on a list: a negative index counts from the end, an index
    outside the list raises [IndexError]. *)
Definition getitem {A : Type} (l : list A) (i : Z) : result A :=
  let j := if i <? 0 then Z.of_nat (length l) + i else i in
  if j <? 0 then Raise IndexError
  else of_option IndexError (nth_error l (Z.to_nat j)).

Definition fmap {A B : Type} (f : A -> B) (r : result A) : result B :=
  match r with
  | Ok a => Ok (f a)
  | Raise e => Raise e
  end.

Fixpoint mapM {A B : Type} (f : A -> result B) (l : list A) : result (list B) :=
  match l with
  | [] => Ok []
  | a :: l' => bind (f a) (fun b => bind (mapM f l') (fun bs => Ok (b :: bs)))
  end.

End Py.

Notation "'let*' x ':=' c1 'in' c2" := (Py.bind c1 (fun x => c2))
  (at level 10, x name, c1 at level 100, c2 at level 200).

(* ================================================================== *)
(** * Calls to the outside world *)
(* ================================================================== *)

(** The functions that act on the file system, the image library and
    the object store are runs: a run goes from the calls made so far to
    the calls made when it ends and to its outcome.  What is outside the
    program answers a call knowing the calls made before it: the call
    returns, or it raises; no function of the program handles such an
    exception, so the call that raised is the last one of its run, apart
    from the closing of a file on the way out of a [with] block. *)
Module Run.

Definition world (C : Type) : Type := list C -> C -> Py.result unit.

Definition run (C A : Type) : Type := list C -> list C * Py.result A.

#[global] Instance run_ret {C : Type} : MRet (run C) :=
  fun A a done => (done, Py.Ok a).

#[global] Instance run_bind {C : Type} : MBind (run C) :=
  fun A B k m done =>
    match m done with
    | (done', Py.Ok a) => k a done'
    | (done', Py.Raise e) => (done', Py.Raise e)
    end.

(** A value or an exception of the program itself. *)
Definition lift {C A : Type} (r : Py.result A) : run C A := fun done => (done, r).

(** A call that is only recorded: it does not raise, or its outcome is
    given otherwise. *)
Definition note {C : Type} (c : C) : run C unit := fun done => (done ++ [c], Py.Ok tt).

(** A call that the world answers. *)
Definition perform {C : Type} (w : world C) (c : C) : run C unit :=
  fun done => (done ++ [c], w done c).

(** [for x in l: body] *)
Fixpoint for_each {C A : Type} (body : A -> run C unit) (l : list A) : run C unit :=
  match l with
  | [] => mret tt
  | x :: l' => body x ;; for_each body l'
  end.

(** [with ... as f: body] once the file is open: the file is closed on
    the way out, also when the body raised, and an exception of the
    closing is the one that goes on. *)
Definition closing {C A : Type} (body : run C A) (close : run C unit) : run C A :=
  fun done =>
    match body done with
    | (done', outcome) =>
        match close done' with
        | (done'', Py.Ok _) => (done'', outcome)
        | (done'', Py.Raise e) => (done'', Py.Raise e)
        end
    end.

(** The world accepts the calls of a run: each call that it is asked,
    after the calls before it, returns.  [asked] tells the calls that
    the world answers from those that are only recorded. *)
Definition accepts {C : Type} (asked : C -> bool) (w : world C) (calls : list C) : Prop :=
  forall before c after,
    calls = before ++ c :: after -> asked c = true -> w before c = Py.Ok tt.

(** A run that keeps the calls made before it and that, when the world
    accepts its calls, makes the calls [ideal] and returns [a]. *)
Definition makes {C A : Type} (asked : C -> bool) (w : world C) (m : run C A)
    (ideal : list C) (a : A) : Prop :=
  forall done, exists new outcome,
    m done = (done ++ new, outcome)
    /\ (accepts asked w (done ++ new) -> new = ideal /\ outcome = Py.Ok a).

End Run.

(* ================================================================== *)
(** * Strings *)
(* ================================================================== *)

Module Str.

(** The double quote, which the string literals of this file do not
    contain. *)
Definition dq : string := String (ascii_of_nat 34) EmptyString.

Definition code (c : ascii) : Z := Z.of_nat (nat_of_ascii c).

Definition chars (s : string) : list ascii := list_ascii_of_string s.

(** [s.startswith(p)] and [s.endswith(p)] *)
Definition startswith (p s : string) : bool := String.prefix p s.

Definition endswith (p s : string) : bool :=
  String.prefix (string_of_list_ascii (rev (chars p)))
                (string_of_list_ascii (rev (chars s))).

Definition is_digit (c : ascii) : bool := (48 <=? code c) && (code c <=? 57).

(** The white space that [int()] strips, among the code points below
    256: space, tab to carriage return, next line, no-break space. *)
Definition is_space (c : ascii) : bool :=
  (code c =? 32) || ((9 <=? code c) && (code c <=? 13))
  || (code c =? 133) || (code c =? 160).

Definition is_ascii (s : string) : bool :=
  forallb (fun c => code c <? 128) (chars s).

(** [s.split(sep)] for a separator of one character: the pieces between
    the occurrences of [sep], never an empty list. *)
Fixpoint split (sep : ascii) (s : string) : list string :=
  match s with
  | EmptyString => [EmptyString]
  | String c s' =>
      if Ascii.eqb c sep then EmptyString :: split sep s'
      else match split sep s' with
           | piece :: rest => String c piece :: rest
           | [] => [String c EmptyString]
           end
  end.

(** ** Decimal numerals *)

Definition digit_char (d : Z) : ascii := ascii_of_nat (Z.to_nat (48 + d)).

Fixpoint digits_fuel (fuel : nat) (n : Z) (acc : string) : string :=
  match fuel with
  | O => acc
  | S fuel' =>
      let acc' := String (digit_char (n mod 10)) acc in
      if n <? 10 then acc' else digits_fuel fuel' (n / 10) acc'
  end.

(** The decimal numeral of a natural number; [Z.log2 n + 1] digits are
    always enough. *)
Definition digits (n : Z) : string :=
  digits_fuel (S (Z.to_nat (Z.log2 n))) n EmptyString.

(** ['%d' % n] *)
Definition fmt_d (n : Z) : string :=
  if n <? 0 then String "-"%char (digits (- n)) else digits n.

(** ** [int(s)] *)

Fixpoint lstrip (l : list ascii) : list ascii :=
  match l with
  | c :: l' => if is_space c then lstrip l' else l
  | [] => []
  end.

Definition strip (l : list ascii) : list ascii :=
  rev (lstrip (rev (lstrip l))).

(** Digits with single underscores between them; [prev] tells whether
    the previous character was a digit. *)
Fixpoint int_digits (l : list ascii) (prev : bool) (acc : Z) : option Z :=
  match l with
  | [] => if prev then Some acc else None
  | c :: l' =>
      if is_digit c then int_digits l' true (10 * acc + (code c - 48))
      else if Ascii.eqb c "_"%char then
             (if prev then
                match l' with
                | d :: _ => if is_digit d then int_digits l' false acc else None
                | [] => None
                end
              else None)
      else None
  end.

Definition int_chars (l : list ascii) : option Z :=
  match l with
  | c :: l' =>
      if Ascii.eqb c "-"%char then Z.opp <$> int_digits l' false 0
      else if Ascii.eqb c "+"%char then int_digits l' false 0
      else int_digits l false 0
  | [] => None
  end.

(** [int(s)]: white space around, an optional sign, decimal digits.  A
    text that is no integer literal raises [ValueError]; of its message
    only the fixed part is kept.  The limit that CPython has from 3.11
    on for the number of digits (4300 unless configured otherwise) is
    not part of this function: a statement that reads a longer text
    carries the bound as a hypothesis. *)
Definition int (s : string) : Py.result Z :=
  Py.of_option
    (Py.ValueError "invalid literal for int() with base 10")
    (int_chars (strip (chars s))).

(** ** UTF-8 *)

Definition byte_of_Z (z : Z) : byte :=
  match Byte.of_N (Z.to_N (z mod 256)) with
  | Some b => b
  | None => x00
  end.

Definition Z_of_byte (b : byte) : Z := Z.of_N (Byte.to_N b).

(** [s.encode('utf-8')] for code points below 256: one byte below 128,
    two bytes from 128 on. *)
Definition encode_utf8 (s : string) : list byte :=
  flat_map
    (fun c =>
       let n := code c in
       if n <? 128 then [byte_of_Z n]
       else [byte_of_Z (Z.lor 192 (Z.shiftr n 6)); byte_of_Z (Z.lor 128 (Z.land n 63))])
    (chars s).

(** ** Substrings *)

(** [p in s] *)
Fixpoint contains (p s : string) : bool :=
  String.prefix p s ||
  match s with
  | EmptyString => false
  | String _ s' => contains p s'
  end.

Fixpoint concat (l : list string) : string :=
  match l with
  | [] => EmptyString
  | s :: l' => (s ++ concat l')%string
  end.

(** A text made of fixed pieces with numbers written between them:
    [lit ++ '%d' % n1 ++ lit1 ++ '%d' % n2 ++ lit2 ...]. *)
Definition with_numbers (lit : string) (rest : list (Z * string)) : string :=
  (lit ++ concat (map (fun p => fmt_d (fst p) ++ snd p) rest))%string.

(** The characters a ['%d'] can write. *)
Definition is_numeral_char (c : ascii) : bool := is_digit c || Ascii.eqb c "-"%char.

(** No character of [p] can be written by a ['%d']. *)
Definition free_of_numerals (p : string) : bool :=
  forallb (fun c => negb (is_numeral_char c)) (chars p).

(** ** Joining and replacing *)

(** [sep.join(l)] *)
Fixpoint join (sep : string) (l : list string) : string :=
  match l with
  | [] => EmptyString
  | [s] => s
  | s :: l' => (s ++ sep ++ join sep l')%string
  end.

(** [s.replace(a, b)] for two characters *)
Fixpoint replace (a b : ascii) (s : string) : string :=
  match s with
  | EmptyString => EmptyString
  | String c s' => String (if Ascii.eqb c a then b else c) (replace a b s')
  end.

(** The line feed. *)
Definition lf : string := String (ascii_of_nat 10) EmptyString.

End Str.

(* ================================================================== *)
(** * Floats *)
(* ================================================================== *)

Module Float.

Local Open Scope Q_scope.

(** [round(x)] of a float: the nearest integer, a tie going to the even
    one. *)
Definition round (x : Q) : Z :=
  let f := Qfloor x in
  let r := x - inject_Z f in
  match Qcompare r (1 # 2) with
  | Lt => f
  | Gt => (f + 1)%Z
  | Eq => if Z.even f then f else (f + 1)%Z
  end.

(** The integer [e] with [2^e <= a < 2^(e+1)], for [a > 0]. *)
Definition ilog2 (a : Q) : Z :=
  let e0 := (Z.log2 (Qnum a) - Z.log2 (Zpos (Qden a)))%Z in
  if Qle_bool (2 ^ e0) a then e0 else (e0 - 1)%Z.

(** The spacing of the binary64 numbers around [a > 0]: 53 significant
    bits, down to the subnormal spacing [2^-1074]. *)
Definition ulp (a : Q) : Q := 2 ^ (Z.max (ilog2 a) (-1022) - 52).

(** Rounding to the nearest binary64 number, a tie going to the even
    significand. *)
Definition b64 (x : Q) : Q :=
  match Qnum x with
  | Z0 => 0
  | Zpos _ => inject_Z (round (x / ulp x)) * ulp x
  | Zneg _ => - (inject_Z (round (- x / ulp (- x))) * ulp (- x))
  end.

(** The unit roundoff [2^-53]: rounding changes a number of the normal
    range by at most this fraction of it. *)
Definition u : Q := 1 # (2 ^ 53).

(** The largest finite binary64 number is just below [2^1024]. *)
Definition overflows (x : Q) : bool := Qle_bool (2 ^ 1024) (Qabs x).

(** [float(n)] of an [int]: the nearest float, [OverflowError] when there
    is none. *)
Definition of_int (n : Z) : Py.result Q :=
  let f := b64 (inject_Z n) in
  if overflows f then Py.Raise Py.OverflowError else Py.Ok f.

(** [x - n], [n * y] and [x / n] for a float and an [int]: the [int] is
    converted first, the exact result is rounded.  The float operands
    are finite and far from the largest float, so that only the
    conversion can overflow. *)
Definition sub_int (x : Q) (n : Z) : Py.result Q :=
  let* f := of_int n in
  Py.Ok (b64 (x - f)).

Definition mul_int (n : Z) (y : Q) : Py.result Q :=
  let* f := of_int n in
  Py.Ok (b64 (f * y)).

Definition div_int (x : Q) (n : Z) : Py.result Q :=
  let* f := of_int n in
  if Qeq_bool f 0 then Py.Raise Py.ZeroDivisionError else Py.Ok (b64 (x / f)).

End Float.

(* ================================================================== *)
(** * SHA-256 and HMAC ([hashlib], [hmac]) *)
(* ================================================================== *)

Module Sha256.

Definition w32 (x : Z) : Z := x mod 2 ^ 32.
Definition add (x y : Z) : Z := w32 (x + y).
Definition rotr (n x : Z) : Z := Z.lor (Z.shiftr x n) (w32 (Z.shiftl x (32 - n))).
Definition xor3 (x y z : Z) : Z := Z.lxor (Z.lxor x y) z.

Definition Ch (x y z : Z) : Z :=
  Z.lxor (Z.land x y) (Z.land (Z.lxor x (2 ^ 32 - 1)) z).
Definition Maj (x y z : Z) : Z :=
  xor3 (Z.land x y) (Z.land x z) (Z.land y z).
Definition Sum0 (x : Z) : Z := xor3 (rotr 2 x) (rotr 13 x) (rotr 22 x).
Definition Sum1 (x : Z) : Z := xor3 (rotr 6 x) (rotr 11 x) (rotr 25 x).
Definition sig0 (x : Z) : Z := xor3 (rotr 7 x) (rotr 18 x) (Z.shiftr x 3).
Definition sig1 (x : Z) : Z := xor3 (rotr 17 x) (rotr 19 x) (Z.shiftr x 10).

(** ** The constants: fractional parts of roots of the first primes *)

Definition is_prime (n : Z) : bool :=
  (2 <=? n) && forallb (fun d => negb (n mod d =? 0))
                       (map Z.of_nat (seq 2 (Z.to_nat n - 2))).

Definition primes : list Z :=
  Eval vm_compute in filter is_prime (map Z.of_nat (seq 2 310)).

(** The largest [r < 2^bits] with [r^k <= n], one bit at a time. *)
Fixpoint iroot (k : Z) (bits : nat) (n r : Z) : Z :=
  match bits with
  | O => r
  | S b =>
      let r' := r + 2 ^ Z.of_nat b in
      iroot k b n (if r' ^ k <=? n then r' else r)
  end.

(** The first 32 bits of the fractional part of the [k]-th root of [p]. *)
Definition frac_root (k p : Z) : Z := w32 (iroot k 40 (p * 2 ^ (32 * k)) 0).

Definition K : list Z := Eval vm_compute in map (frac_root 3) primes.
Definition H0 : list Z := Eval vm_compute in map (frac_root 2) (firstn 8 primes).

(** ** Padding and blocks *)

Definition be_bytes (n : nat) (x : Z) : list byte :=
  map (fun i => Str.byte_of_Z (Z.shiftr x (8 * Z.of_nat i))) (rev (seq 0 n)).

Definition be_word (bs : list byte) : Z :=
  fold_left (fun acc b => 256 * acc + Str.Z_of_byte b) bs 0.

Definition pad (msg : list byte) : list byte :=
  let len := Z.of_nat (length msg) in
  let zeros := Z.to_nat ((55 - len) mod 64) in
  msg ++ [Str.byte_of_Z 128] ++ repeat x00 zeros ++ be_bytes 8 (8 * len).

Fixpoint chunks {A : Type} (size count : nat) (l : list A) : list (list A) :=
  match count with
  | O => []
  | S c => firstn size l :: chunks size c (skipn size l)
  end.

Definition words (block : list byte) : list Z := map be_word (chunks 4 16 block).

(** ** The message schedule: a window of the last 16 words *)

Fixpoint schedule (n : nat) (win : list Z) : list Z :=
  match n, win with
  | S n', w0 :: rest =>
      let w1 := nth 0 rest 0 in
      let w9 := nth 8 rest 0 in
      let w14 := nth 13 rest 0 in
      w0 :: schedule n' (rest ++ [add (add (sig1 w14) w9) (add (sig0 w1) w0)])
  | _, _ => []
  end.

(** ** Compression *)

Record regs := Regs { ra : Z; rb : Z; rc : Z; rd : Z; re : Z; rf : Z; rg : Z; rh : Z }.

Definition round (s : regs) (kw : Z * Z) : regs :=
  let t1 := add (add (add (rh s) (Sum1 (re s))) (add (Ch (re s) (rf s) (rg s)) (fst kw))) (snd kw) in
  let t2 := add (Sum0 (ra s)) (Maj (ra s) (rb s) (rc s)) in
  Regs (add t1 t2) (ra s) (rb s) (rc s) (add (rd s) t1) (re s) (rf s) (rg s).

Definition regs_of (l : list Z) : regs :=
  Regs (nth 0 l 0) (nth 1 l 0) (nth 2 l 0) (nth 3 l 0)
       (nth 4 l 0) (nth 5 l 0) (nth 6 l 0) (nth 7 l 0).

Definition list_of (s : regs) : list Z :=
  [ra s; rb s; rc s; rd s; re s; rf s; rg s; rh s].

Definition compress (h : list Z) (block : list byte) : list Z :=
  let s := fold_left round (combine K (schedule 64 (words block))) (regs_of h) in
  map (fun p => add (fst p) (snd p)) (combine h (list_of s)).

(** [hashlib.sha256(msg).digest()] *)
Definition digest (msg : list byte) : list byte :=
  let p := pad msg in
  let h := fold_left compress (chunks 64 (length p / 64) p) H0 in
  flat_map (be_bytes 4) h.

(** ** Hexadecimal *)

Definition hex_char (d : Z) : ascii :=
  ascii_of_nat (Z.to_nat (if d <? 10 then 48 + d else 87 + d)).

Definition hex (bs : list byte) : string :=
  string_of_list_ascii
    (flat_map (fun b => let n := Str.Z_of_byte b in [hex_char (n / 16); hex_char (n mod 16)]) bs).

End Sha256.

Module Hmac.

Definition xor_pad (p : Z) (key : list byte) : list byte :=
  map (fun b => Str.byte_of_Z (Z.lxor (Str.Z_of_byte b) p)) key.

(** The key brought to the block size of 64 bytes. *)
Definition block_key (key : list byte) : list byte :=
  let k := if (64 <? Z.of_nat (length key)) then Sha256.digest key else key in
  k ++ repeat x00 (64 - length k).

(** [hmac.new(key, msg, hashlib.sha256).hexdigest()] *)
Definition hexdigest (key msg : list byte) : string :=
  let k := block_key key in
  Sha256.hex (Sha256.digest (xor_pad 92 k ++ Sha256.digest (xor_pad 54 k ++ msg))).

(** [hmac.compare_digest(a, b)] on two [str]: their equality, decided in
    constant time; text outside ASCII is refused with [TypeError]. *)
Definition compare_digest (a b : string) : Py.result bool :=
  if Str.is_ascii a && Str.is_ascii b then Py.Ok (String.eqb a b)
  else Py.Raise Py.TypeError.

End Hmac.

(* ================================================================== *)
(** * Regular expressions ([re]) *)
(* ================================================================== *)

Module Re.

(** The class [\w] of a [str] pattern among the code points below 256:
    a letter, a digit or another numeral, or the underscore.  The class
    [\d] is [Str.is_digit]: the decimal digits. *)
Definition is_word (c : ascii) : bool :=
  let n := Str.code c in
  ((48 <=? n) && (n <=? 57)) || ((65 <=? n) && (n <=? 90)) || (n =? 95)
  || ((97 <=? n) && (n <=? 122)) || (n =? 170) || ((178 <=? n) && (n <=? 179))
  || (n =? 181) || ((185 <=? n) && (n <=? 186)) || ((188 <=? n) && (n <=? 190))
  || ((192 <=? n) && (n <=? 214)) || ((216 <=? n) && (n <=? 246))
  || ((248 <=? n) && (n <=? 255)).

(** [\d*], greedy, at the head of a text: the longest run of digits and
    the text after it. *)
Fixpoint digit_run (s : string) : string * string :=
  match s with
  | String c t =>
      if Str.is_digit c
      then let '(run, rest) := digit_run t in (String c run, rest)
      else (EmptyString, s)
  | EmptyString => (EmptyString, EmptyString)
  end.

End Re.

(* ================================================================== *)
(** * Dates ([datetime]) *)
(* ================================================================== *)

Module Datetime.

Record date := Date { year : Z; month : Z; day : Z }.

Definition is_leap (y : Z) : bool :=
  (y mod 4 =? 0) && (negb (y mod 100 =? 0) || (y mod 400 =? 0)).

Definition days_in_month (y m : Z) : Z :=
  if m =? 2 then (if is_leap y then 29 else 28)
  else if (m =? 4) || (m =? 6) || (m =? 9) || (m =? 11) then 30
  else 31.

(** The dates that the library holds. *)
Definition valid_date (d : date) : Prop :=
  1 <= year d <= 9999 /\ 1 <= month d <= 12
  /\ 1 <= day d <= days_in_month (year d) (month d).

(** ['%02d' % n] and ['%04d' % n], for [n] up to 99 and up to 9999. *)
Definition two_digits (n : Z) : string :=
  String (Str.digit_char (n / 10 mod 10)) (String (Str.digit_char (n mod 10)) EmptyString).

Definition four_digits (n : Z) : string :=
  String (Str.digit_char (n / 1000 mod 10))
    (String (Str.digit_char (n / 100 mod 10)) (two_digits n)).

(** [str(d)] of a date: year, month and day with dashes. *)
Definition isoformat (d : date) : string :=
  (four_digits (year d) ++ "-" ++ two_digits (month d) ++ "-" ++ two_digits (day d))%string.

Definition month_names : list string :=
  ["January"; "February"; "March"; "April"; "May"; "June"; "July"; "August";
   "September"; "October"; "November"; "December"]%string.

(** ['{d:%B} {d.day}, {d:%Y}'.format(d = date)]: the name of the month
    in the C locale, the day and the year, the year written as the C
    library of Linux does, without padding. *)
Definition date_str (d : date) : string :=
  (nth (Z.to_nat (month d - 1)) month_names EmptyString
   ++ " " ++ Str.fmt_d (day d) ++ ", " ++ Str.fmt_d (year d))%string.

(** ** [strptime(s, '%Y-%m-%d')] *)

Definition NoMatch : Py.exn := Py.ValueError "time data does not match format"%string.
Definition Unconverted : Py.exn := Py.ValueError "unconverted data remains"%string.
Definition YearOutOfRange : Py.exn := Py.ValueError "year 0 is out of range"%string.
Definition DayOutOfRange : Py.exn := Py.ValueError "day is out of range for month"%string.

Definition digit_of (c : ascii) : option Z :=
  if Str.is_digit c then Some (Str.code c - 48) else None.

(** [(?P<Y>\d\d\d\d)] at the head of a text: the year and the text after
    it. *)
Definition year_field (l : list ascii) : option (Z * list ascii) :=
  match l with
  | a :: b :: c :: d :: rest =>
      match digit_of a, digit_of b, digit_of c, digit_of d with
      | Some a, Some b, Some c, Some d => Some (1000 * a + 100 * b + 10 * c + d, rest)
      | _, _, _, _ => None
      end
  | _ => None
  end.

Definition dash (l : list ascii) : option (list ascii) :=
  match l with
  | c :: rest => if Ascii.eqb c "-"%char then Some rest else None
  | [] => None
  end.

(** Two characters [c1 c2] at the head, [c1] accepted by [first] and
    [c2] a digit accepted by [second]: the number the two digits make
    (a blank counting as 0) and the text after them. *)
Definition two_chars (first : ascii -> bool) (second : Z -> bool) (l : list ascii)
  : list (Z * list ascii) :=
  match l with
  | c1 :: c2 :: rest =>
      match digit_of c2 with
      | Some d2 =>
          if first c1 && second d2
          then [(10 * default 0 (digit_of c1) + d2, rest)]
          else []
      | None => []
      end
  | _ => []
  end.

(** [[1-9]] at the head. *)
Definition one_char (l : list ascii) : list (Z * list ascii) :=
  match l with
  | c :: rest =>
      match digit_of c with
      | Some d => if 1 <=? d then [(d, rest)] else []
      | None => []
      end
  | [] => []
  end.

(** [(?P<m>1[0-2]|0[1-9]|[1-9])]: the ways the alternatives match at the
    head of a text, in their order. *)
Definition month_field (l : list ascii) : list (Z * list ascii) :=
  two_chars (Ascii.eqb "1"%char) (fun d => d <=? 2) l
  ++ two_chars (Ascii.eqb "0"%char) (fun d => 1 <=? d) l
  ++ one_char l.

(** [(?P<d>3[0-1]|[1-2]\d|0[1-9]|[1-9]| [1-9])] *)
Definition day_field (l : list ascii) : list (Z * list ascii) :=
  two_chars (Ascii.eqb "3"%char) (fun d => d <=? 1) l
  ++ two_chars (fun c => Ascii.eqb c "1"%char || Ascii.eqb c "2"%char) (fun _ => true) l
  ++ two_chars (Ascii.eqb "0"%char) (fun d => 1 <=? d) l
  ++ one_char l
  ++ two_chars (Ascii.eqb " "%char) (fun d => 1 <=? d) l.

(** The pattern of the format matched at the start of the text: the
    first way, in the order in which the alternatives are tried, to
    match year, dash, month, dash and day; with it comes the text that
    is left. *)
Definition match_ymd (l : list ascii) : option (Z * Z * Z * list ascii) :=
  match year_field l with
  | Some (y, l1) =>
      match dash l1 with
      | Some l2 =>
          head (flat_map
                  (fun m =>
                     match dash (snd m) with
                     | Some l3 => map (fun d => (y, fst m, fst d, snd d)) (day_field l3)
                     | None => []
                     end)
                  (month_field l2))
      | None => None
      end
  | None => None
  end.

(** The whole text has to be matched, and the date has to exist. *)
Definition strptime (s : string) : Py.result date :=
  match match_ymd (Str.chars s) with
  | None => Py.Raise NoMatch
  | Some (y, m, d, rest) =>
      match rest with
      | _ :: _ => Py.Raise Unconverted
      | [] =>
          if y =? 0 then Py.Raise YearOutOfRange
          else if days_in_month y m <? d then Py.Raise DayOutOfRange
          else Py.Ok (Date y m d)
      end
  end.

End Datetime.

(* ================================================================== *)
(** * The server *)
(* ================================================================== *)

Module Server.

Local Open Scope string_scope.

(** The entries of [config.ini] that the modelled functions read. *)
Record config := Config { mailgun_key : string }.

Definition TEMP_PATH : string := "/tmp".

(** ** [verify_mailgun_request] *)

Definition ReplayDetected : Py.exn :=
  Py.ValueError "Mailgun token is identical to the previous one".
Definition Expired : Py.exn :=
  Py.ValueError "Mailgun timestamp is older than 60 seconds".
Definition SignatureMismatch : Py.exn :=
  Py.ValueError "Computed signature does not match request signature".

(** [time.time() - int(timestamp)]: the clock reading is a float, the
    timestamp an [int] that is converted to a float first. *)
Definition age (now : Q) (timestamp : string) : Py.result Q :=
  let* ts := Str.int timestamp in
  Float.sub_int now ts.

(** The digest the code computes: HMAC-SHA256, under the key of the
    configuration, of the timestamp followed by the token, in
    hexadecimal. *)
Definition computed_signature (cfg : config) (timestamp token : string) : string :=
  let api_key := Str.encode_utf8 (mailgun_key cfg) in
  let message := Str.encode_utf8 (timestamp ++ token) in
  Hmac.hexdigest api_key message.

(** The signature check, after replay and freshness. *)
Definition check_signature (cfg : config) (timestamp token signature : string)
  : Py.result unit :=
  let computed := computed_signature cfg timestamp token in
  let* same := Hmac.compare_digest computed signature in
  if same : bool then Py.Ok tt else Py.Raise SignatureMismatch.

(** The freshness check and what follows it. *)
Definition check_fresh (cfg : config) (now : Q) (timestamp token signature : string)
  : Py.result unit :=
  let* a := age now timestamp in
  if Qlt_le_dec 60 a then Py.Raise Expired
  else check_signature cfg timestamp token signature.

(** [cached] is the global [cached_mailgun_token] ([None] until a first
    token is stored), [now] what [time.time()] returns.  The result is
    the global after the call and the outcome of the call. *)
Definition verify_mailgun_request (cfg : config) (now : Q) (cached : option string)
    (timestamp token signature : string) : option string * Py.result unit :=
  if decide (Some token = cached) then (cached, Py.Raise ReplayDetected)
  else (Some token, check_fresh cfg now timestamp token signature).

(** One delivery of the webhook: the clock when it is handled and the
    three form fields. *)
Record delivery := Delivery {
  at_time : Q;
  d_timestamp : string;
  d_token : string;
  d_signature : string
}.

(** The deliveries are handled one after the other, each on the global
    the previous one left. *)
Fixpoint serve (cfg : config) (cached : option string) (ds : list delivery)
  : option string * list (Py.result unit) :=
  match ds with
  | [] => (cached, [])
  | d :: ds' =>
      let '(cached', r) :=
        verify_mailgun_request cfg (at_time d) cached
          (d_timestamp d) (d_token d) (d_signature d) in
      let '(final, rs) := serve cfg cached' ds' in
      (final, r :: rs)
  end.

(** ** [download_attachments] *)

(** What [json.loads] returns. *)
#[warnings="-register-all"]
Inductive json : Type :=
| JNull
| JBool (b : bool)
| JNum (q : Q)
| JStr (s : string)
| JArr (items : list json)
| JObj (fields : list (string * json)).

(** [v[0]] *)
Definition item0 (v : json) : Py.result json :=
  match v with
  | JArr items => Py.getitem items 0
  | JObj _ => Py.Raise Py.KeyError
  | JStr (String c _) => Py.Ok (JStr (String c EmptyString))
  | JStr EmptyString => Py.Raise Py.IndexError
  | _ => Py.Raise Py.TypeError
  end.

Fixpoint assoc (key : string) (fields : list (string * json)) : option json :=
  match fields with
  | [] => None
  | (k, v) :: rest => if String.eqb k key then Some v else assoc key rest
  end.

(** [v[key]] for a text key *)
Definition field (key : string) (v : json) : Py.result json :=
  match v with
  | JObj fields => Py.of_option Py.KeyError (assoc key fields)
  | _ => Py.Raise Py.TypeError
  end.

(** [os.path.join(a, b)] *)
Definition path_join (a b : string) : string :=
  if Str.startswith "/" b then b
  else if String.eqb a EmptyString || Str.endswith "/" a then a ++ b
  else a ++ "/" ++ b.

(** The answer to a request made with [stream = True]: the status is
    known when [requests.get] returns, the body is read while the
    answer is iterated over.  The iteration yields the chunks and then
    ends, or raises [broken] when the connection fails after them. *)
Record response := Response {
  status : Z;
  chunks : list (list byte);
  broken : option Py.exn
}.

(** What the call does to the outside world, in order. *)
Inductive event : Type :=
| HttpGet (url : json)
| FileOpen (path : string)
| FileWrite (path : string) (chunk : list byte)
| FileClose (path : string).

(** The calls that the file system answers. *)
Definition on_disk (ev : event) : bool :=
  match ev with
  | HttpGet _ => false
  | _ => true
  end.

Definition NoAttachment : Py.exn := Py.IndexError.

Definition UnsupportedType (content_type : string) : Py.exn :=
  Py.ValueError ("Unsupported file type '" ++ content_type ++ "'").

(** [requests.get] is the function [net], and the file system [fs]
    answers the calls that open, write and close the file; the effects
    of the call are returned with its outcome. *)
Definition download_attachments (net : json -> Py.result response)
    (fs : Run.world event) (attachments : json)
  : list event * Py.result (string * string) :=
  match
    (let* attachment := item0 attachments in
     let* url := field "url" attachment in
     let* name := field "name" attachment in
     let* content_type := field "content-type" attachment in
     match content_type with
     | JStr ct =>
         if negb (Str.startswith "image" ct)
         then Py.Raise (UnsupportedType ct)
         else match name with
              | JStr n => Py.Ok (url, path_join TEMP_PATH n, ct)
              | _ => Py.Raise Py.TypeError
              end
     | _ => Py.Raise Py.AttributeError
     end)
  with
  | Py.Raise e => ([], Py.Raise e)
  | Py.Ok (url, save_path, ct) =>
      match net url with
      | Py.Raise e => ([HttpGet url], Py.Raise e)
      | Py.Ok r =>
          if ((400 <=? status r) && (status r <? 600))%Z
          then ([HttpGet url], Py.Raise Py.HTTPError)
          else
            (Run.perform fs (FileOpen save_path) ;;
             Run.closing
               (Run.for_each (fun chunk => Run.perform fs (FileWrite save_path chunk))
                  (chunks r) ;;
                Run.lift (match broken r with
                          | Some e => Py.Raise e
                          | None => Py.Ok tt
                          end))
               (Run.perform fs (FileClose save_path)) ;;
             mret (save_path, ct))
              [HttpGet url]
      end
  end.

(** ** [get_new_oid] *)

(** The name [create_post] gives to the file of a post:
    ['{0}-{1}.md'.format(str(today), oid)]. *)
Definition post_name (date : string) (oid : Z) : string :=
  date ++ "-" ++ Str.fmt_d oid ++ ".md".

(** [int(p.split('.')[0].split('-')[-1])] *)
Definition post_oid (p : string) : Py.result Z :=
  let* stem := Py.getitem (Str.split "." p) 0 in
  let* suffix := Py.getitem (Str.split "-" stem) (-1) in
  Str.int suffix.

(** [posts] is what [listdir] returns for the directory of the posts. *)
Definition get_new_oid (posts : list string) : Py.result Z :=
  let* oids := Py.mapM post_oid posts in
  let sorted_oids := merge_sort Z.le oids in
  let* top := Py.getitem sorted_oids (-1) in
  Py.Ok (top + 1)%Z.

(** ** Images ([PIL]) *)

Inductive resample : Type := NEAREST | BILINEAR | BICUBIC | LANCZOS.

(** The calls made on an image. *)
Inductive op : Type :=
| Rotate (angle : Z) (expand : bool)
| Resize (size : Z * Z) (filter : resample).

(** An image is known by its size and by the calls that produced it
    from the decoded file. *)
Record Image := MkImage { size : Z * Z; history : list op }.

(** A value of the EXIF dictionary. *)
Inductive exif : Type :=
| EInt (n : Z)
| EText (s : string).

(** Pillow keeps the sides of a decoded picture as positive C ints. *)
Definition well_sized (img : Image) : Prop :=
  (0 < fst (size img) < 2 ^ 31 /\ 0 < snd (size img) < 2 ^ 31)%Z.

Definition swap (sz : Z * Z) : Z * Z := (snd sz, fst sz).

(** A rendition of size [new] is the source scaled to the target [T]:
    its longer side is [T] and each side is an integer nearest to the
    side of the source times [T] over the longer side of the source. *)
Definition scaled_to (T : Z) (source new : Z * Z) : Prop :=
  let longer := Z.max (fst source) (snd source) in
  (Z.max (fst new) (snd new) = T
   /\ 2 * Z.abs (fst new * longer - fst source * T) <= longer
   /\ 2 * Z.abs (snd new * longer - snd source * T) <= longer)%Z.

Definition ORIENTATIONS : list (option Z) :=
  [None; None; None; Some (-180); None; None; Some (-90); None; Some (-270)]%Z.

Section Pillow.

(** The box around a picture turned by an angle that is no multiple of
    90 degrees, which Pillow computes from the rotation matrix. *)
Variable bbox : Z -> Z * Z -> Z * Z.

(** [img.rotate(angle, expand = True)]: counter-clockwise by [angle]
    degrees; a quarter turn swaps the sides. *)
Definition rotate (angle : Z) (img : Image) : Image :=
  let a := (angle mod 360)%Z in
  let sz :=
    if ((a =? 0) || (a =? 180))%Z then size img
    else if ((a =? 90) || (a =? 270))%Z then (snd (size img), fst (size img))
    else bbox angle (size img) in
  MkImage sz (history img ++ [Rotate angle true]).

(** [img.resize(size, filter)]: Pillow refuses a size with a side below
    1 with a [ValueError]. *)
Definition resize (sz : Z * Z) (filter : resample) (img : Image) : Py.result Image :=
  if ((fst sz <? 1) || (snd sz <? 1))%Z
  then Py.Raise (Py.ValueError "height and width must be > 0")
  else Py.Ok (MkImage sz (history img ++ [Resize sz filter])).

(** [ORIENTATIONS[metadata.get('Orientation', 0)]] *)
Definition degree_to_rotate (metadata : gmap string exif) : Py.result (option Z) :=
  match default (EInt 0) (metadata !! "Orientation") with
  | EInt n => Py.getitem ORIENTATIONS n
  | EText _ => Py.Raise Py.TypeError
  end.

(** The image after the first three lines of [resize_image]. *)
Definition oriented (metadata : gmap string exif) (img : Image) : Py.result Image :=
  let* degree := degree_to_rotate metadata in
  Py.Ok match degree with
        | Some d => rotate d img
        | None => img
        end.

Definition targets : list Q := [320; 640; 960; 1280]%Q.

(** [(round(width * s), round(height * s))] *)
Definition new_size (width height : Z) (s : Q) : Py.result (Z * Z) :=
  let* w := Float.mul_int width s in
  let* h := Float.mul_int height s in
  Py.Ok (Float.round w, Float.round h).

Definition resize_image (img : Image) (metadata : gmap string exif)
  : Py.result (list Image) :=
  let* img := oriented metadata img in
  let '(width, height) := size img in
  let larger_dimension := if (width >? height)%Z then width else height in
  let* scales := Py.mapM (fun x => Float.div_int x larger_dimension) targets in
  let* new_sizes := Py.mapM (new_size width height) scales in
  Py.mapM (fun sz => resize sz LANCZOS img) new_sizes.

End Pillow.

(** ** [create_img_tag] *)

Definition assets_url : string := "{{ site.assets_url }}".

(** ['%s/%d-%d.jpg' % (assets_url, oid, w)] *)
Definition jpg_url (oid w : Z) : string :=
  assets_url ++ "/" ++ Str.fmt_d oid ++ "-" ++ Str.fmt_d w ++ ".jpg".

(** ['%s/%d-%d.jpg %dw' % (assets_url, oid, w, w)] *)
Definition srcset_entry (oid w : Z) : string :=
  jpg_url oid w ++ " " ++ Str.fmt_d w ++ "w".

Definition sizes_attr : string :=
  "sizes=" ++ Str.dq ++ "(min-width: 700px) 50vw, calc(100vw - 2rem)" ++ Str.dq ++ " ".

Definition alt_attr : string :=
  "alt=" ++ Str.dq ++ "{{ page.summary }}" ++ Str.dq ++ " ".

(** A [str] is true when it is not empty. *)
Definition truthy (s : string) : bool :=
  match s with
  | EmptyString => false
  | String _ _ => true
  end.

Definition create_img_tag (oid : Z) (widths : list Z) (summary : string)
  : Py.result string :=
  let* w1 := Py.getitem widths 1 in
  let src := jpg_url oid w1 in
  let srcset := map (srcset_entry oid) widths in
  let img_tag := "<img src=" ++ Str.dq ++ src ++ Str.dq ++ " " in
  (* the format call looks up its fields 0 to 3 among the entries *)
  let* s0 := Py.getitem srcset 0 in
  let* s1 := Py.getitem srcset 1 in
  let* s2 := Py.getitem srcset 2 in
  let* s3 := Py.getitem srcset 3 in
  let img_tag := img_tag ++ "srcset=" ++ Str.dq ++ s0 ++ ", " ++ s1 ++ ", " ++ s2 ++ ", " ++ s3
                         ++ Str.dq ++ " " in
  let img_tag := img_tag ++ sizes_attr in
  let img_tag := img_tag ++ (if truthy summary then alt_attr else EmptyString) in
  let img_tag := img_tag ++ "/>" in
  Py.Ok img_tag.

(** ** [autolink_posts] *)

(** [/(\d+)] at the head of a text: the digits and the text after
    them. *)
Definition post_reference (s : string) : option (string * string) :=
  match s with
  | String c t =>
      if Ascii.eqb c "/"
      then match Re.digit_run t with
           | (EmptyString, _) => None
           | (ds, rest) => Some (ds, rest)
           end
      else None
  | EmptyString => None
  end.

(** The pattern [(^|\W)/(\d+)] tried at one place of the text,
    [at_start] telling whether that place is the start of the text: the
    two groups and the text after the match.  The alternatives of the
    first group are tried in their order. *)
Definition match_reference (at_start : bool) (s : string)
  : option (string * string * string) :=
  match (if at_start then post_reference s else None) with
  | Some (ds, rest) => Some (EmptyString, ds, rest)
  | None =>
      match s with
      | String c t =>
          if Re.is_word c then None
          else match post_reference t with
               | Some (ds, rest) => Some (String c EmptyString, ds, rest)
               | None => None
               end
      | EmptyString => None
      end
  end.

(** The link that replaces the reference [/ds]: the template after its
    first group, for a [domain] without backslash. *)
Definition link (domain ds : string) : string :=
  "<a href=" ++ Str.dq ++ "http://" ++ domain ++ "/" ++ ds ++ Str.dq ++ ">/" ++ ds ++ "</a>".

(** [re.sub]: the matches are looked for from left to right, each from
    the end of the one before; what no match covers is kept.  A match
    is never empty, so that as many steps as the text has characters
    are enough. *)
Fixpoint sub_references (fuel : nat) (domain : string) (at_start : bool) (s : string)
  : string :=
  match fuel with
  | O => s
  | S fuel' =>
      match match_reference at_start s with
      | Some (g1, g2, rest) =>
          g1 ++ link domain g2 ++ sub_references fuel' domain false rest
      | None =>
          match s with
          | String c t => String c (sub_references fuel' domain false t)
          | EmptyString => EmptyString
          end
      end
  end.

Definition autolink_posts (domain : string) (text : string) : string :=
  if truthy text then sub_references (String.length text) domain true text
  else EmptyString.

(** ** The settings and the calls to the outside *)

(** [DRY] of the environment, the entries [aws-bucket] and [domain] of
    [config.ini], and the directory of the program. *)
Record settings := Settings {
  DRY : option string;
  aws_bucket : string;
  site_domain : string;
  uploader_dirpath : string
}.

(** [if DRY] *)
Definition dry (env : settings) : bool :=
  match DRY env with
  | Some s => truthy s
  | None => false
  end.

(** The calls a function makes to the logger, the file system, the image
    library and the object store.  The calls to the logger do not
    raise. *)
Inductive call : Type :=
| LogInfo (msg : string)
| LogDebug (msg : string)
| Remove (path : string)
| OpenFile (path mode : string)
| WriteFile (path contents : string)
| CloseFile (path : string)
| PutObject (bucket key body acl : string)
| ImageOpen (path : string)
| ImageSave (img : Image) (path : string)
| ImageClose (img : Image).

(** The calls that the world answers: all but those to the logger,
    which do not raise, and the opening of the picture, whose outcome
    is given to [process_image]. *)
Definition outside (c : call) : bool :=
  match c with
  | LogInfo _ | LogDebug _ | ImageOpen _ => false
  | _ => true
  end.

(** [os.path.basename(p)]: what follows the last slash. *)
Definition basename (p : string) : string := List.last (Str.split "/" p) EmptyString.

(** ** [delete] and [upload_files] *)

Definition delete (env : settings) (world : Run.world call) (paths : list string)
  : Run.run call unit :=
  Run.for_each
    (fun path =>
       Run.note (LogInfo ("Deleting " ++ path)) ;;
       if dry env then mret tt else Run.perform world (Remove path))
    paths.

(** The body of an object is the file opened at [path]. *)
Definition upload_files (env : settings) (world : Run.world call) (file_paths : list string)
  : Run.run call unit :=
  Run.for_each
    (fun path =>
       let file_name := basename path in
       Run.note (LogInfo ("Uploading " ++ path ++ " to Amazon S3")) ;;
       if dry env then mret tt
       else
         Run.perform world (OpenFile path "rb") ;;
         Run.closing
           (Run.perform world (PutObject (aws_bucket env) file_name path "public-read"))
           (Run.perform world (CloseFile path)))
    file_paths.

(** ** [get_img_data] *)

(** [getexif] is what [img._getexif()] does: it raises, or returns
    [None] or the tags of the picture with their values; [EXIF_TAGS] is
    the table of the tag names.  On [None] the call of [items] raises the
    [AttributeError] that the handler catches. *)
Definition get_img_data (EXIF_TAGS : gmap Z string)
    (getexif : Py.result (option (list (Z * exif)))) : Py.result (gmap string exif) :=
  match getexif with
  | Py.Ok (Some items) =>
      Py.Ok (fold_left
               (fun acc kv =>
                  match EXIF_TAGS !! fst kv with
                  | Some name => <[name := snd kv]> acc
                  | None => acc
                  end)
               items (empty : gmap string exif))
  | Py.Ok None => Py.Ok empty
  | Py.Raise Py.AttributeError => Py.Ok empty
  | Py.Raise e => Py.Raise e
  end.

(** ** [process_image] *)

(** The dictionary [post_object] as [upload] makes it: the identifier
    and the summary are there from the start, the other entries are
    added on the way. *)
Record post := Post {
  p_oid : Z;
  p_summary : string;
  p_date : option string;
  p_og_image : option string;
  p_content : option string
}.

(** ['%d-%d.jpg' % (oid, w)] *)
Definition jpg_name (oid w : Z) : string :=
  Str.fmt_d oid ++ "-" ++ Str.fmt_d w ++ ".jpg".

(** [dt.split(' ')[0].replace(':', '-')] *)
Definition exif_date (dt : string) : Py.result string :=
  let* first := Py.getitem (Str.split " " dt) 0%Z in
  Py.Ok (Str.replace ":" "-" first).

(** [max(l)] *)
Definition max_of (l : list Z) : Py.result Z :=
  match l with
  | [] => Py.Raise (Py.ValueError "max() arg is an empty sequence")
  | x :: l' => Py.Ok (fold_left Z.max l' x)
  end.

(** [opened] is the outcome of [Image.open(img_path)] and [getexif]
    that of [img._getexif()]; the [world] answers the other calls.
    The result is the calls made, the dictionary as the call leaves it,
    and the outcome. *)
Definition process_image (env : settings) (EXIF_TAGS : gmap Z string)
    (bbox : Z -> Z * Z -> Z * Z) (world : Run.world call) (post_object : post)
    (img_path : string) (opened : Py.result Image)
    (getexif : Py.result (option (list (Z * exif))))
  : list call * post * Py.result unit :=
  let oid := p_oid post_object in
  let calls := [LogInfo ("Making image post #" ++ Str.fmt_d oid); ImageOpen img_path] in
  match opened with
  | Py.Raise e => (calls, post_object, Py.Raise e)
  | Py.Ok img =>
  match get_img_data EXIF_TAGS getexif with
  | Py.Raise e => (calls, post_object, Py.Raise e)
  | Py.Ok metadata =>
  match
    match metadata !! "DateTime" with
    | Some (EText dt) => Py.fmap Some (exif_date dt)
    | Some (EInt _) => Py.Raise Py.AttributeError
    | None => Py.Ok (p_date post_object)
    end
  with
  | Py.Raise e => (calls, post_object, Py.Raise e)
  | Py.Ok date =>
  let post_object :=
    Post oid (p_summary post_object) date (p_og_image post_object)
      (p_content post_object) in
  let calls :=
    (calls
     ++ [LogInfo ("Resizing image #" ++ Str.fmt_d oid ++ " (" ++ img_path ++ ")")])%list in
  match resize_image bbox img metadata with
  | Py.Raise e => (calls, post_object, Py.Raise e)
  | Py.Ok resized =>
  let widths := map (fun r => fst (size r)) resized in
  let new_files := map (fun w => path_join TEMP_PATH (jpg_name oid w)) widths in
  match
    (Run.for_each
       (fun rf => Run.perform world (ImageSave (fst rf) (snd rf)) ;;
                  Run.perform world (ImageClose (fst rf)))
       (combine resized new_files) ;;
     Run.perform world (ImageClose img) ;;
     upload_files env world new_files ;;
     delete env world (img_path :: new_files))
      calls
  with
  | (calls, Py.Raise e) => (calls, post_object, Py.Raise e)
  | (calls, Py.Ok _) =>
  match max_of widths with
  | Py.Raise e => (calls, post_object, Py.Raise e)
  | Py.Ok widest =>
  let post_object :=
    Post oid (p_summary post_object) date (Some (jpg_name oid widest))
      (p_content post_object) in
  match create_img_tag oid widths (p_summary post_object) with
  | Py.Raise e => (calls, post_object, Py.Raise e)
  | Py.Ok tag =>
      (calls,
       Post oid (p_summary post_object) date (Some (jpg_name oid widest)) (Some tag),
       Py.Ok tt)
  end end end end end end end.

(** ** [create_post] *)

(** The list [lines] of the post written for the day [date]. *)
Definition post_lines (env : settings) (date : Datetime.date) (post_object : post)
  : Py.result (list string) :=
  let oid := p_oid post_object in
  let summary := p_summary post_object in
  let lines :=
    ["---"; "layout: post";
     ("summary: '" ++ (if truthy summary then summary else "Post #" ++ Str.fmt_d oid)
      ++ "'")%string] in
  let lines :=
    (lines ++ match p_og_image post_object with
              | Some name => [("og_image: " ++ name)%string]
              | None => []
              end)%list in
  let* content := Py.of_option Py.KeyError (p_content post_object) in
  let lines :=
    (lines
     ++ ["---"; EmptyString; "<p>"; "  <time>";
         ("    <a href=" ++ Str.dq ++ "/" ++ Str.fmt_d oid ++ Str.dq ++ ">"
          ++ Datetime.date_str date ++ "</a>")%string;
         "  </time>";
         ("  <a href=" ++ Str.dq ++ "/" ++ Str.fmt_d oid ++ Str.dq ++ ">")%string;
         ("    " ++ content)%string;
         "  </a>"])%list in
  let lines :=
    (lines ++ (if truthy summary
               then [("  <span>" ++ autolink_posts (site_domain env) summary
                      ++ "</span>")%string]
               else []))%list in
  Py.Ok (lines ++ ["</p>"; EmptyString])%list.

(** The path of the file of a post. *)
Definition post_path (env : settings) (today : Datetime.date) (oid : Z) : string :=
  path_join (uploader_dirpath env)
    ("blog/_posts/" ++ post_name (Datetime.isoformat today) oid).

(** [today] is what [datetime.date.today()] returns.  The calls are
    those of a run in which the file of the post can be written. *)
Definition create_post (env : settings) (today : Datetime.date) (post_object : post)
  : list call * Py.result unit :=
  let oid := p_oid post_object in
  let calls := [LogInfo ("Writing post #" ++ Str.fmt_d oid)] in
  match
    (let* date := match p_date post_object with
                  | Some text => Datetime.strptime text
                  | None => Py.Ok today
                  end in
     post_lines env date post_object)
  with
  | Py.Raise e => (calls, Py.Raise e)
  | Py.Ok lines =>
      let contents := Str.join Str.lf lines in
      let file_name := post_path env today oid in
      ((calls ++ [LogDebug contents]
        ++ (if dry env then []
            else [OpenFile file_name "w"; WriteFile file_name contents;
                  CloseFile file_name]))%list,
       Py.Ok tt)
  end.

End Server.


(* ================================================================== *)
(** * Properties of the signature verifier *)
(* ================================================================== *)

Import Server.

Module HmacFacts.

Lemma hex_byte_ascii (b : byte) :
  forallb (fun c => Str.code c <? 128)
    [Sha256.hex_char (Str.Z_of_byte b / 16); Sha256.hex_char (Str.Z_of_byte b mod 16)] = true.
Proof. destruct b; reflexivity. Qed.

(** A hexadecimal digest is ASCII text. *)
Lemma hex_is_ascii (bs : list byte) : Str.is_ascii (Sha256.hex bs) = true.
Proof.
  unfold Str.is_ascii, Str.chars, Sha256.hex.
  rewrite list_ascii_of_string_of_list_ascii.
  induction bs as [|b bs IH]; [reflexivity|].
  cbn [flat_map]. rewrite forallb_app, IH, andb_true_r.
  apply hex_byte_ascii.
Qed.

(** Against a digest, [compare_digest] decides equality of ASCII text. *)
Lemma compare_hexdigest (key msg : list byte) (s : string) :
  Str.is_ascii s = true ->
  Hmac.compare_digest (Hmac.hexdigest key msg) s
  = Py.Ok (String.eqb (Hmac.hexdigest key msg) s).
Proof.
  intros Hs. unfold Hmac.compare_digest.
  unfold Hmac.hexdigest at 1. rewrite hex_is_ascii, Hs. reflexivity.
Qed.

End HmacFacts.

Section Verifier.

Variable cfg : config.

Local Abbreviation signed := (computed_signature cfg).

Lemma verify_replay now timestamp token signature :
  verify_mailgun_request cfg now (Some token) timestamp token signature
  = (Some token, Py.Raise ReplayDetected).
Proof. unfold verify_mailgun_request. rewrite decide_True; reflexivity. Qed.

Lemma verify_fresh_token now cached timestamp token signature :
  cached <> Some token ->
  verify_mailgun_request cfg now cached timestamp token signature
  = (Some token, check_fresh cfg now timestamp token signature).
Proof.
  intros Hne. unfold verify_mailgun_request.
  rewrite decide_False; [reflexivity | congruence].
Qed.

Lemma check_signature_good timestamp token :
  check_signature cfg timestamp token (signed timestamp token) = Py.Ok tt.
Proof.
  unfold check_signature, computed_signature.
  rewrite HmacFacts.compare_hexdigest by apply HmacFacts.hex_is_ascii.
  cbn [Py.bind]. rewrite String.eqb_refl. reflexivity.
Qed.

Lemma check_signature_ascii timestamp token signature :
  Str.is_ascii signature = true ->
  check_signature cfg timestamp token signature
  = if String.eqb (signed timestamp token) signature
    then Py.Ok tt else Py.Raise SignatureMismatch.
Proof.
  intros Hs. unfold check_signature, computed_signature.
  rewrite HmacFacts.compare_hexdigest by assumption. reflexivity.
Qed.

Lemma check_fresh_old now timestamp token signature a :
  age now timestamp = Py.Ok a -> (60 < a)%Q ->
  check_fresh cfg now timestamp token signature = Py.Raise Expired.
Proof.
  intros Ha Hlt. unfold check_fresh. rewrite Ha. cbn [Py.bind].
  destruct (Qlt_le_dec 60 a) as [_|Hle]; [reflexivity|].
  exfalso. exact (Qlt_not_le _ _ Hlt Hle).
Qed.

Lemma check_fresh_recent now timestamp token signature a :
  age now timestamp = Py.Ok a -> (a <= 60)%Q ->
  check_fresh cfg now timestamp token signature
  = check_signature cfg timestamp token signature.
Proof.
  intros Ha Hle. unfold check_fresh. rewrite Ha. cbn [Py.bind].
  destruct (Qlt_le_dec 60 a) as [Hlt|_]; [|reflexivity].
  exfalso. exact (Qlt_not_le _ _ Hlt Hle).
Qed.

(** A run of deliveries that repeat the stored token is refused whole,
    and the stored token stays. *)
Lemma serve_repeats token repeats :
  Forall (fun d => d_token d = token) repeats ->
  serve cfg (Some token) repeats
  = (Some token, map (fun _ => Py.Raise ReplayDetected) repeats).
Proof.
  induction 1 as [|d ds Hd _ IH]; [reflexivity|].
  cbn [serve map]. rewrite Hd, verify_replay, IH. reflexivity.
Qed.

(** No failure of the later checks is mistaken for a replay. *)
Lemma check_fresh_not_replay now timestamp token signature :
  check_fresh cfg now timestamp token signature <> Py.Raise ReplayDetected.
Proof.
  unfold check_fresh, age, Float.sub_int, Float.of_int, Str.int.
  destruct (Str.int_chars _) as [ts|]; cbn [Py.of_option Py.bind]; [|discriminate].
  destruct (Float.overflows _); cbn [Py.bind]; [discriminate|].
  destruct (Qlt_le_dec _ _); [discriminate|].
  unfold check_signature, Hmac.compare_digest.
  destruct (_ && _); cbn [Py.bind]; [|discriminate].
  destruct (String.eqb _ _); discriminate.
Qed.

(** C1. A delivery whose token is not the stored one, whose timestamp
    is at most 60 seconds old and whose signature is the HMAC-SHA256,
    under the shared key and in hexadecimal, of the timestamp followed
    by the token, is accepted; every delivery that follows it with the
    same token is refused with [ReplayDetected], whatever its clock,
    timestamp and signature: of a run of deliveries with one token
    exactly the first is accepted. *)
Theorem verify_accepts_exactly_once now cached timestamp token ts a repeats :
  cached <> Some token ->
  Str.int timestamp = Py.Ok ts ->
  Float.sub_int now ts = Py.Ok a ->
  (a <= 60)%Q ->
  Forall (fun d => d_token d = token) repeats ->
  serve cfg cached
    (Delivery now timestamp token
       (Hmac.hexdigest (Str.encode_utf8 (mailgun_key cfg))
          (Str.encode_utf8 (timestamp ++ token)))
     :: repeats)
  = (Some token,
     Py.Ok tt
     :: map (fun _ => Py.Raise
                        (Py.ValueError "Mailgun token is identical to the previous one"))
          repeats).
Proof.
  intros Hne Hts Ha Hle Hrep.
  assert (Hage : age now timestamp = Py.Ok a).
  { unfold age. rewrite Hts. exact Ha. }
  change (Hmac.hexdigest _ _) with (signed timestamp token).
  cbn [serve at_time d_timestamp d_token d_signature].
  rewrite verify_fresh_token by assumption.
  rewrite (check_fresh_recent _ _ _ _ a) by assumption.
  rewrite check_signature_good, (serve_repeats _ _ Hrep). reflexivity.
Qed.

(** C2. The checks run in the order replay, freshness, signature: a
    repeated token is refused whatever the rest, an old timestamp is
    refused whatever the signature.  Every call that gets past the
    token comparison stores its token, also when it then fails; the
    stored token is left as it was exactly when the call fails with
    [ReplayDetected]. *)
Theorem verify_check_order now cached timestamp token signature :
  let out := verify_mailgun_request cfg now cached timestamp token signature in
  (cached = Some token -> out = (cached, Py.Raise ReplayDetected))
  /\ (cached <> Some token ->
      fst out = Some token
      /\ (forall a, age now timestamp = Py.Ok a -> (60 < a)%Q ->
                    snd out = Py.Raise Expired)
      /\ (forall a, age now timestamp = Py.Ok a -> (a <= 60)%Q ->
                    snd out = check_signature cfg timestamp token signature))
  /\ (fst out = cached <-> snd out = Py.Raise ReplayDetected).
Proof.
  cbv zeta. split; [|split].
  - intros ->. apply verify_replay.
  - intros Hne. rewrite verify_fresh_token by assumption. cbn [fst snd].
    split; [reflexivity|]. split; intros a Ha Hcmp.
    + eapply check_fresh_old; eassumption.
    + eapply check_fresh_recent; eassumption.
  - destruct (decide (cached = Some token)) as [->|Hne].
    + rewrite verify_replay. cbn [fst snd]. split; reflexivity.
    + rewrite verify_fresh_token by assumption. cbn [fst snd]. split.
      * intros Heq. congruence.
      * intros Hr. exfalso. exact (check_fresh_not_replay _ _ _ _ Hr).
Qed.

(** C3. For a token that is not the stored one and a timestamp that
    reads as the integer [ts], the call fails with [Expired] when the
    clock minus [ts] is more than 60, whatever the signature; at 60 or
    less the freshness check passes and the signature decides. *)
Theorem verify_freshness now cached timestamp token signature ts a :
  cached <> Some token ->
  Str.int timestamp = Py.Ok ts ->
  Float.sub_int now ts = Py.Ok a ->
  let r := snd (verify_mailgun_request cfg now cached timestamp token signature) in
  ((60 < a)%Q -> r = Py.Raise Expired)
  /\ ((a <= 60)%Q -> r = check_signature cfg timestamp token signature).
Proof.
  intros Hne Hts Ha r. subst r.
  assert (Hage : age now timestamp = Py.Ok a).
  { unfold age. rewrite Hts. exact Ha. }
  rewrite verify_fresh_token by assumption. cbn [snd]. split; intros Hcmp.
  - eapply check_fresh_old; eassumption.
  - eapply check_fresh_recent; eassumption.
Qed.

(** C4, as the code has it.  For a call that passes the replay and the
    freshness check: it returns exactly when the signature is the
    hexadecimal HMAC-SHA256, under the shared key, of the timestamp
    followed by the token; it fails with [SignatureMismatch] exactly
    when the signature differs from it and is ASCII text; and it fails
    with [TypeError], which the comparison raises, exactly when the
    signature holds a character outside ASCII. *)
Theorem verify_signature now cached timestamp token signature ts a :
  cached <> Some token ->
  Str.int timestamp = Py.Ok ts ->
  Float.sub_int now ts = Py.Ok a ->
  (a <= 60)%Q ->
  let expected :=
    Hmac.hexdigest (Str.encode_utf8 (mailgun_key cfg))
      (Str.encode_utf8 (timestamp ++ token)) in
  let r := snd (verify_mailgun_request cfg now cached timestamp token signature) in
  (r = Py.Ok tt <-> signature = expected)
  /\ (r = Py.Raise
             (Py.ValueError "Computed signature does not match request signature")
      <-> signature <> expected /\ Str.is_ascii signature = true)
  /\ (r = Py.Raise Py.TypeError <-> Str.is_ascii signature = false).
Proof.
  intros Hne Hts Ha Hle expected r. subst r.
  assert (Hage : age now timestamp = Py.Ok a).
  { unfold age. rewrite Hts. exact Ha. }
  change expected with (signed timestamp token). clear expected.
  rewrite verify_fresh_token by assumption. cbn [snd].
  rewrite (check_fresh_recent _ _ _ _ a) by assumption.
  destruct (Str.is_ascii signature) eqn:Hs.
  - rewrite check_signature_ascii by assumption.
    destruct (String.eqb_spec (signed timestamp token) signature) as [Heq|Hneq].
    + split; [|split].
      * split; [intros _; congruence | reflexivity].
      * split; [discriminate | intros [H _]; congruence].
      * split; discriminate.
    + split; [|split].
      * split; [discriminate | intros H; congruence].
      * split; [intros _; split; [congruence | reflexivity] | reflexivity].
      * split; discriminate.
  - assert (Hr : check_signature cfg timestamp token signature = Py.Raise Py.TypeError).
    { unfold check_signature, Hmac.compare_digest. rewrite Hs, andb_false_r. reflexivity. }
    rewrite Hr. split; [|split].
    + split; [discriminate|]. intros ->. unfold computed_signature in Hs.
      unfold Hmac.hexdigest in Hs. rewrite HmacFacts.hex_is_ascii in Hs. discriminate Hs.
    + split; [discriminate | intros [_ H]; discriminate H].
    + split; reflexivity.
Qed.

End Verifier.

(** The digest of the reference implementation for the key ["key-0f3a"],
    the timestamp ["1501718219"] and the token ["beefc0ffeef00dc001"]. *)
Lemma hexdigest_example :
  Hmac.hexdigest (Str.encode_utf8 "key-0f3a")
                 (Str.encode_utf8 ("1501718219" ++ "beefc0ffeef00dc001"))
  = "1815a5e8c54675b405d978e30fac45948d646ea13486bc67dd23de4c7aeca815".
Proof. vm_compute. reflexivity. Qed.

Lemma verify_accepts_exactly_once_witness :
  serve (Config "key-0f3a") None
    [Delivery 1501718220 "1501718219" "beefc0ffeef00dc001"
       "1815a5e8c54675b405d978e30fac45948d646ea13486bc67dd23de4c7aeca815";
     Delivery 1501718221 "1501718219" "beefc0ffeef00dc001"
       "1815a5e8c54675b405d978e30fac45948d646ea13486bc67dd23de4c7aeca815";
     Delivery 1501718222 "1501718219" "beefc0ffeef00dc001" "forged"]
  = (Some "beefc0ffeef00dc001",
     [Py.Ok tt;
      Py.Raise (Py.ValueError "Mailgun token is identical to the previous one");
      Py.Raise (Py.ValueError "Mailgun token is identical to the previous one")]).
Proof.
  rewrite <- hexdigest_example.
  exact (verify_accepts_exactly_once (Config "key-0f3a") 1501718220 None
           "1501718219" "beefc0ffeef00dc001" 1501718219
           (Float.b64 (1501718220 - Float.b64 (inject_Z 1501718219)))
           [Delivery 1501718221 "1501718219" "beefc0ffeef00dc001"
              (Hmac.hexdigest (Str.encode_utf8 "key-0f3a")
                 (Str.encode_utf8 ("1501718219" ++ "beefc0ffeef00dc001")));
            Delivery 1501718222 "1501718219" "beefc0ffeef00dc001" "forged"]
           ltac:(discriminate)
           ltac:(vm_compute; reflexivity)
           ltac:(vm_compute; reflexivity)
           ltac:(vm_compute; discriminate)
           ltac:(repeat constructor)).
Defined.

Lemma verify_freshness_witness :
  let sig := Hmac.hexdigest (Str.encode_utf8 "key-0f3a")
               (Str.encode_utf8 ("1501718219" ++ "beefc0ffeef00dc001")) in
  snd (verify_mailgun_request (Config "key-0f3a") 1501718280 None
         "1501718219" "beefc0ffeef00dc001" sig) = Py.Raise Expired
  /\ snd (verify_mailgun_request (Config "key-0f3a") 1501718279 None
         "1501718219" "beefc0ffeef00dc001" sig)
     = check_signature (Config "key-0f3a") "1501718219" "beefc0ffeef00dc001" sig.
Proof.
  intros sig. split.
  - apply (proj1 (verify_freshness (Config "key-0f3a") 1501718280 None
                    "1501718219" "beefc0ffeef00dc001" sig 1501718219
                    (Float.b64 (1501718280 - Float.b64 (inject_Z 1501718219)))
                    ltac:(discriminate) ltac:(vm_compute; reflexivity)
                    ltac:(vm_compute; reflexivity))).
    vm_compute. reflexivity.
  - apply (proj2 (verify_freshness (Config "key-0f3a") 1501718279 None
                    "1501718219" "beefc0ffeef00dc001" sig 1501718219
                    (Float.b64 (1501718279 - Float.b64 (inject_Z 1501718219)))
                    ltac:(discriminate) ltac:(vm_compute; reflexivity)
                    ltac:(vm_compute; reflexivity))).
    vm_compute. discriminate.
Defined.

Lemma verify_signature_witness :
  (snd (verify_mailgun_request (Config "key-0f3a") 1501718220 None
          "1501718219" "beefc0ffeef00dc001"
          "1815a5e8c54675b405d978e30fac45948d646ea13486bc67dd23de4c7aeca815")
   = Py.Ok tt)
  /\ (snd (verify_mailgun_request (Config "key-0f3a") 1501718220 None
             "1501718219" "beefc0ffeef00dc001"
             "this-test-is-not-gonna-work-because-the-signature-is-not-invalid")
      = Py.Raise
          (Py.ValueError "Computed signature does not match request signature")).
Proof.
  split.
  - apply (proj1 (verify_signature (Config "key-0f3a") 1501718220 None
                    "1501718219" "beefc0ffeef00dc001"
                    "1815a5e8c54675b405d978e30fac45948d646ea13486bc67dd23de4c7aeca815"
                    1501718219
                    (Float.b64 (1501718220 - Float.b64 (inject_Z 1501718219)))
                    ltac:(discriminate) ltac:(vm_compute; reflexivity)
                    ltac:(vm_compute; reflexivity) ltac:(vm_compute; discriminate))).
    symmetry. exact hexdigest_example.
  - apply (proj1 (proj2 (verify_signature (Config "key-0f3a") 1501718220 None
                    "1501718219" "beefc0ffeef00dc001"
                    "this-test-is-not-gonna-work-because-the-signature-is-not-invalid"
                    1501718219
                    (Float.b64 (1501718220 - Float.b64 (inject_Z 1501718219)))
                    ltac:(discriminate) ltac:(vm_compute; reflexivity)
                    ltac:(vm_compute; reflexivity) ltac:(vm_compute; discriminate)))).
    split; [|vm_compute; reflexivity].
    cbn [mailgun_key]. rewrite hexdigest_example. discriminate.
Defined.

(** A signature with a character outside ASCII, here [e] with an acute
    accent, differs from the digest, and the call fails with
    [TypeError], not with [SignatureMismatch], where the digest itself
    is accepted. *)
Lemma verify_signature_counterexample :
  snd (verify_mailgun_request (Config "key-0f3a") 1501718220 None
         "1501718219" "beefc0ffeef00dc001" (String (ascii_of_nat 233) "f"))
  = Py.Raise Py.TypeError
  /\ String (ascii_of_nat 233) "f"
     <> Hmac.hexdigest (Str.encode_utf8 "key-0f3a")
          (Str.encode_utf8 ("1501718219" ++ "beefc0ffeef00dc001"))
  /\ snd (verify_mailgun_request (Config "key-0f3a") 1501718220 None
            "1501718219" "beefc0ffeef00dc001"
            "1815a5e8c54675b405d978e30fac45948d646ea13486bc67dd23de4c7aeca815")
     = Py.Ok tt.
Proof.
  split; [vm_compute; reflexivity|]. split; [|vm_compute; reflexivity].
  rewrite hexdigest_example. discriminate.
Qed.

(* ================================================================== *)
(** * Properties of the attachment fetcher *)
(* ================================================================== *)

Module StrFacts.

Lemma prefix_app (p s : string) : String.prefix p (p ++ s) = true.
Proof.
  induction p as [|c p IH].
  - destruct s; reflexivity.
  - change (String c p ++ s)%string with (String c (p ++ s)).
    cbn [String.prefix].
    destruct (ascii_dec c c) as [_|Hne]; [exact IH | congruence].
Qed.

Lemma contains_prefix (p s : string) :
  String.prefix p s = true -> Str.contains p s = true.
Proof. intros H. destruct s; cbn [Str.contains]; rewrite H; reflexivity. Qed.

(** A text contains what stands in its middle. *)
Lemma contains_infix (p a b : string) : Str.contains p (a ++ p ++ b) = true.
Proof.
  induction a as [|c a IH].
  - change (Str.contains p (p ++ b) = true).
    apply contains_prefix, prefix_app.
  - change (Str.contains p (String c (a ++ p ++ b)) = true).
    cbn [Str.contains]. rewrite IH. apply orb_true_r.
Qed.

End StrFacts.

Section Attachments.

Variable net : json -> Py.result response.
Variable fs : Run.world event.

Lemma download_unsupported fields rest url name ct :
  assoc "url" fields = Some url ->
  assoc "name" fields = Some name ->
  assoc "content-type" fields = Some (JStr ct) ->
  Str.startswith "image" ct = false ->
  download_attachments net fs (JArr (JObj fields :: rest))
  = ([], Py.Raise (UnsupportedType ct)).
Proof.
  intros Hu Hn Hc Hs. unfold download_attachments.
  change (item0 (JArr (JObj fields :: rest))) with (Py.Ok (JObj fields)).
  cbn [Py.bind field]. rewrite Hu, Hn, Hc. cbn [Py.of_option Py.bind].
  rewrite Hs. reflexivity.
Qed.

(** C8. Only the first entry of the attachment list is looked at; an
    empty list fails with [NoAttachment] (an [IndexError]).  When the
    first entry, a descriptor with its url, name and content type, has a
    content type that does not begin with ["image"], the call fails with
    [UnsupportedType], a [ValueError] whose message contains that
    content type, and nothing has been requested or written. *)
Theorem download_attachments_first_entry :
  download_attachments net fs (JArr []) = ([], Py.Raise NoAttachment)
  /\ (forall first rest,
        download_attachments net fs (JArr (first :: rest))
        = download_attachments net fs (JArr [first]))
  /\ (forall fields rest url name ct,
        assoc "url" fields = Some url ->
        assoc "name" fields = Some name ->
        assoc "content-type" fields = Some (JStr ct) ->
        Str.startswith "image" ct = false ->
        exists msg,
          download_attachments net fs (JArr (JObj fields :: rest))
          = ([], Py.Raise (Py.ValueError msg))
          /\ UnsupportedType ct = Py.ValueError msg
          /\ Str.contains ct msg = true).
Proof.
  split; [reflexivity|]. split; [reflexivity|].
  intros fields rest url name ct Hu Hn Hc Hs.
  exists ("Unsupported file type '" ++ ct ++ "'")%string.
  split; [|split].
  - exact (download_unsupported _ _ _ _ _ Hu Hn Hc Hs).
  - reflexivity.
  - apply StrFacts.contains_infix.
Qed.

End Attachments.

Lemma download_attachments_first_entry_witness :
  download_attachments (fun _ => Py.Raise Py.HTTPError) (fun _ _ => Py.Ok tt)
    (JArr [JObj [("url", JStr "http://download.attachment/bad-type.txt");
                 ("name", JStr "bad-type.txt");
                 ("content-type", JStr "text/plain")]])
  = ([], Py.Raise (Py.ValueError "Unsupported file type 'text/plain'")).
Proof.
  destruct (proj2 (proj2 (download_attachments_first_entry
                            (fun _ => Py.Raise Py.HTTPError) (fun _ _ => Py.Ok tt)))
              [("url", JStr "http://download.attachment/bad-type.txt");
               ("name", JStr "bad-type.txt");
               ("content-type", JStr "text/plain")] []
              (JStr "http://download.attachment/bad-type.txt")
              (JStr "bad-type.txt") "text/plain"
              eq_refl eq_refl eq_refl eq_refl) as [msg [Hrun [Hmsg _]]].
  rewrite Hrun. rewrite <- Hmsg. reflexivity.
Defined.

(* ================================================================== *)
(** * Properties of the identifier assignment *)
(* ================================================================== *)

Module TextFacts.

Lemma append_assoc (a b c : string) : ((a ++ b) ++ c = a ++ b ++ c)%string.
Proof.
  induction a as [|x a IH]; [reflexivity|].
  change (String x ((a ++ b) ++ c) = String x (a ++ b ++ c)). now rewrite IH.
Qed.

Lemma chars_app (a b : string) : Str.chars (a ++ b) = Str.chars a ++ Str.chars b.
Proof.
  induction a as [|x a IH]; [reflexivity|].
  change (x :: Str.chars (a ++ b) = x :: (Str.chars a ++ Str.chars b)).
  now rewrite IH.
Qed.

(** ** Decimal numerals *)

Lemma digit_char_spec (d : Z) :
  0 <= d < 10 ->
  Str.is_digit (Str.digit_char d) = true /\ Str.code (Str.digit_char d) = 48 + d.
Proof.
  intros H.
  assert (Hd : d = 0 \/ d = 1 \/ d = 2 \/ d = 3 \/ d = 4 \/ d = 5 \/ d = 6
               \/ d = 7 \/ d = 8 \/ d = 9) by lia.
  repeat (destruct Hd as [->|Hd]; [split; reflexivity|]). subst d. split; reflexivity.
Qed.

Lemma digits_fuel_all_digits (fuel : nat) :
  forall n acc,
    Forall (fun c => Str.is_digit c = true) (Str.chars acc) ->
    Forall (fun c => Str.is_digit c = true) (Str.chars (Str.digits_fuel fuel n acc)).
Proof.
  induction fuel as [|fuel IH]; intros n acc Hacc; [exact Hacc|].
  cbn [Str.digits_fuel].
  assert (Hacc' : Forall (fun c => Str.is_digit c = true)
                    (Str.chars (String (Str.digit_char (n mod 10)) acc))).
  { constructor; [|exact Hacc].
    apply digit_char_spec, Z.mod_pos_bound. lia. }
  destruct (n <? 10); [exact Hacc' | apply IH, Hacc'].
Qed.

Lemma digits_all_digits (n : Z) :
  Forall (fun c => Str.is_digit c = true) (Str.chars (Str.digits n)).
Proof. apply digits_fuel_all_digits. constructor. Qed.

(** Reading the numeral of [n] in front of a text shifts [n] into the
    number read so far. *)
Lemma int_digits_fuel (fuel : nat) :
  forall n s,
    0 <= n < 2 ^ Z.of_nat (S fuel) ->
    exists k, 0 <= k /\ forall prev a,
        Str.int_digits (Str.chars (Str.digits_fuel (S fuel) n s)) prev a
        = Str.int_digits (Str.chars s) true (a * 10 ^ k + n).
Proof.
  induction fuel as [|fuel IH]; intros n s Hn.
  - exists 1. split; [lia|]. intros prev a. cbn [Str.digits_fuel].
    change (2 ^ Z.of_nat 1) with 2 in Hn.
    replace (n <? 10) with true by (symmetry; apply Z.ltb_lt; lia).
    rewrite Z.mod_small by lia.
    destruct (digit_char_spec n ltac:(lia)) as [Hd Hc].
    change (Str.chars (String (Str.digit_char n) s))
      with (Str.digit_char n :: Str.chars s).
    cbn [Str.int_digits]. rewrite Hd, Hc. f_equal. lia.
  - cbn [Str.digits_fuel]. destruct (Z.ltb_spec n 10) as [Hlt|Hge].
    + exists 1. split; [lia|]. intros prev a.
      rewrite Z.mod_small by lia.
      destruct (digit_char_spec n ltac:(lia)) as [Hd Hc].
      change (Str.chars (String (Str.digit_char n) s))
        with (Str.digit_char n :: Str.chars s).
      cbn [Str.int_digits]. rewrite Hd, Hc. f_equal. lia.
    + assert (Hq : 0 <= n / 10 < 2 ^ Z.of_nat (S fuel)).
      { split; [apply Z.div_pos; lia|].
        apply Z.div_lt_upper_bound; [lia|].
        rewrite (Nat2Z.inj_succ (S fuel)), Z.pow_succ_r in Hn by lia. lia. }
      destruct (IH (n / 10) (String (Str.digit_char (n mod 10)) s) Hq)
        as [k [Hk Hread]].
      exists (k + 1). split; [lia|]. intros prev a.
      change (Str.digits_fuel fuel (n / 10) (String (Str.digit_char (n mod 10)) s))
        with (Str.digits_fuel fuel (n / 10) (String (Str.digit_char (n mod 10)) s)).
      rewrite Hread.
      destruct (digit_char_spec (n mod 10) (Z.mod_pos_bound n 10 ltac:(lia)))
        as [Hd Hc].
      change (Str.chars (String (Str.digit_char (n mod 10)) s))
        with (Str.digit_char (n mod 10) :: Str.chars s).
      cbn [Str.int_digits]. rewrite Hd, Hc. f_equal.
      rewrite Z.pow_add_r, Z.pow_1_r by lia.
      pose proof (Z.div_mod n 10 ltac:(lia)). lia.
Qed.

Lemma lstrip_digits (l : list ascii) :
  Forall (fun c => Str.is_digit c = true) l -> Str.lstrip l = l.
Proof.
  destruct 1 as [|c l Hc _]; [reflexivity|]. cbn [Str.lstrip].
  replace (Str.is_space c) with false; [reflexivity|].
  unfold Str.is_digit, Str.is_space in *. lia.
Qed.

Lemma strip_digits (l : list ascii) :
  Forall (fun c => Str.is_digit c = true) l -> Str.strip l = l.
Proof.
  intros H. unfold Str.strip. rewrite (lstrip_digits l H).
  rewrite lstrip_digits by (apply Forall_rev; exact H).
  apply rev_involutive.
Qed.

Lemma digit_not_char (c x : ascii) :
  Str.is_digit c = true -> Str.is_digit x = false -> c <> x.
Proof. intros Hc Hx ->. congruence. Qed.

Lemma int_chars_digits (l : list ascii) :
  Forall (fun c => Str.is_digit c = true) l ->
  Str.int_chars l = Str.int_digits l false 0.
Proof.
  destruct 1 as [|c l Hc _]; [reflexivity|]. unfold Str.int_chars.
  destruct (Ascii.eqb_spec c "-") as [->|_]; [discriminate Hc|].
  destruct (Ascii.eqb_spec c "+") as [->|_]; [discriminate Hc|].
  reflexivity.
Qed.

(** [int] reads back the numeral that ['%d'] writes. *)
Lemma int_digits_roundtrip (n : Z) : 0 <= n -> Str.int (Str.digits n) = Py.Ok n.
Proof.
  intros Hn. unfold Str.int.
  rewrite strip_digits, int_chars_digits by apply digits_all_digits.
  unfold Str.digits.
  destruct (int_digits_fuel (Z.to_nat (Z.log2 n)) n EmptyString) as [k [_ Hread]].
  { split; [exact Hn|]. rewrite Nat2Z.inj_succ, Z2Nat.id by apply Z.log2_nonneg.
    destruct (Z.eq_dec n 0) as [->|Hne]; [reflexivity|].
    apply Z.log2_spec. lia. }
  rewrite Hread. change (Str.chars EmptyString) with (@nil ascii).
  cbn [Str.int_digits Py.of_option]. f_equal; lia.
Qed.

Lemma fmt_d_nonneg (n : Z) : 0 <= n -> Str.fmt_d n = Str.digits n.
Proof.
  intros Hn. unfold Str.fmt_d.
  replace (n <? 0) with false by (symmetry; apply Z.ltb_ge; exact Hn). reflexivity.
Qed.

Lemma digits_without (x : ascii) (n : Z) :
  Str.is_digit x = false -> ~ In x (Str.chars (Str.digits n)).
Proof.
  intros Hx Hin.
  pose proof (proj1 (List.Forall_forall _ _) (digits_all_digits n) x Hin) as Hd.
  cbv beta in Hd. congruence.
Qed.

(** ** Splitting *)

Lemma split_without (sep : ascii) (s : string) :
  ~ In sep (Str.chars s) -> Str.split sep s = [s].
Proof.
  induction s as [|c s IH]; intros Hs; [reflexivity|].
  cbn [Str.split]. destruct (Ascii.eqb_spec c sep) as [->|_].
  - exfalso. apply Hs. left. reflexivity.
  - rewrite IH; [reflexivity|]. intros Hin. apply Hs. right. exact Hin.
Qed.

Lemma split_at_first (sep : ascii) (a b : string) :
  ~ In sep (Str.chars a) ->
  Str.split sep (a ++ String sep b) = a :: Str.split sep b.
Proof.
  induction a as [|c a IH]; intros Ha.
  - change (Str.split sep (String sep b) = EmptyString :: Str.split sep b).
    cbn [Str.split]. rewrite Ascii.eqb_refl. reflexivity.
  - change (Str.split sep (String c (a ++ String sep b))
            = String c a :: Str.split sep b).
    cbn [Str.split]. destruct (Ascii.eqb_spec c sep) as [->|_].
    + exfalso. apply Ha. left. reflexivity.
    + rewrite IH; [reflexivity|]. intros Hin. apply Ha. right. exact Hin.
Qed.

Lemma split_after_sep (sep : ascii) (a b : string) :
  exists pieces, pieces <> []
                 /\ Str.split sep (a ++ String sep b) = pieces ++ Str.split sep b.
Proof.
  induction a as [|c a [pieces [Hne IH]]].
  - exists [EmptyString]. split; [discriminate|].
    change (Str.split sep (String sep b) = EmptyString :: Str.split sep b).
    cbn [Str.split]. rewrite Ascii.eqb_refl. reflexivity.
  - change (String c a ++ String sep b)%string with (String c (a ++ String sep b)).
    cbn [Str.split]. rewrite IH. destruct (Ascii.eqb c sep).
    + exists (EmptyString :: pieces). split; [discriminate | reflexivity].
    + destruct pieces as [|p ps]; [congruence|].
      exists (String c p :: ps). split; [discriminate | reflexivity].
Qed.

(** ** Indexing *)

Lemma getitem_first {A : Type} (x : A) (l : list A) : Py.getitem (x :: l) 0 = Py.Ok x.
Proof. reflexivity. Qed.

Lemma getitem_last {A : Type} (l : list A) (x : A) :
  Py.getitem (l ++ [x]) (-1) = Py.Ok x.
Proof.
  unfold Py.getitem. change (-1 <? 0) with true. cbv iota.
  rewrite length_app. cbn [length].
  replace (Z.of_nat (length l + 1) + -1) with (Z.of_nat (length l)) by lia.
  replace (Z.of_nat (length l) <? 0) with false by (symmetry; apply Z.ltb_ge; lia).
  rewrite Nat2Z.id, nth_error_app2, Nat.sub_diag by lia. reflexivity.
Qed.

Lemma getitem_last_nil {A : Type} : Py.getitem (@nil A) (-1) = Py.Raise Py.IndexError.
Proof. reflexivity. Qed.

End TextFacts.

Module OidFacts.

Lemma post_name_split (date : string) (oid : Z) :
  0 <= oid ->
  post_name date oid
  = ((date ++ String "-" (Str.digits oid)) ++ String "." "md")%string.
Proof.
  intros Hoid. unfold post_name. rewrite TextFacts.fmt_d_nonneg by exact Hoid.
  rewrite TextFacts.append_assoc. reflexivity.
Qed.

(** The identifier is read back from the name of a post. *)
Lemma post_oid_of_name (date : string) (oid : Z) :
  ~ In "."%char (Str.chars date) -> 0 <= oid ->
  post_oid (post_name date oid) = Py.Ok oid.
Proof.
  intros Hdate Hoid. unfold post_oid. rewrite post_name_split by exact Hoid.
  rewrite TextFacts.split_at_first.
  2:{ rewrite TextFacts.chars_app. intros Hin. apply in_app_or in Hin.
      destruct Hin as [Hin|Hin]; [exact (Hdate Hin)|].
      destruct Hin as [Heq|Hin]; [discriminate Heq|].
      revert Hin. apply TextFacts.digits_without. reflexivity. }
  rewrite TextFacts.getitem_first. cbn [Py.bind].
  destruct (TextFacts.split_after_sep "-" date (Str.digits oid))
    as [pieces [_ Hsplit]].
  rewrite Hsplit, TextFacts.split_without
    by (apply TextFacts.digits_without; reflexivity).
  rewrite TextFacts.getitem_last. cbn [Py.bind].
  apply TextFacts.int_digits_roundtrip, Hoid.
Qed.

Lemma mapM_post_oid (posts : list (string * Z)) :
  Forall (fun p => ~ In "."%char (Str.chars (fst p)) /\ 0 <= snd p) posts ->
  Py.mapM post_oid (map (fun p => post_name (fst p) (snd p)) posts)
  = Py.Ok (map snd posts).
Proof.
  induction 1 as [|p posts [Hdate Hoid] _ IH]; [reflexivity|].
  cbn [map Py.mapM]. rewrite post_oid_of_name, IH by assumption. reflexivity.
Qed.

(** The last entry of the sorted list is the largest. *)
Lemma sorted_last_is_max (oids : list Z) :
  oids <> [] ->
  exists top, Py.getitem (merge_sort Z.le oids) (-1) = Py.Ok top
              /\ In top oids /\ Forall (fun n => n <= top) oids.
Proof.
  intros Hne.
  pose proof (merge_sort_Permutation Z.le oids) as Hperm.
  pose proof (StronglySorted_merge_sort Z.le oids) as Hsorted.
  destruct (exists_last (l := merge_sort Z.le oids)) as [front [top Heq]].
  { intros Hnil. rewrite Hnil in Hperm.
    apply Permutation_nil in Hperm. exact (Hne Hperm). }
  rewrite Heq in Hperm, Hsorted. exists top. rewrite Heq. split; [|split].
  - apply TextFacts.getitem_last.
  - apply (Permutation_in _ Hperm), in_or_app. right. left. reflexivity.
  - apply List.Forall_forall. intros n Hn.
    apply (Permutation_in _ (Permutation_sym Hperm)), in_app_or in Hn.
    destruct Hn as [Hn|[<-|[]]]; [|lia].
    apply (StronglySorted_app_1_elem_of Z.le front [top] n top Hsorted).
    + apply list_elem_of_In, Hn.
    + apply list_elem_of_In. left. reflexivity.
Qed.

End OidFacts.

(** C9. For a listing, not empty, of posts named [{date}-{oid}.md] (a
    date has no dot, an identifier is a natural number), the new
    identifier is one more than the largest identifier of the listing;
    with no post at all the call fails with [IndexError].  The suffixes
    0, 1 and 3 give 4. *)
Theorem get_new_oid_next :
  (forall posts : list (string * Z),
      posts <> [] ->
      Forall (fun p => ~ In "."%char (Str.chars (fst p)) /\ 0 <= snd p) posts ->
      exists top,
        In top (map snd posts)
        /\ Forall (fun p => snd p <= top) posts
        /\ get_new_oid (map (fun p => post_name (fst p) (snd p)) posts)
           = Py.Ok (top + 1))
  /\ get_new_oid [] = Py.Raise Py.IndexError
  /\ get_new_oid ["2012-05-15-0.md"; "2016-11-02-1.md"; "2017-01-16-3.md"]
     = Py.Ok 4.
Proof.
  split; [|split; reflexivity].
  intros posts Hne Hposts.
  destruct (OidFacts.sorted_last_is_max (map snd posts)) as [top [Hlast [Hin Hmax]]].
  { destruct posts; [congruence | discriminate]. }
  exists top. split; [exact Hin|]. split.
  - apply List.Forall_forall. intros p Hp.
    apply (proj1 (List.Forall_forall _ _) Hmax), in_map, Hp.
  - unfold get_new_oid. rewrite OidFacts.mapM_post_oid by exact Hposts.
    cbn [Py.bind]. rewrite Hlast. reflexivity.
Qed.

Lemma get_new_oid_next_witness :
  exists top,
    In top [0; 1; 3]
    /\ Forall (fun p : string * Z => snd p <= top)
         [("2012-05-15", 0); ("2016-11-02", 1); ("2017-01-16", 3)]
    /\ get_new_oid [post_name "2012-05-15" 0; post_name "2016-11-02" 1;
                    post_name "2017-01-16" 3]
       = Py.Ok (top + 1).
Proof.
  apply (proj1 get_new_oid_next
           [("2012-05-15", 0); ("2016-11-02", 1); ("2017-01-16", 3)]).
  - discriminate.
  - repeat constructor; cbn; try lia; intuition discriminate.
Defined.

(* ================================================================== *)
(** * Properties of the image tag *)
(* ================================================================== *)

Module TagFacts.

(** ** Searching a text that has numbers in it *)

Lemma prefix_sep (c : ascii) (p : string) :
  ~ In c (Str.chars p) ->
  forall u b, String.prefix p (u ++ String c b) = String.prefix p u.
Proof.
  induction p as [|y p IH]; intros Hc u b.
  - destruct u; reflexivity.
  - assert (Hy : y <> c) by (intros ->; apply Hc; left; reflexivity).
    assert (Hp : ~ In c (Str.chars p)) by (intros H; apply Hc; right; exact H).
    destruct u as [|x u].
    + change (String.prefix (String y p) (String c b) = false).
      cbn [String.prefix]. destruct (ascii_dec y c); [contradiction | reflexivity].
    + change (String.prefix (String y p) (String x (u ++ String c b))
              = String.prefix (String y p) (String x u)).
      cbn [String.prefix]. destruct (ascii_dec y x); [apply IH, Hp | reflexivity].
Qed.

Lemma contains_nil (p : string) :
  Str.contains p EmptyString = String.prefix p EmptyString.
Proof. cbn [Str.contains]. apply orb_false_r. Qed.

(** A match does not run over a character that the pattern lacks. *)
Lemma contains_sep (c : ascii) (p a b : string) :
  ~ In c (Str.chars p) ->
  Str.contains p (a ++ String c b) = Str.contains p a || Str.contains p b.
Proof.
  intros Hc. induction a as [|x a IH].
  - change (Str.contains p (String c b)
            = Str.contains p EmptyString || Str.contains p b).
    cbn [Str.contains].
    rewrite (prefix_sep c p Hc EmptyString b : String.prefix p (String c b) = _).
    rewrite orb_false_r. reflexivity.
  - change (Str.contains p (String x (a ++ String c b))
            = Str.contains p (String x a) || Str.contains p b).
    cbn [Str.contains]. rewrite IH.
    rewrite (prefix_sep c p Hc (String x a) b
             : String.prefix p (String x (a ++ String c b)) = _).
    rewrite orb_assoc. reflexivity.
Qed.

Lemma contains_nil_le (p b : string) :
  Str.contains p EmptyString = true -> Str.contains p b = true.
Proof.
  rewrite contains_nil. destruct p; [|discriminate]. intros _.
  destruct b; reflexivity.
Qed.

Lemma contains_drop_run (p run b : string) :
  (forall c, In c (Str.chars run) -> ~ In c (Str.chars p)) ->
  Str.contains p (run ++ b) = Str.contains p b.
Proof.
  induction run as [|c run IH]; intros Hrun; [reflexivity|].
  change (Str.contains p (EmptyString ++ String c (run ++ b)) = Str.contains p b).
  rewrite contains_sep by (apply Hrun; left; reflexivity).
  rewrite IH by (intros x Hx; apply Hrun; right; exact Hx).
  destruct (Str.contains p EmptyString) eqn:Hnil; [|reflexivity].
  symmetry. apply contains_nil_le, Hnil.
Qed.

Lemma contains_skip (p run a b : string) :
  run <> EmptyString ->
  (forall c, In c (Str.chars run) -> ~ In c (Str.chars p)) ->
  Str.contains p (a ++ run ++ b) = Str.contains p a || Str.contains p b.
Proof.
  intros Hne Hrun. destruct run as [|c run]; [congruence|].
  change (Str.contains p (a ++ String c (run ++ b))
          = Str.contains p a || Str.contains p b).
  rewrite contains_sep by (apply Hrun; left; reflexivity).
  rewrite contains_drop_run by (intros x Hx; apply Hrun; right; exact Hx).
  reflexivity.
Qed.

(** ** What ['%d'] writes *)

Lemma digits_fuel_keeps (fuel : nat) :
  forall n acc, acc <> EmptyString -> Str.digits_fuel fuel n acc <> EmptyString.
Proof.
  induction fuel as [|fuel IH]; intros n acc Hacc; [exact Hacc|].
  cbn [Str.digits_fuel]. destruct (n <? 10); [discriminate|].
  apply IH. discriminate.
Qed.

Lemma fmt_d_nonempty (n : Z) : Str.fmt_d n <> EmptyString.
Proof.
  unfold Str.fmt_d. destruct (n <? 0); [discriminate|].
  unfold Str.digits. cbn [Str.digits_fuel]. destruct (n <? 10); [discriminate|].
  apply digits_fuel_keeps. discriminate.
Qed.

Lemma fmt_d_numeral (n : Z) (c : ascii) :
  In c (Str.chars (Str.fmt_d n)) -> Str.is_numeral_char c = true.
Proof.
  unfold Str.fmt_d, Str.is_numeral_char. destruct (n <? 0); intros Hin.
  - destruct Hin as [<-|Hin]; [reflexivity|].
    rewrite (proj1 (List.Forall_forall _ _) (TextFacts.digits_all_digits _) c Hin).
    reflexivity.
  - rewrite (proj1 (List.Forall_forall _ _) (TextFacts.digits_all_digits _) c Hin).
    reflexivity.
Qed.

Lemma fmt_d_outside (p : string) (n : Z) (c : ascii) :
  Str.free_of_numerals p = true ->
  In c (Str.chars (Str.fmt_d n)) -> ~ In c (Str.chars p).
Proof.
  intros Hp Hc Hin. unfold Str.free_of_numerals in Hp.
  rewrite forallb_forall in Hp. specialize (Hp c Hin).
  rewrite (fmt_d_numeral n c Hc) in Hp. discriminate.
Qed.

(** A pattern without digits and sign is found in a text with numbers
    exactly when one of the fixed pieces contains it. *)
Lemma contains_with_numbers (p : string) (rest : list (Z * string)) :
  Str.free_of_numerals p = true ->
  forall lit,
    Str.contains p (Str.with_numbers lit rest)
    = Str.contains p lit || existsb (fun q => Str.contains p (snd q)) rest.
Proof.
  intros Hp. induction rest as [|[n l] rest IH]; intros lit.
  - unfold Str.with_numbers. cbn [map Str.concat existsb].
    rewrite orb_false_r. f_equal.
    induction lit as [|x lit IHl]; [reflexivity|].
    change (String x (lit ++ EmptyString) = String x lit). now rewrite IHl.
  - change (Str.with_numbers lit ((n, l) :: rest))
      with (lit ++ (Str.fmt_d n ++ l) ++ Str.concat
              (map (fun q => Str.fmt_d (fst q) ++ snd q) rest))%string.
    rewrite TextFacts.append_assoc.
    change (l ++ Str.concat (map (fun q => Str.fmt_d (fst q) ++ snd q) rest))%string
      with (Str.with_numbers l rest).
    rewrite contains_skip.
    + rewrite IH. reflexivity.
    + apply fmt_d_nonempty.
    + intros c. apply fmt_d_outside, Hp.
Qed.

End TagFacts.

Module IndexFacts.

Lemma getitem_0 {A : Type} (a : A) l : Py.getitem (a :: l) 0 = Py.Ok a.
Proof. reflexivity. Qed.

Lemma getitem_1 {A : Type} (a b : A) l : Py.getitem (a :: b :: l) 1 = Py.Ok b.
Proof. reflexivity. Qed.

Lemma getitem_2 {A : Type} (a b c : A) l : Py.getitem (a :: b :: c :: l) 2 = Py.Ok c.
Proof. reflexivity. Qed.

Lemma getitem_3 {A : Type} (a b c d : A) l :
  Py.getitem (a :: b :: c :: d :: l) 3 = Py.Ok d.
Proof. reflexivity. Qed.

Lemma getitem_short {A : Type} (l : list A) (i : Z) :
  0 <= i -> (length l <= Z.to_nat i)%nat -> Py.getitem l i = Py.Raise Py.IndexError.
Proof.
  intros Hi Hlen. unfold Py.getitem.
  replace (i <? 0) with false by (symmetry; apply Z.ltb_ge; exact Hi).
  replace (i <? 0) with false by (symmetry; apply Z.ltb_ge; exact Hi).
  rewrite (proj2 (nth_error_None l (Z.to_nat i)) Hlen). reflexivity.
Qed.

Lemma append_nil_r (s : string) : (s ++ EmptyString)%string = s.
Proof.
  induction s as [|x s IH]; [reflexivity|].
  change (String x (s ++ EmptyString) = String x s). now rewrite IH.
Qed.

End IndexFacts.

Ltac tag_steps :=
  cbn [map];
  rewrite ?IndexFacts.getitem_0, ?IndexFacts.getitem_1, ?IndexFacts.getitem_2,
    ?IndexFacts.getitem_3;
  cbn [Py.bind Str.concat fst snd];
  repeat rewrite TextFacts.append_assoc;
  rewrite ?IndexFacts.append_nil_r.

Section Tag.

Variables (oid w0 w1 w2 w3 : Z) (summary : string).

Local Open Scope string_scope.

(** The fixed text that ends the tag. *)
Let ending : string :=
  "w" ++ Str.dq ++ " " ++ sizes_attr
      ++ (if truthy summary then alt_attr else EmptyString) ++ "/>".

(** The tag as fixed pieces with the numbers between them. *)
Lemma create_img_tag_pieces :
  create_img_tag oid [w0; w1; w2; w3] summary
  = Py.Ok (Str.with_numbers
             ("<img src=" ++ Str.dq ++ assets_url ++ "/")
             [(oid, "-");
              (w1, ".jpg" ++ Str.dq ++ " srcset=" ++ Str.dq ++ assets_url ++ "/");
              (oid, "-"); (w0, ".jpg "); (w0, "w, " ++ assets_url ++ "/");
              (oid, "-"); (w1, ".jpg "); (w1, "w, " ++ assets_url ++ "/");
              (oid, "-"); (w2, ".jpg "); (w2, "w, " ++ assets_url ++ "/");
              (oid, "-"); (w3, ".jpg "); (w3, ending)]).
Proof.
  unfold create_img_tag, Str.with_numbers, ending, srcset_entry, jpg_url.
  tag_steps. reflexivity.
Qed.

Lemma create_img_tag_parts :
  create_img_tag oid [w0; w1; w2; w3] summary
  = Py.Ok (Str.concat
             ["<img src="; Str.dq; jpg_url oid w1; Str.dq; " srcset="; Str.dq;
              srcset_entry oid w0; ", "; srcset_entry oid w1; ", ";
              srcset_entry oid w2; ", "; srcset_entry oid w3; Str.dq; " ";
              sizes_attr; if truthy summary then alt_attr else EmptyString; "/>"]).
Proof.
  unfold create_img_tag, srcset_entry, jpg_url.
  tag_steps. reflexivity.
Qed.

End Tag.

Lemma contains_app_r (p a b : string) :
  Str.contains p b = true -> Str.contains p (a ++ b) = true.
Proof.
  intros Hb. induction a as [|x a IH]; [exact Hb|].
  change (Str.contains p (String x (a ++ b)) = true).
  cbn [Str.contains]. rewrite IH. apply orb_true_r.
Qed.

Lemma sorted_four (w0 w1 w2 w3 : Z) :
  w0 <= w1 -> w1 <= w2 -> w2 <= w3 ->
  merge_sort Z.le [w0; w1; w2; w3] = [w0; w1; w2; w3].
Proof.
  intros H01 H12 H23.
  apply (Sorted_unique Z.le).
  - apply Sorted_merge_sort; apply _.
  - repeat constructor; assumption.
  - apply merge_sort_Permutation.
Qed.

(** The texts that the tag is made of, written out: the quotation mark,
    the address of the file of a width, an entry of the source set, the
    sizing rule and the alternative text. *)
Local Abbreviation quote := (String (ascii_of_nat 34) EmptyString).
#[warnings="-inconsistent-scopes"] Local Abbreviation file_url oid w :=
  ("{{ site.assets_url }}/" ++ Str.fmt_d oid ++ "-" ++ Str.fmt_d w ++ ".jpg")%string.
#[warnings="-inconsistent-scopes"] Local Abbreviation set_entry oid w :=
  (file_url oid w ++ " " ++ Str.fmt_d w ++ "w")%string.
Local Abbreviation sizing_rule :=
  ("sizes=" ++ quote ++ "(min-width: 700px) 50vw, calc(100vw - 2rem)" ++ quote)%string.
Local Abbreviation alt_text :=
  ("alt=" ++ quote ++ "{{ page.summary }}" ++ quote)%string.
#[warnings="-inconsistent-scopes"] Local Abbreviation tag_text oid w0 w1 w2 w3 summary :=
  ("<img src=" ++ quote ++ file_url oid w1 ++ quote
   ++ " srcset=" ++ quote
   ++ set_entry oid w0 ++ ", " ++ set_entry oid w1 ++ ", "
   ++ set_entry oid w2 ++ ", " ++ set_entry oid w3 ++ quote
   ++ " " ++ sizing_rule ++ " "
   ++ match summary with
      | EmptyString => EmptyString
      | String _ _ => alt_text ++ " "
      end
   ++ "/>")%string.

(** The tag for four widths, text by text. *)
Lemma create_img_tag_text (oid w0 w1 w2 w3 : Z) (summary : string) :
  create_img_tag oid [w0; w1; w2; w3] summary
  = Py.Ok (tag_text oid w0 w1 w2 w3 summary).
Proof.
  rewrite create_img_tag_parts. f_equal.
  unfold srcset_entry, jpg_url, sizes_attr, alt_attr, assets_url, Str.dq.
  cbn [Str.concat]. destruct summary; cbn [truthy];
    repeat rewrite TextFacts.append_assoc; rewrite ?IndexFacts.append_nil_r;
    reflexivity.
Qed.

(** The sizing rule stands in the tag. *)
Lemma tag_text_sizes (oid w0 w1 w2 w3 : Z) (summary : string) :
  Str.contains sizing_rule (tag_text oid w0 w1 w2 w3 summary) = true.
Proof.
  do 15 apply contains_app_r.
  apply StrFacts.contains_prefix, StrFacts.prefix_app.
Qed.

(** The alternative text stands in the tag of a summary that is not
    empty, and in no other. *)
Lemma tag_text_alt (oid w0 w1 w2 w3 : Z) (summary : string) :
  Str.contains "alt=" (tag_text oid w0 w1 w2 w3 summary) = truthy summary
  /\ Str.contains alt_text (tag_text oid w0 w1 w2 w3 summary) = truthy summary.
Proof.
  pose proof (eq_trans (eq_sym (create_img_tag_text oid w0 w1 w2 w3 summary))
                (create_img_tag_pieces oid w0 w1 w2 w3 summary)) as Hpieces.
  apply (f_equal (fun r => match r with Py.Ok t => t | Py.Raise _ => EmptyString end))
    in Hpieces.
  cbv beta iota in Hpieces. rewrite Hpieces.
  split; rewrite TagFacts.contains_with_numbers by reflexivity;
    destruct summary; reflexivity.
Qed.

(** C7. For an identifier, four widths in ascending order and a summary,
    the tag is, text by text: the default source, which is the file
    [{oid}-{widths[1]}.jpg] of the second-smallest width; the source set
    with the four files in the order of the widths, each followed by its
    width and [w]; the fixed [sizes] rule; and the [alt] attribute
    exactly when the summary is not empty. *)
Theorem create_img_tag_shape (oid w0 w1 w2 w3 : Z) (summary : string) :
  w0 <= w1 -> w1 <= w2 -> w2 <= w3 ->
  exists tag,
    create_img_tag oid [w0; w1; w2; w3] summary = Py.Ok tag
    /\ tag = tag_text oid w0 w1 w2 w3 summary
    /\ Py.getitem (merge_sort Z.le [w0; w1; w2; w3]) 1 = Py.Ok w1
    /\ Str.contains sizing_rule tag = true
    /\ (Str.contains alt_text tag = true <-> summary <> EmptyString)
    /\ (Str.contains "alt=" tag = true <-> summary <> EmptyString).
Proof.
  intros H01 H12 H23. eexists. split; [apply create_img_tag_text|].
  split; [reflexivity|]. split.
  { rewrite sorted_four by assumption. reflexivity. }
  split; [apply tag_text_sizes|].
  destruct (tag_text_alt oid w0 w1 w2 w3 summary) as [-> ->].
  destruct summary; cbn [truthy]; split; split; congruence.
Qed.

Lemma create_img_tag_shape_witness :
  exists tag,
    create_img_tag 777 [300; 500; 700; 900] EmptyString = Py.Ok tag
    /\ tag = ("<img src=" ++ quote ++ "{{ site.assets_url }}/777-500.jpg" ++ quote
              ++ " srcset=" ++ quote
              ++ "{{ site.assets_url }}/777-300.jpg 300w, "
              ++ "{{ site.assets_url }}/777-500.jpg 500w, "
              ++ "{{ site.assets_url }}/777-700.jpg 700w, "
              ++ "{{ site.assets_url }}/777-900.jpg 900w" ++ quote
              ++ " sizes=" ++ quote ++ "(min-width: 700px) 50vw, calc(100vw - 2rem)"
              ++ quote ++ " />")%string
    /\ Str.contains "alt=" tag = false.
Proof.
  destruct (create_img_tag_shape 777 300 500 700 900 EmptyString
              ltac:(lia) ltac:(lia) ltac:(lia))
    as [tag [Hrun [Htag _]]].
  exists tag. split; [exact Hrun|]. rewrite Htag.
  split; vm_compute; reflexivity.
Defined.

(** C10. With fewer than four widths the call raises [IndexError] (at
    [widths[1]] below two, in the format call below four); with more
    than four the call returns the tag of the first four, text by text:
    its source set lists these four widths and no other. *)
Theorem create_img_tag_arity :
  (forall oid widths summary,
      (length widths < 4)%nat ->
      create_img_tag oid widths summary = Py.Raise Py.IndexError)
  /\ (forall oid w0 w1 w2 w3 more summary,
         create_img_tag oid (w0 :: w1 :: w2 :: w3 :: more) summary
         = Py.Ok (tag_text oid w0 w1 w2 w3 summary)).
Proof.
  split.
  - intros oid widths summary Hlen.
    destruct widths as [|a [|b [|c [|d more]]]]; try reflexivity.
    cbn [length] in Hlen. lia.
  - intros oid w0 w1 w2 w3 more summary.
    rewrite <- create_img_tag_text.
    unfold create_img_tag. cbn [map].
    rewrite !IndexFacts.getitem_0, !IndexFacts.getitem_1,
      !IndexFacts.getitem_2, !IndexFacts.getitem_3. reflexivity.
Qed.

(* ================================================================== *)
(** * Properties of the float arithmetic *)
(* ================================================================== *)

Module FloatFacts.

Local Open Scope Q_scope.


(** ** Rounding to an integer *)

Lemma round_spec (x : Q) :
  x - (1 # 2) <= inject_Z (Float.round x) <= x + (1 # 2).
Proof.
  unfold Float.round.
  pose proof (Qfloor_le x) as Hlo. pose proof (Qlt_floor x) as Hhi.
  rewrite inject_Z_plus in Hhi. change (inject_Z 1) with 1 in Hhi.
  destruct (Qcompare_spec (x - inject_Z (Qfloor x)) (1 # 2)) as [He|Hl|Hg].
  - destruct (Z.even (Qfloor x)).
    + lra.
    + rewrite inject_Z_plus. change (inject_Z 1) with 1. lra.
  - lra.
  - rewrite inject_Z_plus. change (inject_Z 1) with 1. lra.
Qed.

(** A float closer than a half to an integer rounds to it. *)
Lemma round_near (x : Q) (n : Z) :
  inject_Z n - (1 # 2) < x < inject_Z n + (1 # 2) -> Float.round x = n.
Proof.
  intros [Hlo Hhi]. pose proof (round_spec x) as [Rlo Rhi].
  assert (H1 : inject_Z (Float.round x) < inject_Z (n + 1)).
  { rewrite inject_Z_plus. change (inject_Z 1) with 1. lra. }
  assert (H2 : inject_Z (n - 1) < inject_Z (Float.round x)).
  { unfold Z.sub. rewrite inject_Z_plus, inject_Z_opp. change (inject_Z 1) with 1. lra. }
  rewrite <- Zlt_Qlt in H1, H2. lia.
Qed.

(** ** Powers of two *)

Lemma pow2_pos (k : Z) : 0 < 2 ^ k.
Proof. apply Qpower_0_lt. reflexivity. Qed.

Lemma pow2_frac (i j : Z) :
  (0 <= i)%Z -> (0 <= j)%Z ->
  2 ^ (i - j) == inject_Z (2 ^ i) / inject_Z (2 ^ j).
Proof.
  intros Hi Hj. rewrite Qpower_minus by discriminate.
  rewrite !Zpower_Qpower by assumption. reflexivity.
Qed.

Lemma frac_le (a b c d : Z) :
  (0 < b)%Z -> (0 < d)%Z -> (a * d <= c * b)%Z ->
  inject_Z a / inject_Z b <= inject_Z c / inject_Z d.
Proof.
  intros Hb Hd H. destruct b as [|p|p]; try lia. destruct d as [|q|q]; try lia.
  rewrite <- !Qmake_Qdiv. unfold Qle. cbn [Qnum Qden]. exact H.
Qed.

Lemma frac_lt (a b c d : Z) :
  (0 < b)%Z -> (0 < d)%Z -> (a * d < c * b)%Z ->
  inject_Z a / inject_Z b < inject_Z c / inject_Z d.
Proof.
  intros Hb Hd H. destruct b as [|p|p]; try lia. destruct d as [|q|q]; try lia.
  rewrite <- !Qmake_Qdiv. unfold Qlt. cbn [Qnum Qden]. exact H.
Qed.

Lemma frac_one (a : Z) : inject_Z a == inject_Z a / inject_Z 1.
Proof. unfold Qdiv. change (/ inject_Z 1) with 1. ring. Qed.

(** [ilog2] is the binary exponent. *)
Lemma ilog2_spec (a : Q) :
  0 < a -> 2 ^ Float.ilog2 a <= a /\ a < 2 ^ (Float.ilog2 a + 1).
Proof.
  destruct a as [n d]. intros Ha.
  assert (Hn : (0 < n)%Z).
  { unfold Qlt in Ha. cbn [Qnum Qden] in Ha. lia. }
  unfold Float.ilog2. cbn [Qnum Qden].
  destruct (Z.log2_spec n Hn) as [Hn1 Hn2].
  destruct (Z.log2_spec (Z.pos d) (Pos2Z.is_pos d)) as [Hd1 Hd2].
  pose proof (Z.log2_nonneg n) as Hln.
  pose proof (Z.log2_nonneg (Z.pos d)) as Hld.
  set (ln := Z.log2 n) in *. set (ld := Z.log2 (Z.pos d)) in *.
  assert (P1 : (0 < 2 ^ ln)%Z) by (apply Z.pow_pos_nonneg; lia).
  assert (P2 : (0 < 2 ^ ld)%Z) by (apply Z.pow_pos_nonneg; lia).
  destruct (Qle_bool (2 ^ (ln - ld)) (n # d)) eqn:E.
  - apply Qle_bool_iff in E. split; [exact E|].
    replace (ln - ld + 1)%Z with (Z.succ ln - ld)%Z by lia.
    rewrite pow2_frac by lia. rewrite (Qmake_Qdiv n d).
    apply frac_lt; [lia | lia | nia].
  - assert (E' : n # d < 2 ^ (ln - ld)).
    { apply Qnot_le_lt. intros H. apply Qle_bool_iff in H. congruence. }
    split.
    + replace (ln - ld - 1)%Z with (ln - Z.succ ld)%Z by lia.
      rewrite pow2_frac by lia. rewrite (Qmake_Qdiv n d).
      apply frac_le; [apply Z.pow_pos_nonneg; lia | lia | nia].
    + replace (ln - ld - 1 + 1)%Z with (ln - ld)%Z by lia. exact E'.
Qed.

(** ** Rounding to binary64 *)

Lemma b64_pos_eq (x : Q) :
  0 < x -> Float.b64 x = inject_Z (Float.round (x / Float.ulp x)) * Float.ulp x.
Proof.
  destruct x as [n d]. intros Hx. unfold Float.b64. cbn [Qnum].
  destruct n as [|p|p]; try reflexivity; unfold Qlt in Hx; cbn in Hx; lia.
Qed.

Lemma ulp_pos (a : Q) : 0 < Float.ulp a.
Proof. apply pow2_pos. Qed.

Lemma ulp_normal (a : Q) :
  2 ^ (-1022) <= a -> Float.ulp a <= a * (2 * Float.u).
Proof.
  intros Ha.
  assert (Hpos : 0 < a) by (eapply Qlt_le_trans; [apply (pow2_pos (-1022)) | exact Ha]).
  destruct (ilog2_spec a Hpos) as [Hlo Hhi].
  assert (He : (-1022 <= Float.ilog2 a)%Z).
  { assert (H : 2 ^ (-1022) < 2 ^ (Float.ilog2 a + 1)) by (eapply Qle_lt_trans; eassumption).
    apply Qpower_lt_compat_l_inv in H; [lia | reflexivity]. }
  unfold Float.ulp. rewrite Z.max_l by exact He.
  rewrite Qpower_minus by discriminate.
  unfold Qdiv.
  assert (H52 : / 2 ^ 52 == 2 * Float.u) by reflexivity.
  rewrite H52. apply Qmult_le_compat_r; [exact Hlo | discriminate].
Qed.

(** In the normal range rounding is off by at most the fraction [u]. *)
Lemma b64_error (a : Q) :
  2 ^ (-1022) <= a ->
  a * (1 - Float.u) <= Float.b64 a <= a * (1 + Float.u).
Proof.
  intros Ha.
  assert (Hpos : 0 < a) by (eapply Qlt_le_trans; [apply (pow2_pos (-1022)) | exact Ha]).
  rewrite (b64_pos_eq a Hpos).
  pose proof (ulp_pos a) as HU. pose proof (ulp_normal a Ha) as HUa.
  destruct (round_spec (a / Float.ulp a)) as [Rlo Rhi].
  set (U := Float.ulp a) in *.
  set (R := inject_Z (Float.round (a / U))) in *.
  assert (Hq : a / U * U == a) by (field; lra).
  assert (L1 : (a / U - (1 # 2)) * U <= R * U)
    by (apply Qmult_le_compat_r; lra).
  assert (L2 : R * U <= (a / U + (1 # 2)) * U)
    by (apply Qmult_le_compat_r; lra).
  split; lra.
Qed.

(** Integers below [2^53] are floats. *)
Lemma b64_int (n : Z) :
  (0 < n < 2 ^ 53)%Z -> Float.b64 (inject_Z n) == inject_Z n.
Proof.
  intros [Hn0 Hn1].
  assert (Hpos : 0 < inject_Z n) by (rewrite Zlt_Qlt in Hn0; exact Hn0).
  rewrite (b64_pos_eq _ Hpos).
  destruct (ilog2_spec _ Hpos) as [Hlo Hhi].
  set (e := Float.ilog2 (inject_Z n)) in *.
  assert (He0 : (0 <= e)%Z).
  { assert (H : 2 ^ 0 < 2 ^ (e + 1)).
    { eapply Qle_lt_trans; [|exact Hhi]. change (2 ^ 0) with (inject_Z 1).
      rewrite <- (Zle_Qle 1 n). lia. }
    apply (Qpower_lt_compat_l_inv 2 0 (e + 1)) in H; [lia | reflexivity]. }
  assert (He1 : (e < 53)%Z).
  { assert (H : 2 ^ e < 2 ^ 53).
    { eapply Qle_lt_trans; [exact Hlo|]. change (2 ^ 53) with (inject_Z (2 ^ 53)).
      rewrite <- (Zlt_Qlt n (2 ^ 53)). exact Hn1. }
    apply (Qpower_lt_compat_l_inv 2 e 53) in H; [lia | reflexivity]. }
  unfold Float.ulp. fold e. rewrite Z.max_l by lia.
  assert (HU : 2 ^ (e - 52) == 1 / inject_Z (2 ^ (52 - e))).
  { replace (e - 52)%Z with (0 - (52 - e))%Z by lia.
    rewrite pow2_frac by lia. reflexivity. }
  assert (Hk : (0 < 2 ^ (52 - e))%Z) by (apply Z.pow_pos_nonneg; lia).
  assert (Hk' : 0 < inject_Z (2 ^ (52 - e))) by (rewrite Zlt_Qlt in Hk; exact Hk).
  assert (Hx : inject_Z n / 2 ^ (e - 52) == inject_Z (n * 2 ^ (52 - e))).
  { rewrite HU, inject_Z_mult. field. lra. }
  rewrite (round_near _ (n * 2 ^ (52 - e))).
  - rewrite HU, inject_Z_mult. field. lra.
  - rewrite Hx. split; lra.
Qed.


Lemma inj_le (a b : Z) : (a <= b)%Z -> inject_Z a <= inject_Z b.
Proof. intros H. rewrite <- Zle_Qle. exact H. Qed.

Lemma inj_lt (a b : Z) : (a < b)%Z -> inject_Z a < inject_Z b.
Proof. intros H. rewrite <- Zlt_Qlt. exact H. Qed.

Lemma tiny_normal : 2 ^ (-1022) <= 1 # (2 ^ 40).
Proof. unfold Qle. vm_compute. discriminate. Qed.

Lemma of_int_small (n : Z) :
  (0 < n < 2 ^ 53)%Z ->
  exists f, Float.of_int n = Py.Ok f /\ f == inject_Z n.
Proof.
  intros Hn. pose proof (b64_int n Hn) as Hf.
  exists (Float.b64 (inject_Z n)). split; [|exact Hf].
  unfold Float.of_int. destruct (Float.overflows _) eqn:E; [|reflexivity].
  exfalso. unfold Float.overflows in E. apply Qle_bool_iff in E.
  rewrite Hf in E.
  assert (H0 : 0 <= inject_Z n) by (apply (inj_le 0 n); lia).
  rewrite (Qabs_pos _ H0) in E.
  assert (H1 : inject_Z n < inject_Z (2 ^ 53)) by (apply inj_lt; lia).
  assert (H2 : inject_Z (2 ^ 53) <= 2 ^ 1024) by (unfold Qle; vm_compute; discriminate).
  lra.
Qed.

(** The exact ratio of a side to the longer side, times the target. *)
Lemma ratio_bounds (T L w : Z) :
  (0 < T)%Z -> (0 < L < 2 ^ 31)%Z -> (0 < w <= L)%Z ->
  let x := inject_Z T / inject_Z L in
  (1 # (2 ^ 31)) <= x /\ 0 < inject_Z w * x <= inject_Z T /\ x <= inject_Z w * x.
Proof.
  intros HT HL Hw x. subst x.
  assert (HLq : 0 < inject_Z L) by (apply (inj_lt 0 L); lia).
  assert (Hwq : 1 <= inject_Z w) by (apply (inj_le 1 w); lia).
  assert (Hx : 0 < inject_Z T / inject_Z L).
  { apply Qlt_shift_div_l; [exact HLq|]. rewrite Qmult_0_l.
    apply (inj_lt 0 T). exact HT. }
  split; [|split; [split|]].
  - change (1 # 2 ^ 31) with (inject_Z 1 / inject_Z (2 ^ 31)).
    apply frac_le; lia.
  - apply Qmult_lt_0_compat; lra.
  - unfold Qdiv. rewrite Qmult_assoc, <- inject_Z_mult.
    apply Qle_shift_div_r; [exact HLq|]. rewrite <- inject_Z_mult.
    apply inj_le. nia.
  - rewrite <- (Qmult_1_l (inject_Z T / inject_Z L)) at 1.
    apply Qmult_le_compat_r; lra.
Qed.

Ltac u_literal := change Float.u with (1 # 9007199254740992) in *.

(** [x / L] for a target [T]: the scale, off by at most [u]. *)
Lemma scale_float (T L : Z) :
  (0 < T)%Z -> (0 < L < 2 ^ 31)%Z ->
  let x := inject_Z T / inject_Z L in
  exists s, Float.div_int (inject_Z T) L = Py.Ok s
            /\ x * (1 - Float.u) <= s <= x * (1 + Float.u).
Proof.
  intros HT HL x.
  destruct (of_int_small L ltac:(lia)) as [f [Hof Hf]].
  assert (HLq : 0 < inject_Z L) by (apply (inj_lt 0 L); lia).
  unfold Float.div_int. rewrite Hof. cbn [Py.bind].
  destruct (Qeq_bool f 0) eqn:E.
  { apply Qeq_bool_iff in E. rewrite Hf in E. lra. }
  eexists. split; [reflexivity|].
  destruct (ratio_bounds T L L HT HL ltac:(lia)) as [Hx _]. fold x in Hx.
  assert (Hxf : inject_Z T / f == x) by (subst x; rewrite Hf; reflexivity).
  assert (H31 : (1 # 2 ^ 40) <= (1 # 2 ^ 31)) by (unfold Qle; vm_compute; discriminate).
  pose proof (b64_error (inject_Z T / f)) as Herr.
  pose proof tiny_normal as Htiny.
  set (q := inject_Z T / f) in *. clearbody q x.
  set (c40 := 1 # 2 ^ 40) in *. set (c31 := 1 # 2 ^ 31) in *.
  set (tiny := 2 ^ (-1022)) in *. clearbody c40 c31 tiny.
  u_literal. assert (Hn : tiny <= q) by lra.
  specialize (Herr Hn). set (b := Float.b64 q) in *. clearbody b. lra.
Qed.

(** [w * s]: the scaled side before rounding, off by at most [3u]. *)
Lemma side_float (w : Z) (s x : Q) :
  (0 < w < 2 ^ 31)%Z ->
  (1 # (2 ^ 31)) <= x ->
  x * (1 - Float.u) <= s <= x * (1 + Float.u) ->
  let P := inject_Z w * x in
  exists v, Float.mul_int w s = Py.Ok v
            /\ P * (1 - 3 * Float.u) <= v <= P * (1 + 3 * Float.u).
Proof.
  intros Hw Hx [Hs1 Hs2] P.
  destruct (of_int_small w ltac:(lia)) as [f [Hof Hf]].
  assert (Hwq : 1 <= inject_Z w) by (apply (inj_le 1 w); lia).
  unfold Float.mul_int. rewrite Hof. cbn [Py.bind].
  eexists. split; [reflexivity|].
  assert (Hy1 : inject_Z w * (x * (1 - Float.u)) <= inject_Z w * s)
    by (apply Qmult_le_l; lra).
  assert (Hy2 : inject_Z w * s <= inject_Z w * (x * (1 + Float.u)))
    by (apply Qmult_le_l; lra).
  assert (Hs0 : s <= inject_Z w * s).
  { rewrite <- (Qmult_1_l s) at 1. apply Qmult_le_compat_r; [exact Hwq|].
    u_literal. lra. }
  assert (Hfs : f * s == inject_Z w * s) by (rewrite Hf; reflexivity).
  pose proof (b64_error (f * s)) as Herr.
  pose proof tiny_normal as Htiny.
  assert (H40 : (1 # 2 ^ 40) <= (1 # 2 ^ 31) * (1 - Float.u))
    by (unfold Qle; vm_compute; discriminate).
  assert (H31 : 0 < (1 # 2 ^ 31)) by reflexivity.
  assert (Hxs : (1 # 2 ^ 31) * (1 - Float.u) <= x * (1 - Float.u)).
  { apply Qmult_le_compat_r; [exact Hx|]. u_literal. lra. }
  rewrite !Qmult_assoc in Hy1, Hy2.
  assert (HP : 0 <= P).
  { subst P. apply Qmult_le_0_compat; lra. }
  set (b := Float.b64 (f * s)) in *. set (q := f * s) in *.
  set (y := inject_Z w * s) in *. fold P in Hy1, Hy2.
  clearbody b q y P.
  set (c40 := 1 # 2 ^ 40) in *. set (c31 := 1 # 2 ^ 31) in *.
  set (tiny := 2 ^ (-1022)) in *. clearbody c40 c31 tiny.
  u_literal. assert (Hn : tiny <= q) by lra.
  specialize (Herr Hn). lra.
Qed.

(** Rounding the scaled side gives a nearest integer of the exact
    proportion, and the target itself for the longer side. *)
Lemma round_side (T L w : Z) (v : Q) :
  (0 < T <= 1280)%Z -> (0 < L < 2 ^ 31)%Z -> (0 < w <= L)%Z ->
  let P := inject_Z w * (inject_Z T / inject_Z L) in
  P * (1 - 3 * Float.u) <= v <= P * (1 + 3 * Float.u) ->
  (2 * Z.abs (Float.round v * L - w * T) <= L)%Z
  /\ (w = L -> Float.round v = T).
Proof.
  intros HT HL Hw P [Hv1 Hv2].
  destruct (ratio_bounds T L w ltac:(lia) HL Hw) as [_ [[HP0 HPT] _]].
  fold P in HP0, HPT.
  assert (HLq : 0 < inject_Z L) by (apply (inj_lt 0 L); lia).
  assert (HLb : inject_Z L < inject_Z (2 ^ 31)) by (apply inj_lt; lia).
  assert (HTb : inject_Z T <= inject_Z 1280) by (apply inj_le; lia).
  assert (HPL : P * inject_Z L == inject_Z w * inject_Z T)
    by (subst P; field; lra).
  destruct (round_spec v) as [Rlo Rhi].
  set (r := Float.round v) in *.
  assert (HD : inject_Z (r * L - w * T) == (inject_Z r - P) * inject_Z L).
  { unfold Z.sub. rewrite inject_Z_plus, inject_Z_opp, !inject_Z_mult.
    rewrite <- HPL. ring. }
  change (inject_Z (2 ^ 31)) with 2147483648 in HLb.
  change (inject_Z 1280) with 1280 in HTb.
  split.
  - assert (Hup : (inject_Z r - P) * inject_Z L
                  <= ((1 # 2) + 3840 * Float.u) * inject_Z L).
    { apply Qmult_le_compat_r; [|lra]. u_literal. lra. }
    assert (Hdn : (- ((1 # 2) + 3840 * Float.u)) * inject_Z L
                  <= (inject_Z r - P) * inject_Z L).
    { apply Qmult_le_compat_r; [|lra]. u_literal. lra. }
    set (D := (r * L - w * T)%Z) in *.
    assert (H1 : inject_Z (2 * D) < inject_Z (L + 1)).
    { rewrite inject_Z_mult, inject_Z_plus. change (inject_Z 2) with 2.
      change (inject_Z 1) with 1. u_literal. lra. }
    assert (H2 : inject_Z (- (L + 1)) < inject_Z (2 * D)).
    { rewrite inject_Z_opp, inject_Z_mult, inject_Z_plus. change (inject_Z 2) with 2.
      change (inject_Z 1) with 1. u_literal. lra. }
    rewrite <- Zlt_Qlt in H1, H2. lia.
  - intros ->. apply round_near.
    assert (HPT' : P == inject_Z T) by (subst P; field; lra).
    u_literal. lra.
Qed.

End FloatFacts.

(* ================================================================== *)
(** * Properties of the renditions *)
(* ================================================================== *)

Module ImageFacts.

Lemma larger_is_max (w h : Z) : (if w >? h then w else h) = Z.max w h.
Proof. destruct (Z.gtb_spec w h); lia. Qed.

(** The size computed for one target. *)
Lemma new_size_scaled (T w h : Z) :
  0 < T <= 1280 -> 0 < w < 2 ^ 31 -> 0 < h < 2 ^ 31 ->
  exists s sz,
    Float.div_int (inject_Z T) (Z.max w h) = Py.Ok s
    /\ new_size w h s = Py.Ok sz
    /\ scaled_to T (w, h) sz.
Proof.
  intros HT Hw Hh.
  assert (HL : 0 < Z.max w h < 2 ^ 31) by lia.
  destruct (FloatFacts.scale_float T (Z.max w h) ltac:(lia) HL) as [s [Hs Hsb]].
  destruct (FloatFacts.ratio_bounds T (Z.max w h) (Z.max w h) ltac:(lia) HL ltac:(lia))
    as [Hx _].
  destruct (FloatFacts.side_float w s _ Hw Hx Hsb) as [vw [Hvw Hvwb]].
  destruct (FloatFacts.side_float h s _ Hh Hx Hsb) as [vh [Hvh Hvhb]].
  destruct (FloatFacts.round_side T (Z.max w h) w vw HT HL ltac:(lia) Hvwb)
    as [Hrw Hrw'].
  destruct (FloatFacts.round_side T (Z.max w h) h vh HT HL ltac:(lia) Hvhb)
    as [Hrh Hrh'].
  exists s, (Float.round vw, Float.round vh). split; [exact Hs|]. split.
  - unfold new_size. rewrite Hvw, Hvh. reflexivity.
  - unfold scaled_to. cbn [fst snd]. split; [|split; assumption].
    destruct (Z.max_spec w h) as [[Hlt Hmax]|[Hge Hmax]].
    + rewrite Hmax in *. rewrite (Hrh' eq_refl) in *. nia.
    + rewrite Hmax in *. rewrite (Hrw' eq_refl) in *. nia.
Qed.

End ImageFacts.

Section Renditions.

Variable bbox : Z -> Z * Z -> Z * Z.

(** The orientation that [resize_image] reads: the tag, or 0. *)
Local Abbreviation orientation metadata :=
  (default (EInt 0) (metadata !! "Orientation"%string)).

Lemma table_range (n : Z) :
  -9 <= n <= 8 ->
  Py.getitem ORIENTATIONS n
  = Py.Ok (if (n =? 3) || (n =? -6) then Some (-180)
           else if (n =? 6) || (n =? -3) then Some (-90)
           else if (n =? 8) || (n =? -1) then Some (-270)
           else None).
Proof.
  intros Hn.
  assert (H : n = -9 \/ n = -8 \/ n = -7 \/ n = -6 \/ n = -5 \/ n = -4 \/ n = -3
              \/ n = -2 \/ n = -1 \/ n = 0 \/ n = 1 \/ n = 2 \/ n = 3 \/ n = 4
              \/ n = 5 \/ n = 6 \/ n = 7 \/ n = 8) by lia.
  repeat (destruct H as [->|H]; [reflexivity|]). subst n. reflexivity.
Qed.

Lemma table_outside (n : Z) :
  n < -9 \/ 9 <= n -> Py.getitem ORIENTATIONS n = Py.Raise Py.IndexError.
Proof.
  intros [Hn|Hn]; unfold Py.getitem; change (length ORIENTATIONS) with 9%nat.
  - replace (n <? 0) with true by (symmetry; apply Z.ltb_lt; lia).
    replace (Z.of_nat 9 + n <? 0) with true by (symmetry; apply Z.ltb_lt; lia).
    reflexivity.
  - replace (n <? 0) with false by (symmetry; apply Z.ltb_ge; lia).
    replace (n <? 0) with false by (symmetry; apply Z.ltb_ge; lia).
    rewrite (proj2 (nth_error_None ORIENTATIONS (Z.to_nat n))); [reflexivity|].
    change (length ORIENTATIONS) with 9%nat. lia.
Qed.

(** X1. An orientation from 0 to 8, or a missing tag, never fails: 3
    turns the picture by -180 degrees and keeps its size, 6 and 8 turn
    it by -90 and -270 degrees, the canvas expanded, and swap its sides;
    the other values and a missing tag leave the picture as it is. *)
Theorem orientation_turns (metadata : gmap string exif) (img : Image) (n : Z) :
  orientation metadata = EInt n ->
  0 <= n <= 8 ->
  (n = 3 -> oriented bbox metadata img
            = Py.Ok (MkImage (size img) (history img ++ [Rotate (-180) true])))
  /\ (n = 6 -> oriented bbox metadata img
               = Py.Ok (MkImage (swap (size img)) (history img ++ [Rotate (-90) true])))
  /\ (n = 8 -> oriented bbox metadata img
               = Py.Ok (MkImage (swap (size img)) (history img ++ [Rotate (-270) true])))
  /\ (n <> 3 -> n <> 6 -> n <> 8 -> oriented bbox metadata img = Py.Ok img).
Proof.
  intros Htag Hn. unfold oriented, degree_to_rotate.
  rewrite Htag, table_range by lia. cbn [Py.bind].
  repeat split.
  - intros ->. reflexivity.
  - intros ->. reflexivity.
  - intros ->. reflexivity.
  - intros H3 H6 H8.
    assert (H : n = 0 \/ n = 1 \/ n = 2 \/ n = 4 \/ n = 5 \/ n = 7) by lia.
    repeat (destruct H as [->|H]; [reflexivity|]). subst n. reflexivity.
Qed.

(** X2. An orientation of 9 or more, or below -9, is outside the table:
    [resize_image] raises [IndexError]; an orientation that is no number
    raises [TypeError]. *)
Theorem orientation_outside_table (metadata : gmap string exif) (img : Image) :
  (forall n, orientation metadata = EInt n -> n < -9 \/ 9 <= n ->
             resize_image bbox img metadata = Py.Raise Py.IndexError)
  /\ (forall s, orientation metadata = EText s ->
                resize_image bbox img metadata = Py.Raise Py.TypeError).
Proof.
  split.
  - intros n Htag Hn. unfold resize_image, oriented, degree_to_rotate.
    rewrite Htag, table_outside by exact Hn. reflexivity.
  - intros s Htag. unfold resize_image, oriented, degree_to_rotate.
    rewrite Htag. reflexivity.
Qed.

(** X3. A negative orientation counts from the end of the table: from
    -9 to -1 the call behaves as for that value plus 9, so that -1
    turns the picture as 8 does. *)
Theorem orientation_negative_wraps (metadata : gmap string exif) (img : Image) (n : Z) :
  metadata !! "Orientation"%string = Some (EInt n) ->
  -9 <= n < 0 ->
  resize_image bbox img metadata
  = resize_image bbox img (<["Orientation"%string := EInt (n + 9)]> metadata).
Proof.
  intros Htag Hn. unfold resize_image, oriented, degree_to_rotate.
  rewrite Htag, lookup_insert_eq. cbn [from_option id].
  rewrite !table_range by lia.
  assert (H : n = -9 \/ n = -8 \/ n = -7 \/ n = -6 \/ n = -5 \/ n = -4 \/ n = -3
              \/ n = -2 \/ n = -1) by lia.
  repeat (destruct H as [->|H]; [reflexivity|]). subst n. reflexivity.
Qed.

Lemma oriented_size (metadata : gmap string exif) (img : Image) (n : Z) :
  orientation metadata = EInt n ->
  -9 <= n <= 8 ->
  exists oimg,
    oriented bbox metadata img = Py.Ok oimg
    /\ (size oimg = size img \/ size oimg = swap (size img)).
Proof.
  intros Htag Hn. unfold oriented, degree_to_rotate.
  rewrite Htag, table_range by exact Hn. cbn [Py.bind]. eexists. split; [reflexivity|].
  destruct ((n =? 3) || (n =? -6)); [left; reflexivity|].
  destruct ((n =? 6) || (n =? -3)); [right; reflexivity|].
  destruct ((n =? 8) || (n =? -1)); [right; reflexivity|].
  left. reflexivity.
Qed.

(** The picture that [resize] returns for a size it accepts. *)
Local Abbreviation rendition sz img :=
  (MkImage sz (history img ++ [Resize sz LANCZOS])).

Lemma resize_accepts (sz : Z * Z) (f : resample) (img : Image) :
  1 <= fst sz -> 1 <= snd sz ->
  resize sz f img = Py.Ok (MkImage sz (history img ++ [Resize sz f])).
Proof.
  intros Hw Hh. unfold resize.
  replace (fst sz <? 1) with false by (symmetry; apply Z.ltb_ge; exact Hw).
  replace (snd sz <? 1) with false by (symmetry; apply Z.ltb_ge; exact Hh).
  reflexivity.
Qed.

Lemma resize_refuses (sz : Z * Z) (f : resample) (img : Image) :
  fst sz < 1 \/ snd sz < 1 ->
  resize sz f img = Py.Raise (Py.ValueError "height and width must be > 0").
Proof.
  intros H. unfold resize.
  replace ((fst sz <? 1) || (snd sz <? 1)) with true; [reflexivity|].
  symmetry. apply orb_true_iff. rewrite !Z.ltb_lt. exact H.
Qed.

(** A picture that is not too thin keeps both sides in every
    rendition. *)
Lemma scaled_sides (T : Z) (source new : Z * Z) :
  0 < fst source -> 0 < snd source -> 320 <= T ->
  Z.max (fst source) (snd source) < 640 * Z.min (fst source) (snd source) ->
  scaled_to T source new -> 1 <= fst new /\ 1 <= snd new.
Proof.
  intros Hw Hh HT Hthin [_ [Ha Hb]].
  destruct source as [W H]. destruct new as [a b]. cbn [fst snd] in *.
  set (L := Z.max W H) in *.
  assert (HW : L < 640 * W) by lia. assert (HH : L < 640 * H) by lia.
  split.
  - destruct (Z_lt_le_dec a 1) as [Hlt|Hge]; [exfalso|exact Hge].
    assert (a * L <= 0) by nia. nia.
  - destruct (Z_lt_le_dec b 1) as [Hlt|Hge]; [exfalso|exact Hge].
    assert (b * L <= 0) by nia. nia.
Qed.

(** The sizes asked for a picture that is already oriented. *)
Lemma sizes_of (metadata : gmap string exif) (img oimg : Image) :
  oriented bbox metadata img = Py.Ok oimg ->
  well_sized oimg ->
  exists s1 s2 s3 s4,
    resize_image bbox img metadata
    = Py.mapM (fun sz => resize sz LANCZOS oimg) [s1; s2; s3; s4]
    /\ scaled_to 320 (size oimg) s1 /\ scaled_to 640 (size oimg) s2
    /\ scaled_to 960 (size oimg) s3 /\ scaled_to 1280 (size oimg) s4.
Proof.
  intros Hor [Hw Hh]. unfold resize_image. rewrite Hor. cbn [Py.bind].
  destruct (size oimg) as [w h]. cbn [fst snd] in Hw, Hh.
  rewrite ImageFacts.larger_is_max.
  destruct (ImageFacts.new_size_scaled 320 w h ltac:(lia) Hw Hh) as [x1 [s1 [D1 [N1 S1]]]].
  destruct (ImageFacts.new_size_scaled 640 w h ltac:(lia) Hw Hh) as [x2 [s2 [D2 [N2 S2]]]].
  destruct (ImageFacts.new_size_scaled 960 w h ltac:(lia) Hw Hh) as [x3 [s3 [D3 [N3 S3]]]].
  destruct (ImageFacts.new_size_scaled 1280 w h ltac:(lia) Hw Hh) as [x4 [s4 [D4 [N4 S4]]]].
  exists s1, s2, s3, s4.
  split; [|split; [exact S1|split; [exact S2|split; [exact S3|exact S4]]]].
  unfold targets. cbn [Py.mapM].
  change 320%Q with (inject_Z 320). change 640%Q with (inject_Z 640).
  change 960%Q with (inject_Z 960). change 1280%Q with (inject_Z 1280).
  rewrite D1, D2, D3, D4. cbn [Py.bind Py.mapM].
  rewrite N1, N2, N3, N4. reflexivity.
Qed.

(** The renditions of a picture that is already oriented and not too
    thin. *)
Lemma renditions_of (metadata : gmap string exif) (img oimg : Image) :
  oriented bbox metadata img = Py.Ok oimg ->
  well_sized oimg ->
  Z.max (fst (size oimg)) (snd (size oimg))
  < 640 * Z.min (fst (size oimg)) (snd (size oimg)) ->
  exists s1 s2 s3 s4,
    resize_image bbox img metadata
    = Py.Ok [rendition s1 oimg; rendition s2 oimg; rendition s3 oimg; rendition s4 oimg]
    /\ scaled_to 320 (size oimg) s1 /\ scaled_to 640 (size oimg) s2
    /\ scaled_to 960 (size oimg) s3 /\ scaled_to 1280 (size oimg) s4.
Proof.
  intros Hor Hsized Hthin.
  destruct (sizes_of metadata img oimg Hor Hsized)
    as [s1 [s2 [s3 [s4 [Hrun [S1 [S2 [S3 S4]]]]]]]].
  destruct Hsized as [[Hw _] [Hh _]].
  destruct (scaled_sides 320 _ _ Hw Hh ltac:(lia) Hthin S1) as [A1 B1].
  destruct (scaled_sides 640 _ _ Hw Hh ltac:(lia) Hthin S2) as [A2 B2].
  destruct (scaled_sides 960 _ _ Hw Hh ltac:(lia) Hthin S3) as [A3 B3].
  destruct (scaled_sides 1280 _ _ Hw Hh ltac:(lia) Hthin S4) as [A4 B4].
  exists s1, s2, s3, s4.
  split; [|split; [exact S1|split; [exact S2|split; [exact S3|exact S4]]]].
  rewrite Hrun. cbn [Py.mapM].
  rewrite (resize_accepts s1), (resize_accepts s2), (resize_accepts s3),
    (resize_accepts s4) by assumption.
  reflexivity.
Qed.

(** X4. For a picture with sides from 1 to below 2^31 pixels whose
    longer side is less than 640 times the shorter one, and an
    orientation inside the table, [resize_image] returns four pictures,
    each resized with the Lanczos filter from the oriented picture,
    whose sides are those of the source or, after a quarter turn, the
    swapped ones.  Their longer sides are 320, 640, 960 and 1280, in
    this order, and each side is an integer nearest to the exact
    proportion, although the code computes in binary floating point. *)
Theorem resize_image_renditions (metadata : gmap string exif) (img : Image) (n : Z) :
  orientation metadata = EInt n ->
  -9 <= n <= 8 ->
  well_sized img ->
  Z.max (fst (size img)) (snd (size img))
  < 640 * Z.min (fst (size img)) (snd (size img)) ->
  exists oimg s1 s2 s3 s4,
    oriented bbox metadata img = Py.Ok oimg
    /\ (size oimg = size img \/ size oimg = swap (size img))
    /\ resize_image bbox img metadata
       = Py.Ok [rendition s1 oimg; rendition s2 oimg;
                rendition s3 oimg; rendition s4 oimg]
    /\ scaled_to 320 (size oimg) s1 /\ scaled_to 640 (size oimg) s2
    /\ scaled_to 960 (size oimg) s3 /\ scaled_to 1280 (size oimg) s4.
Proof.
  intros Htag Hn Hsized Hthin.
  destruct (oriented_size metadata img n Htag Hn) as [oimg [Hor Hsz]].
  assert (Hsized' : well_sized oimg
                    /\ Z.max (fst (size oimg)) (snd (size oimg))
                       < 640 * Z.min (fst (size oimg)) (snd (size oimg))).
  { unfold well_sized in *. destruct Hsz as [->| ->]; [tauto|].
    unfold swap. cbn [fst snd]. split; [tauto|lia]. }
  destruct Hsized' as [Hsized' Hthin'].
  destruct (renditions_of metadata img oimg Hor Hsized' Hthin') as [s1 [s2 [s3 [s4 H]]]].
  exists oimg, s1, s2, s3, s4. tauto.
Qed.

(** X5. A picture without pixels cannot be scaled: with both sides 0 and
    an orientation inside the table, [resize_image] raises
    [ZeroDivisionError]. *)
Theorem resize_image_empty_picture (metadata : gmap string exif) (img : Image) (n : Z) :
  orientation metadata = EInt n ->
  -9 <= n <= 8 ->
  size img = (0, 0) ->
  resize_image bbox img metadata = Py.Raise Py.ZeroDivisionError.
Proof.
  intros Htag Hn Hsz.
  destruct (oriented_size metadata img n Htag Hn) as [oimg [Hor Hsz']].
  assert (Hz : size oimg = (0, 0)).
  { destruct Hsz' as [->| ->]; rewrite Hsz; reflexivity. }
  unfold resize_image. rewrite Hor. cbn [Py.bind]. rewrite Hz. reflexivity.
Qed.

(** X7. A very thin picture cannot be resized: when the height is more
    than 640 times the width, the rendition for 320 would have the width
    0, which Pillow refuses, and [resize_image] raises its
    [ValueError]. *)
Theorem resize_image_thin_picture (metadata : gmap string exif) (img : Image) :
  metadata !! "Orientation"%string = None ->
  well_sized img ->
  640 * fst (size img) < snd (size img) ->
  resize_image bbox img metadata
  = Py.Raise (Py.ValueError "height and width must be > 0").
Proof.
  intros Htag Hsized Hthin.
  destruct (sizes_of metadata img img) as [s1 [s2 [s3 [s4 [Hrun [S1 _]]]]]].
  { unfold oriented, degree_to_rotate. rewrite Htag. reflexivity. }
  { exact Hsized. }
  rewrite Hrun. cbn [Py.mapM]. rewrite (resize_refuses s1); [reflexivity|].
  left. destruct Hsized as [Hw Hh]. destruct (size img) as [w h]. destruct s1 as [a b].
  unfold scaled_to in S1. cbn [fst snd] in *.
  destruct S1 as [Hmax [Ha Hb]]. rewrite Z.max_r in Ha, Hb by lia.
  assert (a = 0) by nia. lia.
Qed.

End Renditions.

Section QuarterTurn.

Variable bbox : Z -> Z * Z -> Z * Z.

Lemma mul_int_raises (n : Z) (s : Q) (e : Py.exn) :
  Float.mul_int n s = Py.Raise e -> e = Py.OverflowError.
Proof.
  unfold Float.mul_int, Float.of_int. destruct (Float.overflows _); cbn [Py.bind].
  - intros H. injection H as <-. reflexivity.
  - discriminate.
Qed.

Lemma new_size_swap (w h : Z) (s : Q) :
  new_size h w s = Py.fmap swap (new_size w h s).
Proof.
  unfold new_size.
  destruct (Float.mul_int w s) as [a|e1] eqn:Ew;
    destruct (Float.mul_int h s) as [b|e2] eqn:Eh; cbn [Py.bind Py.fmap];
    try reflexivity.
  rewrite (mul_int_raises _ _ _ Ew), (mul_int_raises _ _ _ Eh). reflexivity.
Qed.

Lemma mapM_new_size_swap (w h : Z) (scales : list Q) :
  Py.mapM (new_size h w) scales = Py.fmap (map swap) (Py.mapM (new_size w h) scales).
Proof.
  induction scales as [|s scales IH]; [reflexivity|].
  cbn [Py.mapM]. rewrite new_size_swap, IH.
  destruct (new_size w h s); [|reflexivity]. cbn [Py.fmap Py.bind].
  destruct (Py.mapM (new_size w h) scales); reflexivity.
Qed.

Lemma resize_swap (sz : Z * Z) (f : resample) (i1 i2 : Image) :
  Py.fmap size (resize (swap sz) f i1) = Py.fmap (fun r => swap (size r)) (resize sz f i2).
Proof.
  unfold resize, swap. cbn [fst snd]. rewrite orb_comm.
  destruct (_ || _); reflexivity.
Qed.

Lemma mapM_resize_swap (sizes : list (Z * Z)) (f : resample) (i1 i2 : Image) :
  Py.fmap (map size) (Py.mapM (fun sz => resize sz f i1) (map swap sizes))
  = Py.fmap (map (fun r => swap (size r))) (Py.mapM (fun sz => resize sz f i2) sizes).
Proof.
  induction sizes as [|sz sizes IH]; [reflexivity|]. cbn [map Py.mapM].
  pose proof (resize_swap sz f i1 i2) as Hsz.
  destruct (resize (swap sz) f i1) as [r1|e1]; destruct (resize sz f i2) as [r2|e2];
    cbn [Py.fmap Py.bind] in *; try discriminate Hsz;
    [|injection Hsz as ->; reflexivity].
  injection Hsz as Hsz.
  destruct (Py.mapM _ (map swap sizes)) as [l1|e1];
    destruct (Py.mapM _ sizes) as [l2|e2];
    cbn [Py.fmap Py.bind map] in *; try discriminate IH;
    [|injection IH as ->; reflexivity].
  injection IH as IH. rewrite Hsz, IH. reflexivity.
Qed.

(** X6. A quarter turn swaps the sides of every rendition: with the
    orientation 6 or 8 the sizes of the renditions are those computed
    without the tag, width and height exchanged, and a failure without
    the tag is the same failure with it. *)
Theorem resize_image_quarter_turn (metadata : gmap string exif) (img : Image) (n : Z) :
  metadata !! "Orientation"%string = None ->
  n = 6 \/ n = 8 ->
  Py.fmap (map size)
    (resize_image bbox img (<["Orientation"%string := EInt n]> metadata))
  = Py.fmap (map (fun r => swap (size r))) (resize_image bbox img metadata).
Proof.
  intros Htag Hn. unfold resize_image, oriented, degree_to_rotate.
  rewrite Htag, lookup_insert_eq. cbn [from_option id].
  assert (Hturn : exists a, Py.getitem ORIENTATIONS n = Py.Ok (Some a)
                            /\ size (rotate bbox a img) = swap (size img)).
  { destruct Hn as [-> | ->]; eexists; split; reflexivity. }
  destruct Hturn as [a [-> Hsz]].
  change (Py.getitem ORIENTATIONS 0) with (Py.Ok (@None Z)). cbn [Py.bind].
  rewrite Hsz. destruct (size img) as [w h]. unfold swap at 1. cbn [fst snd].
  rewrite !ImageFacts.larger_is_max, (Z.max_comm h w).
  destruct (Py.mapM _ targets) as [scales|e]; [|reflexivity]. cbn [Py.bind].
  rewrite mapM_new_size_swap.
  destruct (Py.mapM (new_size w h) scales) as [sizes|e]; [|reflexivity].
  cbn [Py.fmap Py.bind]. apply mapM_resize_swap.
Qed.

End QuarterTurn.

(** ** The orientation and the four sizes *)

Section Orientation.

Variable bbox : Z -> Z * Z -> Z * Z.

(** What an orientation from 0 to 8 asks for: the call that turns the
    picture, with the canvas expanded, and the sides after it. *)
Local Abbreviation turn n :=
  (if n =? 3 then [Rotate (-180) true]
   else if n =? 6 then [Rotate (-90) true]
   else if n =? 8 then [Rotate (-270) true]
   else []).
Local Abbreviation turned n sz :=
  (if (n =? 6) || (n =? 8) then (snd sz, fst sz) else sz).

Lemma oriented_table (metadata : gmap string exif) (img : Image) (n : Z) :
  default (EInt 0) (metadata !! "Orientation"%string) = EInt n ->
  0 <= n <= 8 ->
  oriented bbox metadata img
  = Py.Ok (MkImage (turned n (size img)) (history img ++ turn n)).
Proof.
  intros Htag Hn. unfold oriented, degree_to_rotate. rewrite Htag.
  assert (H : n = 0 \/ n = 1 \/ n = 2 \/ n = 3 \/ n = 4 \/ n = 5 \/ n = 6 \/ n = 7
              \/ n = 8) by lia.
  destruct img as [[w h] hist].
  repeat (destruct H as [->|H]; [cbn; rewrite ?app_nil_r; reflexivity|]).
  subst n. reflexivity.
Qed.

Lemma oriented_renditions (metadata : gmap string exif) (img : Image) (n : Z) :
  default (EInt 0) (metadata !! "Orientation"%string) = EInt n ->
  0 <= n <= 8 ->
  well_sized img ->
  Z.max (fst (size img)) (snd (size img))
  < 640 * Z.min (fst (size img)) (snd (size img)) ->
  exists s1 s2 s3 s4,
    resize_image bbox img metadata
    = Py.Ok (map (fun s => MkImage s (history img ++ turn n ++ [Resize s LANCZOS]))
               [s1; s2; s3; s4])
    /\ scaled_to 320 (turned n (size img)) s1
    /\ scaled_to 640 (turned n (size img)) s2
    /\ scaled_to 960 (turned n (size img)) s3
    /\ scaled_to 1280 (turned n (size img)) s4.
Proof.
  intros Htag Hn Hsized Hthin.
  pose proof (oriented_table metadata img n Htag Hn) as Hor.
  set (oimg := MkImage _ _) in Hor.
  assert (Hsized' : well_sized oimg
                    /\ Z.max (fst (size oimg)) (snd (size oimg))
                       < 640 * Z.min (fst (size oimg)) (snd (size oimg))).
  { subst oimg. unfold well_sized in *. cbn [size].
    destruct ((n =? 6) || (n =? 8)); cbn [fst snd]; [split; [tauto|lia] | tauto]. }
  destruct Hsized' as [Hsized' Hthin'].
  destruct (renditions_of bbox metadata img oimg Hor Hsized' Hthin')
    as [s1 [s2 [s3 [s4 [Hrun H]]]]].
  exists s1, s2, s3, s4. split; [|exact H].
  rewrite Hrun. subst oimg. cbn [map history]. rewrite <- !app_assoc. reflexivity.
Qed.

(** C5 (amended).  For an orientation from 0 to 8, a missing tag
    counting as 0: the value 3 turns the picture by -180 degrees, 6 by
    -90 and 8 by -270 (Pillow counts counter-clockwise, so these are the
    turns by 180, 90 and 270 degrees clockwise), each time with the
    canvas expanded, so that 6 and 8 swap the sides; every other value
    leaves the picture as it is.  For a picture with sides from 1 to
    below 2^31 whose longer side is less than 640 times the shorter
    one, [resize_image] then returns four pictures, each made from the
    picture by that turn, if any, followed by one resize with the
    Lanczos filter. *)
Theorem orientation_correction (metadata : gmap string exif) (img : Image) (n : Z) :
  default (EInt 0) (metadata !! "Orientation"%string) = EInt n ->
  0 <= n <= 8 ->
  well_sized img ->
  Z.max (fst (size img)) (snd (size img))
  < 640 * Z.min (fst (size img)) (snd (size img)) ->
  oriented bbox metadata img
  = Py.Ok (MkImage (turned n (size img)) (history img ++ turn n))
  /\ exists s1 s2 s3 s4,
       resize_image bbox img metadata
       = Py.Ok (map (fun s => MkImage s (history img ++ turn n ++ [Resize s LANCZOS]))
                  [s1; s2; s3; s4]).
Proof.
  intros Htag Hn Hsized Hthin. split; [exact (oriented_table metadata img n Htag Hn)|].
  destruct (oriented_renditions metadata img n Htag Hn Hsized Hthin)
    as [s1 [s2 [s3 [s4 [Hrun _]]]]].
  exists s1, s2, s3, s4. exact Hrun.
Qed.

(** C6 (amended).  For a picture with sides from 1 to below 2^31 whose
    longer side is less than 640 times the shorter one, and an
    orientation from 0 to 8, [resize_image] returns exactly four
    pictures, for the targets 320, 640, 960 and 1280 in this order: the
    longer side of the picture, taken after the turn, becomes the
    target, and each side is an integer nearest to the exact proportion.
    A picture of 1600 by 1200 without the tag gives the sizes 320x240,
    640x480, 960x720 and 1280x960, and with the orientation 6 the sizes
    240x320, 480x640, 720x960 and 960x1280. *)
Theorem resize_image_four_sizes :
  (forall (metadata : gmap string exif) (img : Image) (n : Z),
      default (EInt 0) (metadata !! "Orientation"%string) = EInt n ->
      0 <= n <= 8 ->
      well_sized img ->
      Z.max (fst (size img)) (snd (size img))
      < 640 * Z.min (fst (size img)) (snd (size img)) ->
      exists r1 r2 r3 r4,
        resize_image bbox img metadata = Py.Ok [r1; r2; r3; r4]
        /\ scaled_to 320 (turned n (size img)) (size r1)
        /\ scaled_to 640 (turned n (size img)) (size r2)
        /\ scaled_to 960 (turned n (size img)) (size r3)
        /\ scaled_to 1280 (turned n (size img)) (size r4))
  /\ (forall calls,
        Py.fmap (map size) (resize_image bbox (MkImage (1600, 1200) calls) empty)
        = Py.Ok [(320, 240); (640, 480); (960, 720); (1280, 960)])
  /\ (forall calls,
        Py.fmap (map size)
          (resize_image bbox (MkImage (1600, 1200) calls)
             (<["Orientation"%string := EInt 6]> empty))
        = Py.Ok [(240, 320); (480, 640); (720, 960); (960, 1280)]).
Proof.
  split; [|split].
  - intros metadata img n Htag Hn Hsized Hthin.
    destruct (oriented_renditions metadata img n Htag Hn Hsized Hthin)
      as [s1 [s2 [s3 [s4 [Hrun H]]]]].
    eexists _, _, _, _. split; [exact Hrun|]. exact H.
  - intros calls. vm_compute. reflexivity.
  - intros calls. vm_compute. reflexivity.
Qed.

End Orientation.

(** ** Instances *)

Lemma orientation_correction_witness :
  oriented (fun _ sz => sz) (<["Orientation"%string := EInt 6]> empty)
    (MkImage (1600, 1200) [])
  = Py.Ok (MkImage (1200, 1600) [Rotate (-90) true])
  /\ exists s1 s2 s3 s4,
       resize_image (fun _ sz => sz) (MkImage (1600, 1200) [])
         (<["Orientation"%string := EInt 6]> empty)
       = Py.Ok (map (fun s => MkImage s [Rotate (-90) true; Resize s LANCZOS])
                  [s1; s2; s3; s4]).
Proof.
  apply (orientation_correction (fun _ sz => sz)
           (<["Orientation"%string := EInt 6]> (empty : gmap string exif))
           (MkImage (1600, 1200) []) 6).
  - vm_compute. reflexivity.
  - lia.
  - unfold well_sized. cbn. lia.
  - cbn. lia.
Defined.

(** The orientation 9, which the table does not have, raises
    [IndexError], and the orientation -6, read from the end of the
    table, turns the picture. *)
Lemma orientation_correction_counterexample :
  resize_image (fun _ sz => sz) (MkImage (1600, 1200) [])
    (<["Orientation"%string := EInt 9]> empty)
  = Py.Raise Py.IndexError
  /\ oriented (fun _ sz => sz) (<["Orientation"%string := EInt (-6)]> empty)
       (MkImage (1600, 1200) [])
     = Py.Ok (MkImage (1600, 1200) [Rotate (-180) true]).
Proof. split; vm_compute; reflexivity. Qed.

(** A picture of 1 by 1000 and a picture without pixels have no
    renditions. *)
Lemma resize_image_four_sizes_counterexample :
  resize_image (fun _ sz => sz) (MkImage (1, 1000) []) empty
  = Py.Raise (Py.ValueError "height and width must be > 0")
  /\ resize_image (fun _ sz => sz) (MkImage (0, 0) []) empty
     = Py.Raise Py.ZeroDivisionError.
Proof. split; vm_compute; reflexivity. Qed.


Lemma orientation_turns_witness :
  oriented (fun _ sz => sz)
    (<["Orientation"%string := EInt 6]> empty) (MkImage (1600, 1200) [])
  = Py.Ok (MkImage (1200, 1600) [Rotate (-90) true]).
Proof.
  destruct (orientation_turns (fun _ sz => sz)
              (<["Orientation"%string := EInt 6]> (empty : gmap string exif))
              (MkImage (1600, 1200) []) 6) as [_ [H _]].
  - vm_compute. reflexivity.
  - lia.
  - exact (H eq_refl).
Defined.

Lemma orientation_negative_wraps_witness :
  resize_image (fun _ sz => sz) (MkImage (1600, 1200) [])
    (<["Orientation"%string := EInt (-1)]> empty)
  = resize_image (fun _ sz => sz) (MkImage (1600, 1200) [])
      (<["Orientation"%string := EInt (-1 + 9)]>
         (<["Orientation"%string := EInt (-1)]> empty)).
Proof.
  apply (orientation_negative_wraps (fun _ sz => sz)
           (<["Orientation"%string := EInt (-1)]> (empty : gmap string exif))
           (MkImage (1600, 1200) []) (-1)).
  - vm_compute. reflexivity.
  - lia.
Defined.

Lemma resize_image_renditions_witness :
  exists oimg s1 s2 s3 s4,
    oriented (fun _ sz => sz) (<["Orientation"%string := EInt 6]> empty)
      (MkImage (1600, 1200) []) = Py.Ok oimg
    /\ (size oimg = (1600, 1200) \/ size oimg = (1200, 1600))
    /\ resize_image (fun _ sz => sz) (MkImage (1600, 1200) [])
         (<["Orientation"%string := EInt 6]> empty)
       = Py.Ok [MkImage s1 (history oimg ++ [Resize s1 LANCZOS]);
                MkImage s2 (history oimg ++ [Resize s2 LANCZOS]);
                MkImage s3 (history oimg ++ [Resize s3 LANCZOS]);
                MkImage s4 (history oimg ++ [Resize s4 LANCZOS])]
    /\ scaled_to 320 (size oimg) s1 /\ scaled_to 640 (size oimg) s2
    /\ scaled_to 960 (size oimg) s3 /\ scaled_to 1280 (size oimg) s4.
Proof.
  apply (resize_image_renditions (fun _ sz => sz)
           (<["Orientation"%string := EInt 6]> (empty : gmap string exif))
           (MkImage (1600, 1200) []) 6).
  - vm_compute. reflexivity.
  - lia.
  - unfold well_sized. cbn. lia.
  - cbn. lia.
Defined.

Lemma resize_image_empty_picture_witness :
  resize_image (fun _ sz => sz) (MkImage (0, 0) []) empty
  = Py.Raise Py.ZeroDivisionError.
Proof.
  apply (resize_image_empty_picture (fun _ sz => sz)
           (empty : gmap string exif) (MkImage (0, 0) []) 0).
  - vm_compute. reflexivity.
  - lia.
  - reflexivity.
Defined.

Lemma resize_image_thin_picture_witness :
  resize_image (fun _ sz => sz) (MkImage (1, 1000) []) empty
  = Py.Raise (Py.ValueError "height and width must be > 0").
Proof.
  apply (resize_image_thin_picture (fun _ sz => sz)
           (empty : gmap string exif) (MkImage (1, 1000) [])).
  - vm_compute. reflexivity.
  - unfold well_sized. cbn. lia.
  - cbn. lia.
Defined.

Lemma resize_image_quarter_turn_witness :
  Py.fmap (map size)
    (resize_image (fun _ sz => sz) (MkImage (1600, 1200) [])
       (<["Orientation"%string := EInt 8]> empty))
  = Py.fmap (map (fun r => swap (size r)))
      (resize_image (fun _ sz => sz) (MkImage (1600, 1200) []) empty).
Proof.
  apply (resize_image_quarter_turn (fun _ sz => sz)
           (empty : gmap string exif) (MkImage (1600, 1200) []) 8).
  - vm_compute. reflexivity.
  - right. reflexivity.
Defined.

(* ================================================================== *)
(** * Further properties of the signature verifier *)
(* ================================================================== *)

Module ClockFacts.

Local Open Scope Q_scope.

(** Rounding keeps the sign: what is not positive stays so. *)
Lemma b64_nonpos (x : Q) : x <= 0 -> Float.b64 x <= 0.
Proof.
  intros Hx. destruct x as [n d]. unfold Float.b64. cbn [Qnum].
  destruct n as [|p|p].
  - apply Qle_refl.
  - exfalso. unfold Qle in Hx. cbn in Hx. lia.
  - set (y := - (Z.neg p # d)).
    pose proof (FloatFacts.ulp_pos y) as HU.
    assert (Hy : 0 <= y / Float.ulp y).
    { apply Qle_shift_div_l; [exact HU|]. unfold y, Qle. cbn. lia. }
    destruct (FloatFacts.round_spec (y / Float.ulp y)) as [Rlo _].
    assert (HR : (0 <= Float.round (y / Float.ulp y))%Z).
    { assert (H : inject_Z (-1) < inject_Z (Float.round (y / Float.ulp y))).
      { change (inject_Z (-1)) with (-1). lra. }
      rewrite <- Zlt_Qlt in H. lia. }
    apply (FloatFacts.inj_le 0) in HR. change (inject_Z 0) with 0 in HR.
    assert (0 <= inject_Z (Float.round (y / Float.ulp y)) * Float.ulp y).
    { apply Qmult_le_0_compat; lra. }
    lra.
Qed.

(** A timestamp that is not before the clock has no positive age. *)
Lemma age_of_future (now : Q) (timestamp : string) (ts : Z) :
  Str.int timestamp = Py.Ok ts ->
  (0 < ts < 2 ^ 53)%Z ->
  now <= inject_Z ts ->
  exists a, age now timestamp = Py.Ok a /\ a <= 0.
Proof.
  intros Hts Hrange Hnow. unfold age, Float.sub_int. rewrite Hts. cbn [Py.bind].
  destruct (FloatFacts.of_int_small ts Hrange) as [f [Hf Heq]].
  rewrite Hf. cbn [Py.bind]. eexists. split; [reflexivity|].
  apply b64_nonpos. lra.
Qed.

(** An [int] from [2^1025] on has no float. *)
Lemma of_int_huge (n : Z) :
  (2 ^ 1025 <= n)%Z -> Float.of_int n = Py.Raise Py.OverflowError.
Proof.
  intros Hn. unfold Float.of_int.
  assert (Hbig : 2 ^ 1025 <= inject_Z n).
  { change (2 ^ 1025) with (inject_Z (2 ^ 1025)). apply FloatFacts.inj_le, Hn. }
  assert (Hnormal : 2 ^ (-1022) <= inject_Z n).
  { eapply Qle_trans; [|exact Hbig]. unfold Qle. vm_compute. discriminate. }
  destruct (FloatFacts.b64_error _ Hnormal) as [Hlo _].
  replace (Float.overflows (Float.b64 (inject_Z n))) with true; [reflexivity|].
  symmetry. unfold Float.overflows. apply Qle_bool_iff.
  assert (H1 : 2 ^ 1024 <= 2 ^ 1025 * (1 - Float.u)) by (unfold Qle; vm_compute; discriminate).
  assert (H2 : 2 ^ 1025 * (1 - Float.u) <= inject_Z n * (1 - Float.u)).
  { apply Qmult_le_compat_r; [exact Hbig|]. unfold Qle. vm_compute. discriminate. }
  assert (H3 : 2 ^ 1024 <= Float.b64 (inject_Z n)) by lra.
  rewrite Qabs_pos; [exact H3|].
  eapply Qle_trans; [|exact H3]. unfold Qle. vm_compute. discriminate.
Qed.

End ClockFacts.

Section Replays.

Variable cfg : config.

Local Abbreviation signed := (computed_signature cfg).

(** A delivery as the sender makes it: at most 60 seconds old when it
    is handled, signed over its own timestamp and token. *)
Local Abbreviation genuine d :=
  (exists a, age (at_time d) (d_timestamp d) = Py.Ok a /\ (a <= 60)%Q
             /\ d_signature d = signed (d_timestamp d) (d_token d)).

Lemma verify_genuine cached d :
  genuine d -> cached <> Some (d_token d) ->
  verify_mailgun_request cfg (at_time d) cached (d_timestamp d) (d_token d) (d_signature d)
  = (Some (d_token d), Py.Ok tt).
Proof.
  intros [a [Ha [Hle Hsig]]] Hne.
  rewrite verify_fresh_token by exact Hne.
  rewrite (check_fresh_recent _ _ _ _ _ a Ha Hle), Hsig, check_signature_good.
  reflexivity.
Qed.

(** X8. One token is remembered, the last one: deliveries as the sender
    makes them are all accepted as long as none has the token of the
    delivery just before it (nor the first the stored token), also when
    a token comes back after another one. *)
Theorem serve_only_adjacent_replays cached ds :
  Forall (fun d => genuine d) ds ->
  (forall d, head ds = Some d -> cached <> Some (d_token d)) ->
  (forall i d d', ds !! i = Some d -> ds !! S i = Some d' -> d_token d <> d_token d') ->
  snd (serve cfg cached ds) = map (fun _ => Py.Ok tt) ds.
Proof.
  intros Hgen. revert cached.
  induction Hgen as [|d ds Hd _ IH]; intros cached Hhead Hadj; [reflexivity|].
  cbn [serve map]. rewrite (verify_genuine cached d Hd) by (apply Hhead; reflexivity).
  specialize (IH (Some (d_token d))).
  destruct (serve cfg (Some (d_token d)) ds) as [final rs]. cbn [snd] in *.
  rewrite IH; [reflexivity | |].
  - intros d' Hd' Heq. apply (Hadj 0%nat d d'); [reflexivity | | congruence].
    destruct ds; [discriminate | exact Hd'].
  - intros i x y Hx Hy. exact (Hadj (S i) x y Hx Hy).
Qed.

(** A timestamp that is not before the clock passes the freshness
    check. *)
Lemma check_fresh_future now timestamp token signature ts :
  Str.int timestamp = Py.Ok ts ->
  (0 < ts < 2 ^ 53)%Z ->
  (now <= inject_Z ts)%Q ->
  check_fresh cfg now timestamp token signature
  = check_signature cfg timestamp token signature.
Proof.
  intros Hts Hrange Hnow.
  destruct (ClockFacts.age_of_future now timestamp ts Hts Hrange Hnow) as [a [Ha Hle]].
  apply (check_fresh_recent _ _ _ _ _ a Ha).
  eapply Qle_trans; [exact Hle | discriminate].
Qed.

(** X9. The freshness check has no upper bound: a timestamp at or
    after the clock (an integer below [2^53]) is never [Expired], and the
    outcome is that of the signature check. *)
Theorem verify_future_timestamp now cached timestamp token signature ts :
  cached <> Some token ->
  Str.int timestamp = Py.Ok ts ->
  (0 < ts < 2 ^ 53)%Z ->
  (now <= inject_Z ts)%Q ->
  verify_mailgun_request cfg now cached timestamp token signature
  = (Some token, check_signature cfg timestamp token signature).
Proof.
  intros Hne Hts Hrange Hnow.
  rewrite verify_fresh_token by exact Hne.
  rewrite (check_fresh_future now _ _ _ ts Hts Hrange Hnow). reflexivity.
Qed.

Lemma signed_resplit (timestamp moved token : string) :
  signed (timestamp ++ moved) token = signed timestamp (moved ++ token).
Proof. unfold computed_signature. rewrite TextFacts.append_assoc. reflexivity. Qed.

Lemma length_append (a b : string) :
  String.length (a ++ b) = (String.length a + String.length b)%nat.
Proof.
  induction a as [|c a IH]; [reflexivity|].
  change (S (String.length (a ++ b)) = S (String.length a + String.length b)).
  now rewrite IH.
Qed.

Lemma append_longer (a b : string) : a <> EmptyString -> (a ++ b)%string <> b.
Proof.
  intros Ha Heq. apply (f_equal String.length) in Heq.
  rewrite length_append in Heq. destruct a; [congruence|]. cbn in Heq. lia.
Qed.

(** X10. The signature covers the timestamp followed by the token, not
    where the one ends and the other begins.  After a delivery with the
    token [moved ++ token] has been accepted, its signature is accepted
    again for the timestamp [timestamp ++ moved] and the token [token],
    at any time that is not after the number [timestamp ++ moved]
    reads as. *)
Theorem verify_resplit_replay cached now later timestamp moved token ts a :
  cached <> Some (moved ++ token)%string ->
  age now timestamp = Py.Ok a -> (a <= 60)%Q ->
  moved <> EmptyString ->
  Str.int (timestamp ++ moved) = Py.Ok ts ->
  (0 < ts < 2 ^ 53)%Z ->
  (later <= inject_Z ts)%Q ->
  let signature := signed timestamp (moved ++ token) in
  serve cfg cached
    [Delivery now timestamp (moved ++ token) signature;
     Delivery later (timestamp ++ moved) token signature]
  = (Some token, [Py.Ok tt; Py.Ok tt]).
Proof.
  intros Hne Ha Hle Hmoved Hts Hrange Hlater signature.
  cbn [serve at_time d_timestamp d_token d_signature].
  rewrite verify_fresh_token by exact Hne.
  rewrite (check_fresh_recent _ _ _ _ _ a Ha Hle).
  subst signature. rewrite check_signature_good.
  rewrite verify_fresh_token.
  - rewrite (check_fresh_future later _ _ _ ts Hts Hrange Hlater).
    rewrite <- signed_resplit, check_signature_good. reflexivity.
  - intros Heq. injection Heq as Heq. exact (append_longer _ _ Hmoved Heq).
Qed.

(** X11. A signature with a character outside ASCII is refused by the
    comparison itself: the call raises [TypeError], not
    [SignatureMismatch], once the replay and the freshness check are
    passed. *)
Theorem verify_signature_not_ascii now cached timestamp token signature a :
  cached <> Some token ->
  age now timestamp = Py.Ok a -> (a <= 60)%Q ->
  Str.is_ascii signature = false ->
  verify_mailgun_request cfg now cached timestamp token signature
  = (Some token, Py.Raise Py.TypeError).
Proof.
  intros Hne Ha Hle Hs.
  rewrite verify_fresh_token by exact Hne.
  rewrite (check_fresh_recent _ _ _ _ _ a Ha Hle).
  unfold check_signature, Hmac.compare_digest. rewrite Hs, andb_false_r. reflexivity.
Qed.


(** X13. For a token that is not the stored one: a timestamp that is
    no integer literal raises the [ValueError] of [int], and a timestamp
    of at most 4300 characters that reads as [2^1025] or more raises
    [OverflowError] when it is brought to a float; neither is [Expired],
    and the token is stored all the same.  The bound on the length keeps
    the timestamp within the number of digits that every version of
    CPython converts. *)
Theorem verify_timestamp_errors now cached timestamp token signature :
  cached <> Some token ->
  (forall e, Str.int timestamp = Py.Raise e ->
     verify_mailgun_request cfg now cached timestamp token signature
     = (Some token, Py.Raise (Py.ValueError "invalid literal for int() with base 10")))
  /\ (forall ts, Str.int timestamp = Py.Ok ts -> (2 ^ 1025 <= ts)%Z ->
     (String.length timestamp <= 4300)%nat ->
     verify_mailgun_request cfg now cached timestamp token signature
     = (Some token, Py.Raise Py.OverflowError)).
Proof.
  intros Hne. split.
  - intros e Hts. rewrite verify_fresh_token by exact Hne. unfold check_fresh, age.
    unfold Str.int in *. destruct (Str.int_chars _); [discriminate|]. reflexivity.
  - intros ts Hts Hbig _. rewrite verify_fresh_token by exact Hne.
    unfold check_fresh, age, Float.sub_int. rewrite Hts. cbn [Py.bind].
    rewrite (ClockFacts.of_int_huge ts Hbig). reflexivity.
Qed.

End Replays.


(* ================================================================== *)
(** * Further properties of the attachment fetcher *)
(* ================================================================== *)

Module WorldFacts.

Section World.

Context {C : Type}.
Variable asked : C -> bool.
Variable w : Run.world C.

Lemma accepts_app (l l' : list C) : Run.accepts asked w (l ++ l') -> Run.accepts asked w l.
Proof.
  intros H before c after ->. apply (H before c (after ++ l')).
  rewrite <- app_assoc. reflexivity.
Qed.

Lemma accepts_nil : Run.accepts asked w [].
Proof. intros [|x before] c after H; discriminate H. Qed.

Lemma accepts_snoc (l : list C) (c : C) :
  Run.accepts asked w l -> (asked c = true -> w l c = Py.Ok tt) ->
  Run.accepts asked w (l ++ [c]).
Proof.
  intros Hl Hc before x after Heq Hx.
  destruct (list_eq_nil_dec after) as [->|Hafter].
  - apply app_inj_tail in Heq. destruct Heq as [<- <-]. exact (Hc Hx).
  - destruct (exists_last Hafter) as [after' [y ->]].
    change (l ++ [c] = before ++ (x :: after') ++ [y]) in Heq.
    rewrite app_assoc in Heq. apply app_inj_tail in Heq. destruct Heq as [-> _].
    exact (Hl before x after' eq_refl Hx).
Qed.

Lemma makes_ret {A : Type} (a : A) : Run.makes asked w (mret a) [] a.
Proof.
  intros done. exists [], (Py.Ok a). split.
  - unfold mret, Run.run_ret. rewrite app_nil_r. reflexivity.
  - intros _. split; reflexivity.
Qed.

Lemma makes_note (c : C) : Run.makes asked w (Run.note c) [c] tt.
Proof.
  intros done. exists [c], (Py.Ok tt). split; [reflexivity|].
  intros _. split; reflexivity.
Qed.

Lemma makes_perform (c : C) : asked c = true -> Run.makes asked w (Run.perform w c) [c] tt.
Proof.
  intros Hc done. exists [c], (w done c). split; [reflexivity|].
  intros Hacc. split; [reflexivity|]. exact (Hacc done c [] eq_refl Hc).
Qed.

Lemma makes_then {B : Type} (m : Run.run C unit) (k : Run.run C B)
    (i1 i2 : list C) (b : B) :
  Run.makes asked w m i1 tt -> Run.makes asked w k i2 b ->
  Run.makes asked w (m ;; k) (i1 ++ i2) b.
Proof.
  intros Hm Hk done. destruct (Hm done) as [n1 [o1 [E1 H1]]].
  unfold mbind, Run.run_bind. rewrite E1. destruct o1 as [[]|e].
  - destruct (Hk (done ++ n1)) as [n2 [o2 [E2 H2]]]. rewrite E2.
    exists (n1 ++ n2), o2. split; [rewrite app_assoc; reflexivity|].
    intros Hacc. rewrite app_assoc in Hacc.
    destruct (H1 (accepts_app _ _ Hacc)) as [-> _].
    destruct (H2 Hacc) as [-> ->]. split; reflexivity.
  - exists n1, (Py.Raise e). split; [reflexivity|].
    intros Hacc. destruct (H1 Hacc) as [_ Habs]. discriminate Habs.
Qed.

Lemma makes_for_each {A : Type} (body : A -> Run.run C unit) (ideal : A -> list C)
    (l : list A) :
  (forall x, Run.makes asked w (body x) (ideal x) tt) ->
  Run.makes asked w (Run.for_each body l) (flat_map ideal l) tt.
Proof.
  intros Hbody. induction l as [|x l IH]; cbn [Run.for_each flat_map].
  - apply makes_ret.
  - apply makes_then; [apply Hbody | exact IH].
Qed.

Lemma makes_closing {A : Type} (body : Run.run C A) (close : Run.run C unit)
    (i1 i2 : list C) (a : A) :
  Run.makes asked w body i1 a -> Run.makes asked w close i2 tt ->
  Run.makes asked w (Run.closing body close) (i1 ++ i2) a.
Proof.
  intros Hbody Hclose done. destruct (Hbody done) as [n1 [o1 [E1 H1]]].
  destruct (Hclose (done ++ n1)) as [n2 [o2 [E2 H2]]].
  unfold Run.closing. rewrite E1, E2.
  exists (n1 ++ n2), (match o2 with Py.Ok _ => o1 | Py.Raise e => Py.Raise e end).
  split; [rewrite app_assoc; destruct o2; reflexivity|].
  intros Hacc. rewrite app_assoc in Hacc.
  destruct (H1 (accepts_app _ _ Hacc)) as [-> ->].
  destruct (H2 Hacc) as [-> ->]. split; reflexivity.
Qed.

Lemma makes_lift {A : Type} (a : A) : Run.makes asked w (Run.lift (Py.Ok a)) [] a.
Proof.
  intros done. exists [], (Py.Ok a). split.
  - unfold Run.lift. rewrite app_nil_r. reflexivity.
  - intros _. split; reflexivity.
Qed.

(** What an accepted run is. *)
Lemma makes_run {A : Type} (m : Run.run C A) (ideal : list C) (a : A) (done : list C) :
  Run.makes asked w m ideal a ->
  Run.accepts asked w (fst (m done)) ->
  m done = (done ++ ideal, Py.Ok a).
Proof.
  intros Hm Hacc. destruct (Hm done) as [new [outcome [E H]]].
  rewrite E in Hacc |- *. destruct (H Hacc) as [-> ->]. reflexivity.
Qed.

Lemma run_then {A B : Type} (m : Run.run C A) (k : A -> Run.run C B) (done : list C) :
  (m ≫= k) done
  = match m done with
    | (done', Py.Ok a) => k a done'
    | (done', Py.Raise e) => (done', Py.Raise e)
    end.
Proof. reflexivity. Qed.

(** A loop that only records calls. *)
Lemma for_each_notes {A : Type} (f : A -> C) (l : list A) (done : list C) :
  Run.for_each (fun x => Run.note (f x) ;; mret tt) l done
  = (done ++ flat_map (fun x => [f x]) l, Py.Ok tt).
Proof.
  revert done. induction l as [|x l IH]; intros done.
  - cbn. unfold mret, Run.run_ret. rewrite app_nil_r. reflexivity.
  - cbn [Run.for_each flat_map]. rewrite !run_then.
    change (Run.note (f x) done) with ((done ++ [f x])%list, @Py.Ok unit tt).
    cbv iota.
    change ((mret tt : Run.run C unit) (done ++ [f x])%list)
      with ((done ++ [f x])%list, @Py.Ok unit tt).
    cbv iota. rewrite IH, <- app_assoc. reflexivity.
Qed.

(** A loop of calls makes the calls for the first elements, up to the
    one that is refused. *)
Lemma for_each_perform {A : Type} (f : A -> C) (l : list A) (done : list C) :
  exists k outcome,
    Run.for_each (fun x => Run.perform w (f x)) l done
    = (done ++ map f (firstn k l), outcome)
    /\ (outcome = Py.Ok tt -> firstn k l = l).
Proof.
  revert done. induction l as [|x l IH]; intros done.
  - exists 0%nat, (Py.Ok tt). split; [|reflexivity].
    cbn. unfold mret, Run.run_ret. rewrite app_nil_r. reflexivity.
  - cbn [Run.for_each]. unfold mbind, Run.run_bind, Run.perform at 1.
    destruct (w done (f x)) as [[]|e].
    + destruct (IH (done ++ [f x])) as [k [outcome [E H]]].
      exists (S k), outcome. rewrite E. cbn [firstn map]. split.
      * rewrite <- app_assoc. reflexivity.
      * intros Ho. rewrite (H Ho). reflexivity.
    + exists 1%nat, (Py.Raise e). split; [|discriminate].
      cbn [firstn map]. destruct l; reflexivity.
Qed.

End World.

End WorldFacts.

Section Fetch.

Variable net : json -> Py.result response.
Variable fs : Run.world event.

(** What is done for the file once the request is answered. *)
Local Abbreviation save fs save_path ct r :=
  (Run.perform fs (FileOpen save_path) ;;
   Run.closing
     (Run.for_each (fun chunk => Run.perform fs (FileWrite save_path chunk)) (chunks r) ;;
      Run.lift (match broken r with
                | Some e => Py.Raise e
                | None => Py.Ok tt
                end))
     (Run.perform fs (FileClose save_path)) ;;
   mret (save_path, ct)).

Lemma download_described fields rest url n ct :
  assoc "url"%string fields = Some url ->
  assoc "name"%string fields = Some (JStr n) ->
  assoc "content-type"%string fields = Some (JStr ct) ->
  Str.startswith "image" ct = true ->
  download_attachments net fs (JArr (JObj fields :: rest))
  = let save_path := path_join TEMP_PATH n in
    match net url with
    | Py.Raise e => ([HttpGet url], Py.Raise e)
    | Py.Ok r =>
        if (400 <=? status r) && (status r <? 600)
        then ([HttpGet url], Py.Raise Py.HTTPError)
        else save fs save_path ct r [HttpGet url]
    end.
Proof.
  intros Hu Hn Hc Hs. unfold download_attachments.
  change (item0 (JArr (JObj fields :: rest))) with (Py.Ok (JObj fields)).
  cbn [Py.bind field]. rewrite Hu, Hn, Hc. cbn [Py.of_option Py.bind].
  rewrite Hs. reflexivity.
Qed.

Lemma path_join_tmp (n : string) :
  path_join TEMP_PATH n = if Str.startswith "/" n then n else ("/tmp/" ++ n)%string.
Proof. unfold path_join. destruct (Str.startswith "/" n); reflexivity. Qed.

Lemma save_makes (save_path ct : string) (r : response) :
  broken r = None ->
  Run.makes on_disk fs (save fs save_path ct r)
    (FileOpen save_path :: map (FileWrite save_path) (chunks r) ++ [FileClose save_path])
    (save_path, ct).
Proof.
  intros Hr. rewrite Hr.
  change (FileOpen save_path :: map (FileWrite save_path) (chunks r)
            ++ [FileClose save_path])
    with ([FileOpen save_path]
            ++ (map (FileWrite save_path) (chunks r) ++ [FileClose save_path]))%list.
  apply WorldFacts.makes_then; [apply WorldFacts.makes_perform; reflexivity|].
  rewrite <- (app_nil_r (_ ++ [FileClose save_path])).
  apply WorldFacts.makes_then; [|apply WorldFacts.makes_ret].
  apply WorldFacts.makes_closing; [|apply WorldFacts.makes_perform; reflexivity].
  rewrite <- (app_nil_r (map _ _)).
  apply WorldFacts.makes_then; [|apply WorldFacts.makes_lift].
  replace (map (FileWrite save_path) (chunks r))
    with (flat_map (fun chunk => [FileWrite save_path chunk]) (chunks r)).
  - apply WorldFacts.makes_for_each. intros chunk.
    apply WorldFacts.makes_perform. reflexivity.
  - induction (chunks r) as [|c cs IH]; [reflexivity|]. cbn. now rewrite IH.
Qed.

(** X14. For a first attachment of an image type whose request is
    answered with a status outside 400..599, when the body of the
    answer arrives whole and the file system accepts every call of the
    run: one request is made for the url, one file is opened, the chunks
    of the answer are written to it in order and the file is closed; the
    call returns the path of the file and the content type.  The file
    is [/tmp/name]; a name that begins with a slash is the path
    itself. *)
Theorem download_attachments_saves fields rest url n ct r :
  assoc "url"%string fields = Some url ->
  assoc "name"%string fields = Some (JStr n) ->
  assoc "content-type"%string fields = Some (JStr ct) ->
  Str.startswith "image" ct = true ->
  net url = Py.Ok r ->
  (status r < 400 \/ 600 <= status r) ->
  broken r = None ->
  Run.accepts on_disk fs (fst (download_attachments net fs (JArr (JObj fields :: rest)))) ->
  let save_path := if Str.startswith "/" n then n else ("/tmp/" ++ n)%string in
  download_attachments net fs (JArr (JObj fields :: rest))
  = (HttpGet url :: FileOpen save_path
       :: map (FileWrite save_path) (chunks r) ++ [FileClose save_path],
     Py.Ok (save_path, ct)).
Proof.
  intros Hu Hn Hc Hs Hnet Hstatus Hwhole Hacc save_path. subst save_path.
  rewrite (download_described fields rest url n ct Hu Hn Hc Hs), Hnet in Hacc |- *.
  cbv zeta in Hacc |- *. rewrite path_join_tmp in Hacc |- *.
  replace ((400 <=? status r) && (status r <? 600)) with false in Hacc |- *
    by (symmetry; apply andb_false_iff; rewrite Z.leb_gt, Z.ltb_ge; exact Hstatus).
  exact (WorldFacts.makes_run on_disk fs _ _ _ [HttpGet url]
           (save_makes _ ct r Hwhole) Hacc).
Qed.

(** X15. A request answered with a status from 400 to 599 raises
    [HTTPError]; no file is opened. *)
Theorem download_attachments_error_status fields rest url n ct r :
  assoc "url"%string fields = Some url ->
  assoc "name"%string fields = Some (JStr n) ->
  assoc "content-type"%string fields = Some (JStr ct) ->
  Str.startswith "image" ct = true ->
  net url = Py.Ok r ->
  400 <= status r < 600 ->
  download_attachments net fs (JArr (JObj fields :: rest))
  = ([HttpGet url], Py.Raise Py.HTTPError).
Proof.
  intros Hu Hn Hc Hs Hnet Hstatus.
  rewrite (download_described fields rest url n ct Hu Hn Hc Hs), Hnet.
  cbv zeta.
  replace ((400 <=? status r) && (status r <? 600)) with true; [reflexivity|].
  symmetry. apply andb_true_iff. rewrite Z.leb_le, Z.ltb_lt. exact Hstatus.
Qed.

(** X16. Whatever the attachments, the network and the file system: a
    call that returns has made one request, got for it an answer with a
    status outside 400..599 whose body arrived whole, opened the file at
    the path it returns, written all the chunks of the answer to it in
    their order and closed it, and it returns a content type that begins
    with [image].  A call that fails has made no request; or it has made
    one request and not touched a file; or the file system refused to
    open the file; or it has opened the file, written the first chunks
    of the answer in their order, up to the one at which the run broke,
    and closed the file. *)
Theorem download_attachments_effects attachments :
  match download_attachments net fs attachments with
  | (events, Py.Ok (save_path, content_type)) =>
      Str.startswith "image" content_type = true
      /\ exists url r,
           net url = Py.Ok r
           /\ (status r < 400 \/ 600 <= status r)
           /\ broken r = None
           /\ events = HttpGet url :: FileOpen save_path
                         :: map (FileWrite save_path) (chunks r)
                         ++ [FileClose save_path]
  | (events, Py.Raise e) =>
      events = []
      \/ exists url,
           events = [HttpGet url]
           \/ exists path,
                (events = [HttpGet url; FileOpen path]
                 /\ fs [HttpGet url] (FileOpen path) = Py.Raise e)
                \/ exists r k,
                     net url = Py.Ok r
                     /\ events = HttpGet url :: FileOpen path
                                   :: map (FileWrite path) (firstn k (chunks r))
                                   ++ [FileClose path]
  end.
Proof.
  unfold download_attachments.
  destruct (item0 attachments) as [attachment|e]; cbn [Py.bind]; [|left; reflexivity].
  destruct (field "url" attachment) as [url|e]; cbn [Py.bind]; [|left; reflexivity].
  destruct (field "name" attachment) as [name|e]; cbn [Py.bind]; [|left; reflexivity].
  destruct (field "content-type" attachment) as [[| | |ct| |]|e]; cbn [Py.bind];
    try (left; reflexivity).
  destruct (Str.startswith "image" ct) eqn:Hs; cbn [negb]; [|left; reflexivity].
  destruct name as [| | |n| |]; try (left; reflexivity).
  destruct (net url) as [r|e] eqn:Hnet; [|right; exists url; left; reflexivity].
  destruct ((400 <=? status r) && (status r <? 600)) eqn:Hstatus;
    [right; exists url; left; reflexivity|].
  apply andb_false_iff in Hstatus. rewrite Z.leb_gt, Z.ltb_ge in Hstatus.
  set (path := path_join TEMP_PATH n).
  unfold mbind, Run.run_bind, Run.closing, Run.perform at 1.
  destruct (fs [HttpGet url] (FileOpen path)) as [[]|e] eqn:Hopen.
  2:{ right. exists url. right. exists path. left. split; [reflexivity | exact Hopen]. }
  destruct (WorldFacts.for_each_perform fs (FileWrite path) (chunks r)
              ([HttpGet url] ++ [FileOpen path])) as [k [outcome [E Hall]]].
  rewrite E. unfold Run.lift, Run.perform, mret, Run.run_ret.
  assert (Hfail : exists r' k',
               net url = Py.Ok r'
               /\ (([HttpGet url] ++ [FileOpen path])
                     ++ map (FileWrite path) (firstn k (chunks r))) ++ [FileClose path]
                  = HttpGet url :: FileOpen path
                      :: map (FileWrite path) (firstn k' (chunks r')) ++ [FileClose path]).
  { exists r, k. split; [exact Hnet | reflexivity]. }
  destruct outcome as [[]|e1].
  - destruct (broken r) as [e2|] eqn:Hbroken;
      destruct (fs _ (FileClose path)) as [[]|e3];
      try (right; exists url; right; exists path; right; exact Hfail).
    split; [exact Hs|]. exists url, r.
    split; [exact Hnet|]. split; [exact Hstatus|]. split; [exact Hbroken|].
    rewrite (Hall eq_refl). reflexivity.
  - destruct (fs _ (FileClose path)) as [[]|e3];
      right; exists url; right; exists path; right; exact Hfail.
Qed.

(** X17. A first attachment without [url], [name] or [content-type]
    raises [KeyError] before anything is requested, whatever its other
    entries. *)
Theorem download_attachments_missing_field fields rest :
  assoc "url"%string fields = None
  \/ assoc "name"%string fields = None
  \/ assoc "content-type"%string fields = None ->
  download_attachments net fs (JArr (JObj fields :: rest)) = ([], Py.Raise Py.KeyError).
Proof.
  intros H. unfold download_attachments.
  change (item0 (JArr (JObj fields :: rest))) with (Py.Ok (JObj fields)).
  cbn [Py.bind field].
  destruct (assoc "url" fields) as [url|]; cbn [Py.of_option Py.bind]; [|reflexivity].
  destruct (assoc "name" fields) as [name|]; cbn [Py.of_option Py.bind]; [|reflexivity].
  destruct (assoc "content-type" fields) as [ct|]; cbn [Py.of_option Py.bind];
    [|reflexivity].
  exfalso. destruct H as [H|[H|H]]; discriminate.
Qed.

End Fetch.

(* ================================================================== *)
(** * Further properties of the identifier assignment *)
(* ================================================================== *)

Module ListingFacts.

Lemma mapM_ok {A B : Type} (f : A -> Py.result B) (l : list A) (bs : list B) :
  Py.mapM f l = Py.Ok bs <-> Forall2 (fun a b => f a = Py.Ok b) l bs.
Proof.
  revert bs. induction l as [|a l IH]; intros bs; cbn [Py.mapM].
  - split.
    + intros [= <-]. constructor.
    + intros H. inversion H. reflexivity.
  - split.
    + destruct (f a) as [b|e] eqn:Hb; cbn [Py.bind]; [|discriminate].
      destruct (Py.mapM f l) as [bs'|e]; cbn [Py.bind]; [|discriminate].
      intros [= <-]. constructor; [exact Hb | apply IH; reflexivity].
    + intros H. inversion H as [|a' b l' bs' Hb Hrest]; subst.
      rewrite Hb. cbn [Py.bind]. apply IH in Hrest. rewrite Hrest. reflexivity.
Qed.

Lemma mapM_perm {A B : Type} (f : A -> Py.result B) (l l' : list A) :
  Permutation l l' ->
  forall bs, Py.mapM f l = Py.Ok bs ->
             exists bs', Py.mapM f l' = Py.Ok bs' /\ Permutation bs bs'.
Proof.
  induction 1 as [|x l l' _ IH|x y l|l l' l'' _ IH1 _ IH2]; intros bs Hbs.
  - exists bs. split; [exact Hbs | reflexivity].
  - cbn [Py.mapM] in *. destruct (f x) as [b|e]; cbn [Py.bind] in *; [|discriminate].
    destruct (Py.mapM f l) as [bs0|e]; cbn [Py.bind] in *; [|discriminate].
    injection Hbs as <-. destruct (IH bs0 eq_refl) as [bs' [-> Hperm]].
    exists (b :: bs'). split; [reflexivity | constructor; exact Hperm].
  - cbn [Py.mapM] in *.
    destruct (f y) as [b|e]; cbn [Py.bind] in *; [|discriminate].
    destruct (f x) as [c|e]; cbn [Py.bind] in *; [|discriminate].
    destruct (Py.mapM f l) as [bs0|e]; cbn [Py.bind] in *; [|discriminate].
    injection Hbs as <-. exists (c :: b :: bs0). split; [reflexivity | constructor].
  - destruct (IH1 bs Hbs) as [bs1 [H1 P1]]. destruct (IH2 bs1 H1) as [bs2 [H2 P2]].
    exists bs2. split; [exact H2 | etransitivity; eassumption].
Qed.

Lemma sort_perm (l l' : list Z) :
  Permutation l l' -> merge_sort Z.le l = merge_sort Z.le l'.
Proof.
  intros Hperm. apply (StronglySorted_unique Z.le).
  - apply StronglySorted_merge_sort; apply _.
  - apply StronglySorted_merge_sort; apply _.
  - rewrite !merge_sort_Permutation. exact Hperm.
Qed.

(** ** What [int] reads without a sign is not negative *)

Lemma int_digits_nonneg (l : list ascii) :
  forall prev acc n, 0 <= acc -> Str.int_digits l prev acc = Some n -> 0 <= n.
Proof.
  induction l as [|c l IH]; intros prev acc n Hacc; cbn [Str.int_digits].
  - destruct prev; [intros [= <-]; exact Hacc | discriminate].
  - destruct (Str.is_digit c) eqn:Hd.
    + apply IH. unfold Str.is_digit in Hd. lia.
    + destruct (Ascii.eqb c "_"); [|discriminate].
      destruct prev; [|discriminate].
      destruct l as [|d l']; [discriminate|].
      destruct (Str.is_digit d); [|discriminate].
      apply IH. exact Hacc.
Qed.

Lemma lstrip_sublist (x : ascii) (l : list ascii) : In x (Str.lstrip l) -> In x l.
Proof.
  induction l as [|c l IH]; [intros []|]. cbn [Str.lstrip].
  destruct (Str.is_space c); [right; apply IH; assumption | intros H; exact H].
Qed.

Lemma strip_sublist (x : ascii) (l : list ascii) : In x (Str.strip l) -> In x l.
Proof.
  unfold Str.strip. intros H. apply in_rev, lstrip_sublist, in_rev in H.
  apply lstrip_sublist. exact H.
Qed.

Lemma int_unsigned_nonneg (s : string) (n : Z) :
  ~ In "-"%char (Str.chars s) -> Str.int s = Py.Ok n -> 0 <= n.
Proof.
  intros Hs. unfold Str.int. destruct (Str.int_chars _) as [k|] eqn:Hk; [|discriminate].
  intros [= <-]. unfold Str.int_chars in Hk.
  destruct (Str.strip (Str.chars s)) as [|c l] eqn:Hstrip; [discriminate|].
  destruct (Ascii.eqb_spec c "-") as [->|_].
  - exfalso. apply Hs, strip_sublist. rewrite Hstrip. left. reflexivity.
  - destruct (Ascii.eqb c "+").
    + exact (int_digits_nonneg _ _ _ _ (Z.le_refl 0) Hk).
    + exact (int_digits_nonneg _ _ _ _ (Z.le_refl 0) Hk).
Qed.

(** No piece of a split holds the separator. *)
Lemma split_pieces (sep : ascii) (s : string) :
  Forall (fun piece => ~ In sep (Str.chars piece)) (Str.split sep s).
Proof.
  induction s as [|c s IH]; cbn [Str.split].
  - constructor; [intros [] | constructor].
  - destruct (Ascii.eqb_spec c sep) as [->|Hne].
    + constructor; [intros [] | exact IH].
    + destruct (Str.split sep s) as [|piece rest]; [constructor; [|constructor]|].
      * intros [H|[]]. congruence.
      * inversion IH as [|? ? Hp Hrest]; subst. constructor; [|exact Hrest].
        intros [H|H]; [congruence | exact (Hp H)].
Qed.

Lemma getitem_in {A : Type} (l : list A) (i : Z) (x : A) :
  Py.getitem l i = Py.Ok x -> In x l.
Proof.
  unfold Py.getitem. destruct (_ <? 0); [discriminate|].
  destruct (nth_error l _) eqn:H; [|discriminate].
  intros [= <-]. eapply nth_error_In, H.
Qed.

(** An identifier read from a file name is a natural number. *)
Lemma post_oid_nonneg (p : string) (k : Z) : post_oid p = Py.Ok k -> 0 <= k.
Proof.
  unfold post_oid.
  destruct (Py.getitem (Str.split "." p) 0) as [stem|]; cbn [Py.bind]; [|discriminate].
  destruct (Py.getitem (Str.split "-" stem) (-1)) as [suffix|] eqn:Hsuffix;
    cbn [Py.bind]; [|discriminate].
  apply int_unsigned_nonneg.
  apply getitem_in in Hsuffix.
  exact (proj1 (List.Forall_forall _ _) (split_pieces "-" stem) suffix Hsuffix).
Qed.

End ListingFacts.

(** X18. The new identifier does not depend on the order in which the
    directory is listed. *)
Theorem get_new_oid_any_order (posts posts' : list string) (n : Z) :
  Permutation posts posts' ->
  get_new_oid posts = Py.Ok n ->
  get_new_oid posts' = Py.Ok n.
Proof.
  intros Hperm. unfold get_new_oid.
  destruct (Py.mapM post_oid posts) as [oids|e] eqn:Hoids; cbn [Py.bind]; [|discriminate].
  destruct (ListingFacts.mapM_perm post_oid posts posts' Hperm oids Hoids)
    as [oids' [-> Hperm']].
  cbn [Py.bind]. rewrite (ListingFacts.sort_perm oids oids' Hperm'). intros H; exact H.
Qed.

(** X19. The call succeeds exactly when the directory is not empty and
    every name in it reads as a post: one other file in the directory
    makes it raise. *)
Theorem get_new_oid_succeeds_iff (posts : list string) :
  (exists n, get_new_oid posts = Py.Ok n)
  <-> posts <> [] /\ Forall (fun p => exists k, post_oid p = Py.Ok k) posts.
Proof.
  unfold get_new_oid. split.
  - intros [n Hn].
    destruct (Py.mapM post_oid posts) as [oids|e] eqn:Hoids; cbn [Py.bind] in Hn;
      [|discriminate].
    split.
    + intros ->. cbn in Hoids. injection Hoids as <-. discriminate Hn.
    + apply ListingFacts.mapM_ok in Hoids. clear Hn.
      induction Hoids as [|p k ps ks Hk _ IH]; constructor; [exists k; exact Hk | exact IH].
  - intros [Hne Hall].
    assert (Hoids : exists oids, Py.mapM post_oid posts = Py.Ok oids /\ oids <> []).
    { destruct posts as [|p ps]; [congruence|].
      assert (H : forall l, Forall (fun p => exists k, post_oid p = Py.Ok k) l ->
                            exists oids, Py.mapM post_oid l = Py.Ok oids
                                         /\ length oids = length l).
      { induction 1 as [|q qs [k Hk] _ [oids [IH Hlen]]].
        - exists []. split; reflexivity.
        - exists (k :: oids). cbn [Py.mapM]. rewrite Hk, IH. cbn. split; [reflexivity|].
          now rewrite Hlen. }
      destruct (H _ Hall) as [oids [Hoids Hlen]]. exists oids. split; [exact Hoids|].
      intros ->. discriminate Hlen. }
    destruct Hoids as [oids [-> Hne']]. cbn [Py.bind].
    destruct (OidFacts.sorted_last_is_max oids Hne') as [top [-> _]].
    exists (top + 1). reflexivity.
Qed.

(** The identifiers behind a new identifier. *)
Lemma get_new_oid_top (posts : list string) (n : Z) :
  get_new_oid posts = Py.Ok n ->
  exists oids,
    Forall2 (fun p k => post_oid p = Py.Ok k) posts oids
    /\ In (n - 1) oids /\ Forall (fun k => k <= n - 1) oids.
Proof.
  unfold get_new_oid.
  destruct (Py.mapM post_oid posts) as [oids|e] eqn:Hoids; cbn [Py.bind]; [|discriminate].
  apply ListingFacts.mapM_ok in Hoids.
  destruct oids as [|k0 oids0] eqn:Hshape; [discriminate|]. rewrite <- Hshape in *.
  destruct (OidFacts.sorted_last_is_max oids) as [top [-> [Hin Hmax]]]; [congruence|].
  cbn [Py.bind]. intros [= <-]. exists oids.
  replace (top + 1 - 1) with top by lia. split; [exact Hoids|]. split; assumption.
Qed.

(** X20. Whatever the names in the directory, a new identifier is at
    least 1, follows the identifier of one of the entries and is above
    the identifier of every entry: it is never one already in use. *)
Theorem get_new_oid_fresh (posts : list string) (n : Z) :
  get_new_oid posts = Py.Ok n ->
  1 <= n
  /\ (exists p, In p posts /\ post_oid p = Py.Ok (n - 1))
  /\ (forall p k, In p posts -> post_oid p = Py.Ok k -> k < n).
Proof.
  intros Hn. destruct (get_new_oid_top posts n Hn) as [oids [Hoids [Hin Hmax]]].
  clear Hn.
  assert (Hfind : forall k, In k oids -> exists p, In p posts /\ post_oid p = Py.Ok k).
  { clear Hin Hmax. induction Hoids as [|p k ps ks Hk _ IH]; intros x; [intros []|].
    intros [<-|Hx].
    - exists p. split; [left; reflexivity | exact Hk].
    - destruct (IH x Hx) as [q [Hq Hqx]]. exists q. split; [right; exact Hq | exact Hqx]. }
  assert (Hbound : forall p k, In p posts -> post_oid p = Py.Ok k -> In k oids).
  { clear Hin Hmax Hfind. induction Hoids as [|p k ps ks Hk _ IH]; intros q x; [intros []|].
    intros [<-|Hq] Hx.
    - left. congruence.
    - right. exact (IH q x Hq Hx). }
  destruct (Hfind (n - 1) Hin) as [p [Hp Hpk]].
  split; [|split].
  - pose proof (ListingFacts.post_oid_nonneg p (n - 1) Hpk). lia.
  - exists p. split; assumption.
  - intros q k Hq Hk. pose proof (Hbound q k Hq Hk) as Hk'.
    pose proof (proj1 (List.Forall_forall _ _) Hmax k Hk'). cbv beta in *. lia.
Qed.

(** ** Instances *)

Lemma serve_only_adjacent_replays_witness :
  let cfg := Config "key-0f3a" in
  let first := Delivery 1501718220 "1501718219" "beefc0ffeef00dc001"
                 (computed_signature cfg "1501718219" "beefc0ffeef00dc001") in
  let other := Delivery 1501718221 "1501718220" "c0ffeec001f00dbeef"
                 (computed_signature cfg "1501718220" "c0ffeec001f00dbeef") in
  let again := Delivery 1501718222 "1501718219" "beefc0ffeef00dc001"
                 (computed_signature cfg "1501718219" "beefc0ffeef00dc001") in
  snd (serve cfg None [first; other; again]) = [Py.Ok tt; Py.Ok tt; Py.Ok tt].
Proof.
  intros cfg first other again.
  apply (serve_only_adjacent_replays cfg None [first; other; again]).
  - repeat constructor.
    + exists (Float.b64 (1501718220 - Float.b64 (inject_Z 1501718219))).
      split; [vm_compute; reflexivity|]. split; [vm_compute; discriminate | reflexivity].
    + exists (Float.b64 (1501718221 - Float.b64 (inject_Z 1501718220))).
      split; [vm_compute; reflexivity|]. split; [vm_compute; discriminate | reflexivity].
    + exists (Float.b64 (1501718222 - Float.b64 (inject_Z 1501718219))).
      split; [vm_compute; reflexivity|]. split; [vm_compute; discriminate | reflexivity].
  - intros d _. discriminate.
  - intros [|[|[|i]]] d d' Hd Hd'; cbn in Hd, Hd'; try discriminate;
      injection Hd as <-; injection Hd' as <-; cbn; discriminate.
Defined.

Lemma verify_future_timestamp_witness :
  verify_mailgun_request (Config "key-0f3a") 1501718220 None
    "4102444800" "beefc0ffeef00dc001" "0f"
  = (Some "beefc0ffeef00dc001",
     check_signature (Config "key-0f3a") "4102444800" "beefc0ffeef00dc001" "0f").
Proof.
  apply (verify_future_timestamp (Config "key-0f3a") 1501718220 None
           "4102444800" "beefc0ffeef00dc001" "0f" 4102444800).
  - discriminate.
  - vm_compute. reflexivity.
  - lia.
  - vm_compute. discriminate.
Defined.

Lemma verify_resplit_replay_witness :
  let cfg := Config "key-0f3a" in
  let signature := computed_signature cfg "1501718219" ("9" ++ "c0ffeec001f00dbeef") in
  serve cfg None
    [Delivery 1501718220 "1501718219" ("9" ++ "c0ffeec001f00dbeef") signature;
     Delivery 1800000000 ("1501718219" ++ "9") "c0ffeec001f00dbeef" signature]
  = (Some "c0ffeec001f00dbeef", [Py.Ok tt; Py.Ok tt]).
Proof.
  intros cfg signature.
  apply (verify_resplit_replay cfg None 1501718220 1800000000
           "1501718219" "9" "c0ffeec001f00dbeef" 15017182199
           (Float.b64 (1501718220 - Float.b64 (inject_Z 1501718219)))).
  - discriminate.
  - vm_compute. reflexivity.
  - vm_compute. discriminate.
  - discriminate.
  - vm_compute. reflexivity.
  - lia.
  - vm_compute. discriminate.
Defined.

Lemma verify_signature_not_ascii_witness :
  verify_mailgun_request (Config "key-0f3a") 1501718220 None
    "1501718219" "beefc0ffeef00dc001" (String (ascii_of_nat 233) "f")
  = (Some "beefc0ffeef00dc001", Py.Raise Py.TypeError).
Proof.
  apply (verify_signature_not_ascii (Config "key-0f3a") 1501718220 None
           "1501718219" "beefc0ffeef00dc001" (String (ascii_of_nat 233) "f")
           (Float.b64 (1501718220 - Float.b64 (inject_Z 1501718219)))).
  - discriminate.
  - vm_compute. reflexivity.
  - vm_compute. discriminate.
  - vm_compute. reflexivity.
Defined.


Lemma verify_timestamp_errors_witness :
  verify_mailgun_request (Config "key-0f3a") 1501718220 None
    "2017-08-03" "beefc0ffeef00dc001" "0f"
  = (Some "beefc0ffeef00dc001",
     Py.Raise (Py.ValueError "invalid literal for int() with base 10")).
Proof.
  apply (proj1 (verify_timestamp_errors (Config "key-0f3a") 1501718220 None
                  "2017-08-03" "beefc0ffeef00dc001" "0f" ltac:(discriminate))
           (Py.ValueError "invalid literal for int() with base 10")).
  vm_compute. reflexivity.
Defined.

Lemma download_attachments_saves_witness :
  download_attachments (fun _ => Py.Ok (Response 200 [[x01; x02]; [x03]] None))
    (fun _ _ => Py.Ok tt)
    (JArr [JObj [("url", JStr "http://download.attachment/successful-image.jpg");
                 ("name", JStr "successful-image.jpg");
                 ("content-type", JStr "image/jpeg")]])
  = ([HttpGet (JStr "http://download.attachment/successful-image.jpg");
      FileOpen "/tmp/successful-image.jpg";
      FileWrite "/tmp/successful-image.jpg" [x01; x02];
      FileWrite "/tmp/successful-image.jpg" [x03];
      FileClose "/tmp/successful-image.jpg"],
     Py.Ok ("/tmp/successful-image.jpg", "image/jpeg")).
Proof.
  apply (download_attachments_saves
           (fun _ => Py.Ok (Response 200 [[x01; x02]; [x03]] None))
           (fun _ _ => Py.Ok tt)
           [("url", JStr "http://download.attachment/successful-image.jpg");
            ("name", JStr "successful-image.jpg");
            ("content-type", JStr "image/jpeg")] []
           (JStr "http://download.attachment/successful-image.jpg")
           "successful-image.jpg" "image/jpeg" (Response 200 [[x01; x02]; [x03]] None)).
  - reflexivity.
  - reflexivity.
  - reflexivity.
  - reflexivity.
  - reflexivity.
  - left. cbn. lia.
  - reflexivity.
  - intros before c after _ _. reflexivity.
Defined.

Lemma download_attachments_error_status_witness :
  download_attachments (fun _ => Py.Ok (Response 404 [[x01]] None)) (fun _ _ => Py.Ok tt)
    (JArr [JObj [("url", JStr "http://download.attachment/gone.jpg");
                 ("name", JStr "gone.jpg");
                 ("content-type", JStr "image/jpeg")]])
  = ([HttpGet (JStr "http://download.attachment/gone.jpg")], Py.Raise Py.HTTPError).
Proof.
  apply (download_attachments_error_status
           (fun _ => Py.Ok (Response 404 [[x01]] None)) (fun _ _ => Py.Ok tt)
           [("url", JStr "http://download.attachment/gone.jpg");
            ("name", JStr "gone.jpg");
            ("content-type", JStr "image/jpeg")] []
           (JStr "http://download.attachment/gone.jpg")
           "gone.jpg" "image/jpeg" (Response 404 [[x01]] None)).
  - reflexivity.
  - reflexivity.
  - reflexivity.
  - reflexivity.
  - reflexivity.
  - cbn. lia.
Defined.

Lemma download_attachments_missing_field_witness :
  download_attachments (fun _ => Py.Ok (Response 200 [] None)) (fun _ _ => Py.Ok tt)
    (JArr [JObj [("url", JStr "http://download.attachment/unnamed.txt");
                 ("content-type", JStr "text/plain")]])
  = ([], Py.Raise Py.KeyError).
Proof.
  apply (download_attachments_missing_field (fun _ => Py.Ok (Response 200 [] None))
           (fun _ _ => Py.Ok tt)
           [("url", JStr "http://download.attachment/unnamed.txt");
            ("content-type", JStr "text/plain")] []).
  right. left. reflexivity.
Defined.

Lemma get_new_oid_any_order_witness :
  get_new_oid ["2017-01-16-3.md"; "2012-05-15-0.md"; "2016-11-02-1.md"] = Py.Ok 4.
Proof.
  apply (get_new_oid_any_order
           ["2012-05-15-0.md"; "2016-11-02-1.md"; "2017-01-16-3.md"]
           ["2017-01-16-3.md"; "2012-05-15-0.md"; "2016-11-02-1.md"] 4).
  - apply Permutation_sym.
    exact (Permutation_cons_append ["2012-05-15-0.md"; "2016-11-02-1.md"]
             "2017-01-16-3.md").
  - vm_compute. reflexivity.
Defined.

Lemma get_new_oid_fresh_witness :
  1 <= 4
  /\ (exists p, In p ["2012-05-15-0.md"; "2017-01-16-3.md"] /\ post_oid p = Py.Ok (4 - 1))
  /\ (forall p k, In p ["2012-05-15-0.md"; "2017-01-16-3.md"] ->
                  post_oid p = Py.Ok k -> k < 4).
Proof.
  apply (get_new_oid_fresh ["2012-05-15-0.md"; "2017-01-16-3.md"] 4).
  vm_compute. reflexivity.
Defined.

(* ================================================================== *)
(** * Properties of the links to other posts *)
(* ================================================================== *)

Module LinkFacts.

(** ** The run of digits *)

Lemma digit_run_spec (s : string) :
  forall run rest, Re.digit_run s = (run, rest) ->
    s = (run ++ rest)%string
    /\ Forall (fun c => Str.is_digit c = true) (Str.chars run)
    /\ (forall c t, rest = String c t -> Str.is_digit c = false).
Proof.
  induction s as [|c s IH]; intros run rest; cbn [Re.digit_run].
  - intros [= <- <-]. repeat split; [constructor | discriminate].
  - destruct (Str.is_digit c) eqn:Hc.
    + destruct (Re.digit_run s) as [run' rest'] eqn:Hrun. intros [= <- <-].
      destruct (IH run' rest' eq_refl) as [-> [Hd Hrest]].
      repeat split; [constructor; assumption | exact Hrest].
    + intros [= <- <-]. repeat split; [constructor|].
      intros c' t [= <- <-]. exact Hc.
Qed.

Lemma digit_run_digits (ds rest : string) :
  Forall (fun c => Str.is_digit c = true) (Str.chars ds) ->
  (forall c t, rest = String c t -> Str.is_digit c = false) ->
  Re.digit_run (ds ++ rest) = (ds, rest).
Proof.
  intros Hds Hrest. induction ds as [|c ds IH].
  - change (Re.digit_run rest = (EmptyString, rest)).
    destruct rest as [|c t]; [reflexivity|]. cbn [Re.digit_run].
    rewrite (Hrest c t eq_refl). reflexivity.
  - change (Re.digit_run (String c (ds ++ rest)) = (String c ds, rest)).
    inversion Hds as [|? ? Hc Hds']; subst. cbn [Re.digit_run].
    rewrite Hc, (IH Hds'). reflexivity.
Qed.

(** ** One match *)

Lemma post_reference_spec (s ds rest : string) :
  post_reference s = Some (ds, rest) ->
  s = String "/" (ds ++ rest)
  /\ ds <> EmptyString
  /\ Forall (fun c => Str.is_digit c = true) (Str.chars ds)
  /\ (forall c t, rest = String c t -> Str.is_digit c = false).
Proof.
  unfold post_reference. destruct s as [|c t]; [discriminate|].
  destruct (Ascii.eqb_spec c "/") as [->|_]; [|discriminate].
  destruct (Re.digit_run t) as [run rest'] eqn:Hrun.
  destruct (digit_run_spec t run rest' Hrun) as [-> [Hd Hrest]].
  destruct run as [|d run]; [discriminate|]. intros [= <- <-].
  repeat split; [discriminate | exact Hd | exact Hrest].
Qed.

Lemma post_reference_digits (ds rest : string) :
  ds <> EmptyString ->
  Forall (fun c => Str.is_digit c = true) (Str.chars ds) ->
  (forall c t, rest = String c t -> Str.is_digit c = false) ->
  post_reference (String "/" (ds ++ rest)) = Some (ds, rest).
Proof.
  intros Hne Hds Hrest. unfold post_reference.
  change (Ascii.eqb "/" "/") with true. cbv iota.
  rewrite (digit_run_digits ds rest Hds Hrest).
  destruct ds; [congruence | reflexivity].
Qed.

(** A slash not followed by a digit starts no reference. *)
Lemma post_reference_none (s : string) :
  (forall c t, s = String "/" (String c t) -> Str.is_digit c = false) ->
  post_reference s = None.
Proof.
  intros H. unfold post_reference. destruct s as [|c t]; [reflexivity|].
  destruct (Ascii.eqb_spec c "/") as [->|_]; [|reflexivity].
  destruct t as [|d t]; [reflexivity|]. cbn [Re.digit_run].
  rewrite (H d t eq_refl). reflexivity.
Qed.

Lemma match_reference_spec (at_start : bool) (s g1 g2 rest : string) :
  match_reference at_start s = Some (g1, g2, rest) ->
  s = (g1 ++ String "/" (g2 ++ rest))%string
  /\ g2 <> EmptyString
  /\ Forall (fun c => Str.is_digit c = true) (Str.chars g2)
  /\ (String.length rest < String.length s)%nat.
Proof.
  unfold match_reference.
  destruct (if at_start then post_reference s else None) as [[ds r]|] eqn:Hhead.
  - intros [= <- <- <-]. destruct at_start; [|discriminate].
    destruct (post_reference_spec s ds r Hhead) as [-> [Hne [Hd _]]].
    repeat split; try assumption.
    cbn [String.length]. rewrite length_append. lia.
  - destruct s as [|c t]; [discriminate|].
    destruct (Re.is_word c); [discriminate|].
    destruct (post_reference t) as [[ds r]|] eqn:Htail; [|discriminate].
    intros [= <- <- <-].
    destruct (post_reference_spec t ds r Htail) as [-> [Hne [Hd _]]].
    repeat split; try assumption.
    cbn [String.length]. rewrite length_append. lia.
Qed.

(** ** The substitution *)

(** More steps than the text has characters change nothing. *)
Lemma sub_references_fuel (domain : string) (fuel : nat) :
  forall at_start s, (String.length s <= fuel)%nat ->
    sub_references fuel domain at_start s
    = sub_references (String.length s) domain at_start s.
Proof.
  induction fuel as [fuel IH] using lt_wf_ind. intros at_start s Hlen.
  destruct fuel as [|fuel].
  - destruct s; [reflexivity | cbn in Hlen; lia].
  - destruct s as [|c t].
    + cbn [String.length sub_references].
      destruct (match_reference at_start EmptyString) as [[[g1 g2] rest]|] eqn:Hm;
        [|reflexivity].
      apply match_reference_spec in Hm. cbn in Hm. lia.
    + cbn [String.length sub_references].
      destruct (match_reference at_start (String c t)) as [[[g1 g2] rest]|] eqn:Hm.
      * pose proof (match_reference_spec _ _ _ _ _ Hm) as [_ [_ [_ Hshort]]].
        cbn [String.length] in Hshort, Hlen.
        rewrite (IH fuel) by lia.
        rewrite (IH (String.length t)) by lia. reflexivity.
      * cbn [String.length] in Hlen. rewrite (IH fuel) by lia. reflexivity.
Qed.

(** The substitution, one step at a time. *)
Lemma sub_references_step (domain : string) (at_start : bool) (s : string) :
  sub_references (String.length s) domain at_start s
  = match match_reference at_start s with
    | Some (g1, g2, rest) =>
        (g1 ++ link domain g2
         ++ sub_references (String.length rest) domain false rest)%string
    | None =>
        match s with
        | String c t => String c (sub_references (String.length t) domain false t)
        | EmptyString => EmptyString
        end
    end.
Proof.
  destruct s as [|c t].
  - cbn [String.length sub_references].
    destruct (match_reference at_start EmptyString) as [[[g1 g2] rest]|] eqn:Hm;
      [|reflexivity].
    apply match_reference_spec in Hm. cbn in Hm. lia.
  - cbn [String.length sub_references].
    destruct (match_reference at_start (String c t)) as [[[g1 g2] rest]|] eqn:Hm;
      [|reflexivity].
    pose proof (match_reference_spec _ _ _ _ _ Hm) as [_ [_ [_ Hshort]]].
    cbn [String.length] in Hshort.
    rewrite sub_references_fuel by lia. reflexivity.
Qed.

End LinkFacts.

Section Links.

Variable domain : string.

(** A domain name holds no backslash: the replacement template then
    holds no escape but its two group references. *)
Local Abbreviation plain_domain := (~ In "\"%char (Str.chars domain)).

Local Abbreviation is_digits ds := (Forall (fun c => Str.is_digit c = true) (Str.chars ds)).

(** The text and its substitution, cut at the references that are
    linked. *)
Lemma sub_references_wraps (n : nat) :
  forall at_start s, (String.length s <= n)%nat ->
    exists (pieces : list (string * string)) (tail : string),
      s = (Str.concat (map (fun p => fst p ++ String "/" (snd p)) pieces) ++ tail)%string
      /\ sub_references (String.length s) domain at_start s
         = (Str.concat (map (fun p => fst p ++ link domain (snd p)) pieces) ++ tail)%string
      /\ Forall (fun p => snd p <> EmptyString /\ is_digits (snd p)) pieces.
Proof.
  induction n as [|n IH]; intros at_start s Hlen.
  - destruct s; [|cbn in Hlen; lia]. exists [], EmptyString. repeat split. constructor.
  - rewrite LinkFacts.sub_references_step.
    destruct (match_reference at_start s) as [[[g1 g2] rest]|] eqn:Hm.
    + destruct (LinkFacts.match_reference_spec _ _ _ _ _ Hm) as [-> [Hne [Hd Hshort]]].
      destruct (IH false rest ltac:(lia)) as [pieces [tail [Hrest [Hsub Hall]]]].
      exists ((g1, g2) :: pieces), tail. split; [|split].
      * cbn [map Str.concat fst snd]. rewrite !TextFacts.append_assoc, <- Hrest.
        reflexivity.
      * cbn [map Str.concat fst snd]. rewrite Hsub, !TextFacts.append_assoc. reflexivity.
      * constructor; [split; assumption | exact Hall].
    + destruct s as [|c t]; [exists [], EmptyString; repeat split; constructor|].
      cbn [String.length] in Hlen.
      destruct (IH false t ltac:(lia)) as [pieces [tail [Ht [Hsub Hall]]]].
      rewrite Hsub. destruct pieces as [|[b d] pieces].
      * exists [], (String c tail). cbn [map Str.concat] in *. split; [|split].
        -- change (String c t = String c tail). f_equal. exact Ht.
        -- reflexivity.
        -- constructor.
      * exists ((String c b, d) :: pieces), tail. split; [|split].
        -- rewrite Ht. reflexivity.
        -- reflexivity.
        -- inversion Hall; subst. constructor; assumption.
Qed.

(** X21. [autolink_posts] only wraps references: the text can be cut
    into pieces, each ending in a reference [/ds] with [ds] one or more
    digits, and a rest, so that the result is the same pieces with
    every such reference replaced by its link, nothing else added,
    dropped or moved. *)
Theorem autolink_posts_wraps (text : string) :
  plain_domain ->
  exists (pieces : list (string * string)) (tail : string),
    text = (Str.concat (map (fun p => fst p ++ String "/" (snd p)) pieces) ++ tail)%string
    /\ autolink_posts domain text
       = (Str.concat (map (fun p => fst p ++ link domain (snd p)) pieces) ++ tail)%string
    /\ Forall (fun p => snd p <> EmptyString /\ is_digits (snd p)) pieces.
Proof.
  intros _. unfold autolink_posts. destruct text as [|c t].
  - exists [], EmptyString. repeat split. constructor.
  - cbn [truthy]. apply (sub_references_wraps (String.length (String c t))). lia.
Qed.

(** The substitution never shortens a text. *)
Lemma sub_references_grows (n : nat) :
  forall at_start s, (String.length s <= n)%nat ->
    (String.length s
     <= String.length (sub_references (String.length s) domain at_start s))%nat.
Proof.
  induction n as [|n IH]; intros at_start s Hlen.
  - destruct s; [cbn; lia | cbn in Hlen; lia].
  - rewrite LinkFacts.sub_references_step.
    destruct (match_reference at_start s) as [[[g1 g2] rest]|] eqn:Hm.
    + destruct (LinkFacts.match_reference_spec _ _ _ _ _ Hm) as [Hs [_ [_ Hshort]]].
      pose proof (IH false rest ltac:(lia)) as Hrest.
      rewrite Hs at 1. unfold link.
      repeat first [rewrite length_append | progress cbn [String.length]]. lia.
    + destruct s as [|c t]; [cbn; lia|]. cbn [String.length] in *.
      pose proof (IH false t ltac:(lia)). lia.
Qed.

(** A place where the pattern matches. *)
Local Abbreviation no_reference_at_start s :=
  (forall c t, s = String "/" (String c t) -> Str.is_digit c = false).

Local Abbreviation no_reference_inside s :=
  (forall a w c t, s = (a ++ String w (String "/" (String c t)))%string ->
                   Str.is_digit c = true -> Re.is_word w = true).

Lemma post_reference_found (c : ascii) (t : string) :
  Str.is_digit c = true -> post_reference (String "/" (String c t)) <> None.
Proof.
  intros Hc. unfold post_reference. change (Ascii.eqb "/" "/") with true. cbv iota.
  cbn [Re.digit_run]. rewrite Hc. destruct (Re.digit_run t). discriminate.
Qed.

Lemma match_reference_none (at_start : bool) (s : string) :
  match_reference at_start s = None <->
  (at_start = true -> no_reference_at_start s)
  /\ (forall w c t, s = String w (String "/" (String c t)) ->
                    Str.is_digit c = true -> Re.is_word w = true).
Proof.
  unfold match_reference. split.
  - intros Hm. split.
    + intros -> c t ->. destruct (Str.is_digit c) eqn:Hc; [|reflexivity].
      exfalso. pose proof (post_reference_found c t Hc) as Hf.
      destruct (post_reference _) as [[ds r]|]; [discriminate | congruence].
    + intros w c t -> Hc. destruct (Re.is_word w) eqn:Hw; [reflexivity|].
      exfalso. pose proof (post_reference_found c t Hc) as Hf.
      destruct (if at_start then _ else None) as [[ds r]|]; [discriminate|].
      destruct (post_reference (String "/" (String c t))) as [[ds r]|];
        [discriminate | congruence].
  - intros [Hstart Hin].
    assert (Hhead : (if at_start then post_reference s else None) = None).
    { destruct at_start; [|reflexivity]. apply LinkFacts.post_reference_none.
      exact (Hstart eq_refl). }
    rewrite Hhead. destruct s as [|w t]; [reflexivity|].
    destruct (Re.is_word w) eqn:Hw; [reflexivity|].
    rewrite LinkFacts.post_reference_none; [reflexivity|].
    intros c t' ->. destruct (Str.is_digit c) eqn:Hc; [|reflexivity].
    rewrite (Hin w c t' eq_refl Hc) in Hw. discriminate.
Qed.

Lemma sub_references_unchanged (n : nat) :
  forall at_start s, (String.length s <= n)%nat ->
    sub_references (String.length s) domain at_start s = s
    <-> (at_start = true -> no_reference_at_start s) /\ no_reference_inside s.
Proof.
  induction n as [|n IH]; intros at_start s Hlen.
  - destruct s; [|cbn in Hlen; lia]. split; [|reflexivity].
    intros _. split; [intros _ c t; discriminate|].
    intros [|x a] w c t; discriminate.
  - rewrite LinkFacts.sub_references_step.
    destruct (match_reference at_start s) as [[[g1 g2] rest]|] eqn:Hm.
    + split.
      * intros Heq. exfalso.
        destruct (LinkFacts.match_reference_spec _ _ _ _ _ Hm) as [Hs [_ [_ Hshort]]].
        pose proof (sub_references_grows n false rest ltac:(lia)) as Hrest.
        apply (f_equal String.length) in Heq. rewrite Hs in Heq.
        unfold link in Heq.
        repeat first [rewrite length_append in Heq | progress cbn [String.length] in Heq].
        lia.
      * intros [Hstart Hin]. exfalso.
        assert (Hnone : match_reference at_start s = None).
        { apply match_reference_none. split; [exact Hstart|].
          intros w c t Hs. exact (Hin EmptyString w c t Hs). }
        congruence.
    + apply match_reference_none in Hm. destruct Hm as [Hstart Hhead].
      destruct s as [|x t].
      * split; [|reflexivity]. intros _. split; [exact Hstart|].
        intros [|y a] w c t'; discriminate.
      * cbn [String.length] in Hlen. specialize (IH false t ltac:(lia)).
        split.
        -- intros [= Heq]. apply IH in Heq. destruct Heq as [_ Hin].
           split; [exact Hstart|]. intros [|y a] w c t' Hs Hc.
           ++ exact (Hhead w c t' Hs Hc).
           ++ injection Hs as -> Hs. exact (Hin a w c t' Hs Hc).
        -- intros [_ Hin]. f_equal. apply IH. split; [discriminate|].
           intros a w c t' -> Hc. exact (Hin (String x a) w c t' eq_refl Hc).
Qed.

(** X22. A text comes back unchanged exactly when it holds no reference
    to link: it does not begin with a slash and a digit, and every
    slash followed by a digit comes right after a word character. *)
Theorem autolink_posts_unchanged (text : string) :
  plain_domain ->
  autolink_posts domain text = text
  <-> no_reference_at_start text /\ no_reference_inside text.
Proof.
  intros _. unfold autolink_posts. destruct text as [|x t].
  - split; [|reflexivity]. intros _. split; [intros c t; discriminate|].
    intros [|y a] w c t; discriminate.
  - cbn [truthy].
    rewrite (sub_references_unchanged (String.length (String x t))) by lia.
    split; [intros [H1 H2]; split; [exact (H1 eq_refl) | exact H2]|].
    intros [H1 H2]. split; [intros _; exact H1 | exact H2].
Qed.

(** ** A reference in its place *)

Lemma post_reference_other (c : ascii) (t : string) :
  c <> "/"%char -> post_reference (String c t) = None.
Proof.
  intros Hc. unfold post_reference.
  destruct (Ascii.eqb_spec c "/"); [congruence | reflexivity].
Qed.

Lemma post_reference_two_slashes (t : string) :
  post_reference (String "/" (String "/" t)) = None.
Proof. reflexivity. Qed.

(** Where the text does not begin with a slash, its start is a place
    like any other. *)
Lemma sub_references_start (s : string) :
  (forall t, s <> String "/" t) ->
  sub_references (String.length s) domain true s
  = sub_references (String.length s) domain false s.
Proof.
  intros Hs. rewrite !LinkFacts.sub_references_step. unfold match_reference.
  destruct s as [|c t]; [reflexivity|].
  rewrite post_reference_other; [reflexivity|].
  intros ->. exact (Hs t eq_refl).
Qed.

Lemma sub_references_at (at_start : bool) (w : ascii) (ds after : string) :
  Re.is_word w = false ->
  ds <> EmptyString -> is_digits ds ->
  (forall c t, after = String c t -> Str.is_digit c = false) ->
  let s := String w (String "/" (ds ++ after)) in
  sub_references (String.length s) domain at_start s
  = String w (link domain ds
              ++ sub_references (String.length after) domain false after).
Proof.
  intros Hw Hne Hds Hafter s. subst s. rewrite LinkFacts.sub_references_step.
  unfold match_reference.
  assert (Hhead : (if at_start
                   then post_reference (String w (String "/" (ds ++ after)))
                   else None) = None).
  { destruct at_start; [|reflexivity].
    destruct (Ascii.eqb_spec w "/") as [->|Hne'].
    - apply post_reference_two_slashes.
    - apply post_reference_other, Hne'. }
  rewrite Hhead, Hw, (LinkFacts.post_reference_digits ds after Hne Hds Hafter).
  reflexivity.
Qed.

Lemma sub_references_before (before : string) :
  ~ In "/"%char (Str.chars before) ->
  forall at_start w ds after,
    Re.is_word w = false ->
    ds <> EmptyString -> is_digits ds ->
    (forall c t, after = String c t -> Str.is_digit c = false) ->
    let s := (before ++ String w (String "/" (ds ++ after)))%string in
    sub_references (String.length s) domain at_start s
    = (before ++ String w (link domain ds
                           ++ sub_references (String.length after) domain false after))%string.
Proof.
  induction before as [|c before IH]; intros Hfree at_start w ds after Hw Hne Hds Hafter s.
  - apply sub_references_at; assumption.
  - subst s.
    change (String c before ++ String w (String "/" (ds ++ after)))%string
      with (String c (before ++ String w (String "/" (ds ++ after)))).
    rewrite LinkFacts.sub_references_step.
    assert (Hc : c <> "/"%char).
    { intros ->. apply Hfree. left. reflexivity. }
    assert (Hfree' : ~ In "/"%char (Str.chars before)).
    { intros Hin. apply Hfree. right. exact Hin. }
    assert (Hm : match_reference at_start
                   (String c (before ++ String w (String "/" (ds ++ after)))) = None).
    { unfold match_reference. rewrite (post_reference_other c _ Hc).
      replace (if at_start then None else None) with (@None (string * string))
        by (destruct at_start; reflexivity).
      destruct (Re.is_word c); [reflexivity|].
      destruct before as [|c' before'].
      - destruct (Ascii.eqb_spec w "/") as [->|Hne'].
        + change (EmptyString ++ String "/" (String "/" (ds ++ after)))%string
            with (String "/" (String "/" (ds ++ after))).
          rewrite post_reference_two_slashes. reflexivity.
        + change (EmptyString ++ String w (String "/" (ds ++ after)))%string
            with (String w (String "/" (ds ++ after))).
          rewrite (post_reference_other w _ Hne'). reflexivity.
      - change (String c' before' ++ String w (String "/" (ds ++ after)))%string
          with (String c' (before' ++ String w (String "/" (ds ++ after)))).
        rewrite post_reference_other; [reflexivity|].
        intros ->. apply Hfree'. left. reflexivity. }
    rewrite Hm. rewrite (IH Hfree' false w ds after Hw Hne Hds Hafter). reflexivity.
Qed.

(** X23. A reference [/ds] at the start of the text, or after a
    character that is no word character, is replaced by its link, when
    the text before it holds no slash and the text after it begins
    neither with a digit nor with a slash; the text before is kept and
    the text after is linked in its turn. *)
Theorem autolink_posts_reference (before sep ds after : string) :
  plain_domain ->
  ~ In "/"%char (Str.chars before) ->
  (sep = EmptyString /\ before = EmptyString)
  \/ (exists w, sep = String w EmptyString /\ Re.is_word w = false) ->
  ds <> EmptyString -> is_digits ds ->
  (forall c t, after = String c t -> Str.is_digit c = false /\ c <> "/"%char) ->
  autolink_posts domain (before ++ sep ++ String "/" (ds ++ after))
  = (before ++ sep ++ link domain ds ++ autolink_posts domain after)%string.
Proof.
  intros _ Hfree Hsep Hne Hds Hafter.
  assert (Hdigit : forall c t, after = String c t -> Str.is_digit c = false).
  { intros c t H. exact (proj1 (Hafter c t H)). }
  assert (Hrest : autolink_posts domain after
                  = sub_references (String.length after) domain false after).
  { unfold autolink_posts. destruct after as [|c t]; [reflexivity|]. cbn [truthy].
    apply sub_references_start. intros t' [= -> _].
    exact (proj2 (Hafter "/"%char t eq_refl) eq_refl). }
  rewrite Hrest. unfold autolink_posts.
  destruct Hsep as [[-> ->]|[w [-> Hw]]].
  - change (EmptyString ++ EmptyString ++ String "/" (ds ++ after))%string
      with (String "/" (ds ++ after)).
    cbn [truthy]. rewrite LinkFacts.sub_references_step. unfold match_reference.
    rewrite (LinkFacts.post_reference_digits ds after Hne Hds Hdigit). reflexivity.
  - change (String w EmptyString ++ String "/" (ds ++ after))%string
      with (String w (String "/" (ds ++ after))).
    replace (truthy (before ++ String w (String "/" (ds ++ after)))) with true
      by (destruct before; reflexivity).
    rewrite (sub_references_before before Hfree true w ds after Hw Hne Hds Hdigit).
    reflexivity.
Qed.

End Links.

Lemma autolink_posts_unchanged_witness :
  autolink_posts "foo.bar" "This pic is 10/10!" = "This pic is 10/10!"
  <-> (forall c t, "This pic is 10/10!" = String "/" (String c t) -> Str.is_digit c = false)
      /\ (forall a w c t,
            "This pic is 10/10!" = (a ++ String w (String "/" (String c t)))%string ->
            Str.is_digit c = true -> Re.is_word w = true).
Proof.
  apply (autolink_posts_unchanged "foo.bar" "This pic is 10/10!").
  vm_compute. intros [H|[H|[H|[H|[H|[H|[H|[]]]]]]]]; discriminate H.
Defined.

Lemma autolink_posts_wraps_witness :
  exists (pieces : list (string * string)) (tail : string),
    "(/322,/333)"
    = (Str.concat (map (fun p => fst p ++ String "/" (snd p)) pieces) ++ tail)%string
    /\ autolink_posts "foo.bar" "(/322,/333)"
       = (Str.concat (map (fun p => fst p ++ link "foo.bar" (snd p)) pieces) ++ tail)%string
    /\ Forall (fun p => snd p <> EmptyString
                        /\ Forall (fun c => Str.is_digit c = true) (Str.chars (snd p)))
         pieces.
Proof.
  apply (autolink_posts_wraps "foo.bar" "(/322,/333)").
  vm_compute. intros [H|[H|[H|[H|[H|[H|[H|[]]]]]]]]; discriminate H.
Defined.

Lemma autolink_posts_reference_witness :
  autolink_posts "foo.bar" ("Pic of Joe, see" ++ " " ++ String "/" ("644" ++ "!"))
  = ("Pic of Joe, see" ++ " " ++ link "foo.bar" "644" ++ autolink_posts "foo.bar" "!")%string.
Proof.
  apply (autolink_posts_reference "foo.bar" "Pic of Joe, see" " " "644" "!").
  - vm_compute. intros [H|[H|[H|[H|[H|[H|[H|[]]]]]]]]; discriminate H.
  - vm_compute. intuition discriminate.
  - right. exists " "%char. split; reflexivity.
  - discriminate.
  - repeat constructor.
  - intros c t [= <- <-]. split; [reflexivity | discriminate].
Defined.

(* ================================================================== *)
(** * Properties of the making of a post *)
(* ================================================================== *)

Module DateFacts.

Import Datetime.

Lemma digit_of_char (k : Z) : 0 <= k < 10 -> digit_of (Str.digit_char k) = Some k.
Proof.
  intros Hk. unfold digit_of.
  destruct (TextFacts.digit_char_spec k Hk) as [-> ->]. f_equal. lia.
Qed.

Lemma digit_char_plain (k : Z) (x : ascii) :
  0 <= k < 10 -> Str.is_digit x = false -> Ascii.eqb (Str.digit_char k) x = false.
Proof.
  intros Hk Hx. apply Ascii.eqb_neq. intros Heq.
  destruct (TextFacts.digit_char_spec k Hk) as [Hd _]. congruence.
Qed.

Lemma year_field_four (y : Z) (rest : list ascii) :
  0 <= y <= 9999 ->
  year_field (Str.chars (four_digits y) ++ rest) = Some (y, rest).
Proof.
  intros Hy. unfold four_digits, two_digits. cbn [Str.chars list_ascii_of_string app].
  unfold year_field.
  rewrite !digit_of_char by (apply Z.mod_pos_bound; lia). f_equal. f_equal.
  pose proof (Z.div_mod y 10 ltac:(lia)).
  pose proof (Z.div_mod (y / 10) 10 ltac:(lia)).
  pose proof (Z.div_mod (y / 100) 10 ltac:(lia)).
  pose proof (Z.mod_pos_bound y 10 ltac:(lia)).
  pose proof (Z.mod_pos_bound (y / 10) 10 ltac:(lia)).
  pose proof (Z.mod_pos_bound (y / 100) 10 ltac:(lia)).
  assert (y / 1000 mod 10 = y / 1000).
  { apply Z.mod_small. split; [apply Z.div_pos; lia|].
    apply Z.div_lt_upper_bound; lia. }
  replace (y / 100) with (y / 10 / 10) in * by (rewrite Z.div_div by lia; reflexivity).
  replace (y / 1000) with (y / 10 / 10 / 10) in *
    by (rewrite !Z.div_div by lia; reflexivity).
  pose proof (Z.div_mod (y / 10 / 10) 10 ltac:(lia)).
  lia.
Qed.

(** The month and the day as [str] writes them are read by the first
    alternative that fits. *)
Lemma month_field_two (m : Z) (rest : list ascii) :
  1 <= m <= 12 ->
  exists others,
    month_field (Str.chars (two_digits m) ++ "-"%char :: rest)
    = (m, "-"%char :: rest) :: others
    /\ Forall (fun alt => dash (snd alt) = None) others.
Proof.
  intros Hm.
  assert (H : m = 1 \/ m = 2 \/ m = 3 \/ m = 4 \/ m = 5 \/ m = 6 \/ m = 7 \/ m = 8
              \/ m = 9 \/ m = 10 \/ m = 11 \/ m = 12) by lia.
  repeat (destruct H as [->|H];
          [eexists; split; [reflexivity | repeat constructor]|]).
  subst m. eexists; split; [reflexivity | repeat constructor].
Qed.

Lemma day_field_two (d : Z) :
  1 <= d <= 31 ->
  exists others, day_field (Str.chars (two_digits d)) = (d, []) :: others.
Proof.
  intros Hd.
  assert (H : d = 1 \/ d = 2 \/ d = 3 \/ d = 4 \/ d = 5 \/ d = 6 \/ d = 7 \/ d = 8
              \/ d = 9 \/ d = 10 \/ d = 11 \/ d = 12 \/ d = 13 \/ d = 14 \/ d = 15
              \/ d = 16 \/ d = 17 \/ d = 18 \/ d = 19 \/ d = 20 \/ d = 21 \/ d = 22
              \/ d = 23 \/ d = 24 \/ d = 25 \/ d = 26 \/ d = 27 \/ d = 28 \/ d = 29
              \/ d = 30 \/ d = 31) by lia.
  repeat (destruct H as [->|H]; [eexists; reflexivity|]).
  subst d. eexists; reflexivity.
Qed.

Lemma days_in_month_le (y m : Z) : days_in_month y m <= 31.
Proof.
  unfold days_in_month. destruct (m =? 2); [destruct (is_leap y); lia|].
  destruct (_ || _); lia.
Qed.

(** [strptime] reads back what [str] writes. *)
Lemma strptime_isoformat (d : date) :
  valid_date d -> strptime (isoformat d) = Py.Ok d.
Proof.
  intros [Hy [Hm Hd]]. destruct d as [y m dd]. cbn [year month day] in *.
  pose proof (days_in_month_le y m) as Hle.
  unfold strptime, isoformat. cbn [year month day].
  rewrite !TextFacts.chars_app.
  change (Str.chars "-") with ["-"%char]. cbn [app].
  unfold match_ymd. rewrite year_field_four by lia.
  cbn [dash]. change (Ascii.eqb "-" "-") with true. cbv iota.
  destruct (month_field_two m (Str.chars (two_digits dd)) Hm) as [others [-> Hothers]].
  cbn [flat_map snd fst dash]. change (Ascii.eqb "-" "-") with true. cbv iota.
  destruct (day_field_two dd ltac:(lia)) as [days ->].
  cbn [map app head fst snd].
  replace (y =? 0) with false by (symmetry; apply Z.eqb_neq; lia).
  replace (days_in_month y m <? dd) with false by (symmetry; apply Z.ltb_ge; lia).
  reflexivity.
Qed.

Lemma two_digits_digits (n : Z) :
  Forall (fun c => Str.is_digit c = true) (Str.chars (two_digits n)).
Proof.
  unfold two_digits. repeat constructor;
    apply TextFacts.digit_char_spec, Z.mod_pos_bound; lia.
Qed.

Lemma four_digits_digits (n : Z) :
  Forall (fun c => Str.is_digit c = true) (Str.chars (four_digits n)).
Proof.
  unfold four_digits. constructor; [|constructor; [|apply two_digits_digits]];
    apply TextFacts.digit_char_spec, Z.mod_pos_bound; lia.
Qed.

Lemma replace_app (a b : ascii) (s t : string) :
  Str.replace a b (s ++ t) = (Str.replace a b s ++ Str.replace a b t)%string.
Proof.
  induction s as [|c s IH]; [reflexivity|].
  change (Str.replace a b (String c (s ++ t))
          = String (if Ascii.eqb c a then b else c) (Str.replace a b s ++ Str.replace a b t)).
  cbn [Str.replace]. now rewrite IH.
Qed.

Lemma replace_digits (a b : ascii) (s : string) :
  Str.is_digit a = false ->
  Forall (fun c => Str.is_digit c = true) (Str.chars s) ->
  Str.replace a b s = s.
Proof.
  intros Ha. induction s as [|c s IH]; intros Hs; [reflexivity|].
  inversion Hs as [|? ? Hc Hs']; subst. cbn [Str.replace].
  rewrite (IH Hs'). destruct (Ascii.eqb_spec c a) as [->|_]; [congruence | reflexivity].
Qed.

(** The day of an EXIF time stamp, [YYYY:MM:DD hh:mm:ss], with dashes. *)
Lemma exif_date_stamp (y m d : Z) (time : string) :
  exif_date ((four_digits y ++ ":" ++ two_digits m ++ ":" ++ two_digits d)
             ++ String " " time)
  = Py.Ok (isoformat (Date y m d)).
Proof.
  unfold exif_date. rewrite TextFacts.split_at_first.
  - rewrite TextFacts.getitem_first. cbn [Py.bind]. f_equal.
    unfold isoformat. cbn [year month day].
    rewrite !replace_app.
    rewrite (replace_digits ":" "-" (four_digits y) eq_refl (four_digits_digits y)).
    rewrite (replace_digits ":" "-" (two_digits m) eq_refl (two_digits_digits m)).
    rewrite (replace_digits ":" "-" (two_digits d) eq_refl (two_digits_digits d)).
    reflexivity.
  - rewrite !TextFacts.chars_app. intros Hin.
    assert (Hd : forall s, Forall (fun c => Str.is_digit c = true) (Str.chars s) ->
                           ~ In " "%char (Str.chars s)).
    { intros s Hs Hin'.
      pose proof (proj1 (List.Forall_forall _ _) Hs _ Hin') as H. discriminate H. }
    repeat (apply in_app_or in Hin; destruct Hin as [Hin|Hin]).
    + exact (Hd _ (four_digits_digits y) Hin).
    + destruct Hin as [Hin|[]]. discriminate Hin.
    + exact (Hd _ (two_digits_digits m) Hin).
    + destruct Hin as [Hin|[]]. discriminate Hin.
    + exact (Hd _ (two_digits_digits d) Hin).
Qed.

End DateFacts.

Module PathFacts.

Lemma numeral_not_slash (c : ascii) : Str.is_numeral_char c = true -> c <> "/"%char.
Proof. intros Hc ->. discriminate Hc. Qed.

Lemma fmt_d_plain (n : Z) : ~ In "/"%char (Str.chars (Str.fmt_d n)).
Proof.
  intros Hin. exact (numeral_not_slash _ (TagFacts.fmt_d_numeral n _ Hin) eq_refl).
Qed.

Lemma jpg_name_plain (oid w : Z) : ~ In "/"%char (Str.chars (jpg_name oid w)).
Proof.
  unfold jpg_name. rewrite !TextFacts.chars_app. intros Hin.
  repeat (apply in_app_or in Hin; destruct Hin as [Hin|Hin]).
  - exact (fmt_d_plain oid Hin).
  - destruct Hin as [Hin|[]]. discriminate Hin.
  - exact (fmt_d_plain w Hin).
  - cbn in Hin. destruct Hin as [H|[H|[H|[H|[]]]]]; discriminate H.
Qed.

Lemma startswith_plain (s : string) :
  ~ In "/"%char (Str.chars s) -> Str.startswith "/" s = false.
Proof.
  intros Hs. destruct s as [|c s]; [reflexivity|]. unfold Str.startswith.
  cbn [String.prefix]. destruct (ascii_dec "/" c) as [<-|_]; [|reflexivity].
  exfalso. apply Hs. left. reflexivity.
Qed.

(** The files of the renditions are in the temporary directory. *)
Lemma new_file (oid w : Z) :
  path_join TEMP_PATH (jpg_name oid w) = ("/tmp/" ++ jpg_name oid w)%string.
Proof.
  unfold path_join. rewrite (startswith_plain _ (jpg_name_plain oid w)). reflexivity.
Qed.

Lemma basename_after_slash (a name : string) :
  ~ In "/"%char (Str.chars name) -> basename (a ++ String "/" name) = name.
Proof.
  intros Hname. unfold basename.
  destruct (TextFacts.split_after_sep "/" a name) as [pieces [_ ->]].
  rewrite (TextFacts.split_without "/" name Hname). apply last_last.
Qed.

(** The key of a rendition in the store is the name of its file. *)
Lemma basename_new_file (oid w : Z) :
  basename ("/tmp/" ++ jpg_name oid w) = jpg_name oid w.
Proof. exact (basename_after_slash "/tmp" (jpg_name oid w) (jpg_name_plain oid w)). Qed.

(** ** Parts of a text *)

Lemma prefix_app_l (p a b : string) :
  String.prefix p a = true -> String.prefix p (a ++ b) = true.
Proof.
  revert a. induction p as [|c p IH]; intros a Ha.
  - destruct (a ++ b)%string; reflexivity.
  - destruct a as [|x a]; [discriminate Ha|].
    change (String.prefix (String c p) (String x (a ++ b)) = true).
    cbn [String.prefix] in *. destruct (ascii_dec c x); [|discriminate Ha].
    apply IH, Ha.
Qed.

Lemma contains_app_l (p a b : string) :
  Str.contains p a = true -> Str.contains p (a ++ b) = true.
Proof.
  induction a as [|x a IH]; intros Ha.
  - cbn [Str.contains] in Ha. rewrite orb_false_r in Ha.
    destruct p; [|discriminate Ha]. destruct (EmptyString ++ b)%string; reflexivity.
  - change (Str.contains p (String x (a ++ b)) = true).
    cbn [Str.contains] in *. apply orb_true_iff in Ha. destruct Ha as [Ha|Ha].
    + change (String x (a ++ b)) with (String x a ++ b)%string.
      rewrite (prefix_app_l _ _ _ Ha). reflexivity.
    + rewrite (IH Ha). apply orb_true_r.
Qed.

Lemma contains_concat (p piece : string) (pieces : list string) :
  In piece pieces -> Str.contains p piece = true ->
  Str.contains p (Str.concat pieces) = true.
Proof.
  intros Hin Hp. induction pieces as [|q pieces IH]; [destruct Hin|].
  cbn [Str.concat]. destruct Hin as [->|Hin].
  - apply contains_app_l, Hp.
  - apply contains_app_r, IH, Hin.
Qed.

Lemma srcset_entry_url (oid w : Z) :
  Str.contains (assets_url ++ "/" ++ jpg_name oid w) (srcset_entry oid w) = true.
Proof.
  apply StrFacts.contains_prefix. unfold srcset_entry.
  change (assets_url ++ "/" ++ jpg_name oid w)%string with (jpg_url oid w).
  apply StrFacts.prefix_app.
Qed.

End PathFacts.

Module RunFacts.

Lemma mapM_length {A B : Type} (f : A -> Py.result B) (l : list A) (bs : list B) :
  Py.mapM f l = Py.Ok bs -> length bs = length l.
Proof.
  intros H. apply ListingFacts.mapM_ok in H.
  induction H; [reflexivity | cbn; congruence].
Qed.

Lemma resize_image_four bbox (img : Image) (metadata : gmap string exif)
    (resized : list Image) :
  resize_image bbox img metadata = Py.Ok resized ->
  exists r1 r2 r3 r4, resized = [r1; r2; r3; r4].
Proof.
  unfold resize_image.
  destruct (oriented bbox metadata img) as [oimg|e]; cbn [Py.bind]; [|discriminate].
  destruct (size oimg) as [w h].
  destruct (Py.mapM _ targets) as [scales|e] eqn:Hscales; cbn [Py.bind]; [|discriminate].
  destruct (Py.mapM _ scales) as [sizes|e] eqn:Hsizes; cbn [Py.bind]; [|discriminate].
  intros Hres. apply mapM_length in Hscales, Hsizes, Hres.
  change (length targets) with 4%nat in Hscales. rewrite Hscales in Hsizes.
  rewrite Hsizes in Hres.
  destruct resized as [|r1 [|r2 [|r3 [|r4 [|r5 resized]]]]]; try discriminate Hres.
  eexists _, _, _, _. reflexivity.
Qed.

Lemma max_of_spec (l : list Z) (x : Z) :
  max_of l = Py.Ok x -> In x l /\ Forall (fun y => y <= x) l.
Proof.
  destruct l as [|a l]; [discriminate|]. cbn [max_of]. intros [= <-].
  assert (H : forall l a, (fold_left Z.max l a = a \/ In (fold_left Z.max l a) l)
                          /\ a <= fold_left Z.max l a
                          /\ Forall (fun y => y <= fold_left Z.max l a) l).
  { clear. induction l as [|b l IH]; intros a; cbn [fold_left].
    - split; [left; reflexivity|]. split; [lia | constructor].
    - destruct (IH (Z.max a b)) as [Hin [Hle Hall]]. split; [|split].
      + destruct Hin as [Heq|Hin]; [|right; right; exact Hin].
        rewrite Heq. destruct (Z.max_spec a b) as [[_ ->]|[_ ->]];
          [right; left; reflexivity | left; reflexivity].
      + lia.
      + constructor; [lia | exact Hall]. }
  destruct (H l a) as [Hin [Hle Hall]]. split.
  - destruct Hin as [->|Hin]; [left; reflexivity | right; exact Hin].
  - constructor; assumption.
Qed.

End RunFacts.

Section Posting.

Variable env : settings.
Variable EXIF_TAGS : gmap Z string.
Variable bbox : Z -> Z * Z -> Z * Z.
Variable world : Run.world call.

(** The calls of one kind, in their order. *)
Local Abbreviation saved calls :=
  (omap (fun c => match c with ImageSave r f => Some (r, f) | _ => None end) calls).
Local Abbreviation stored calls :=
  (omap (fun c => match c with PutObject b k f a => Some (b, k, f, a) | _ => None end)
     calls).
Local Abbreviation removed calls :=
  (omap (fun c => match c with Remove f => Some f | _ => None end) calls).

(** The calls of [delete] and of [upload_files] when none is refused. *)
Local Abbreviation delete_calls paths :=
  (flat_map
     (fun path =>
        LogInfo ("Deleting " ++ path) :: (if dry env then [] else [Remove path]))
     paths).
Local Abbreviation upload_calls paths :=
  (flat_map
     (fun path =>
        LogInfo ("Uploading " ++ path ++ " to Amazon S3")
        :: (if dry env then []
            else [OpenFile path "rb";
                  PutObject (aws_bucket env) (basename path) path "public-read";
                  CloseFile path]))
     paths).
Local Abbreviation save_calls pictures :=
  (flat_map (fun rf : Image * string => [ImageSave (fst rf) (snd rf); ImageClose (fst rf)])
     pictures).

Lemma delete_makes (paths : list string) :
  Run.makes outside world (delete env world paths) (delete_calls paths) tt.
Proof.
  unfold delete. apply WorldFacts.makes_for_each. intros path.
  apply (WorldFacts.makes_then outside world _ _ [LogInfo ("Deleting " ++ path)]);
    [apply WorldFacts.makes_note|].
  destruct (dry env); [apply WorldFacts.makes_ret|].
  apply WorldFacts.makes_perform. reflexivity.
Qed.

Lemma upload_files_makes (paths : list string) :
  Run.makes outside world (upload_files env world paths) (upload_calls paths) tt.
Proof.
  unfold upload_files. apply WorldFacts.makes_for_each. intros path. cbv zeta.
  apply (WorldFacts.makes_then outside world _ _
           [LogInfo ("Uploading " ++ path ++ " to Amazon S3")]);
    [apply WorldFacts.makes_note|].
  destruct (dry env); [apply WorldFacts.makes_ret|].
  apply (WorldFacts.makes_then outside world _ _ [OpenFile path "rb"]);
    [apply WorldFacts.makes_perform; reflexivity|].
  apply (WorldFacts.makes_closing outside world _ _
           [PutObject (aws_bucket env) (basename path) path "public-read"]
           [CloseFile path]);
    apply WorldFacts.makes_perform; reflexivity.
Qed.

Lemma removed_delete_calls (paths : list string) :
  removed (delete_calls paths) = (if dry env then [] else paths)
  /\ stored (delete_calls paths) = [].
Proof.
  induction paths as [|path paths [IH1 IH2]].
  - destruct (dry env); split; reflexivity.
  - cbn [flat_map]. destruct (dry env); cbn [app omap list_omap] in *;
      rewrite IH1, IH2; split; reflexivity.
Qed.

Lemma stored_upload_calls (paths : list string) :
  stored (upload_calls paths)
  = (if dry env then []
     else map (fun path => (aws_bucket env, basename path, path, "public-read"%string))
            paths)
  /\ removed (upload_calls paths) = [].
Proof.
  induction paths as [|path paths [IH1 IH2]].
  - destruct (dry env); split; reflexivity.
  - cbn [flat_map]. destruct (dry env); cbn [app omap list_omap map] in *;
      rewrite IH1, IH2; split; reflexivity.
Qed.

(** In a dry run [delete] and [upload_files] only write to the log. *)
Lemma dry_runs (paths : list string) (done : list call) :
  dry env = true ->
  delete env world paths done = ((done ++ delete_calls paths)%list, Py.Ok tt)
  /\ upload_files env world paths done = ((done ++ upload_calls paths)%list, Py.Ok tt).
Proof.
  intros Hdry. unfold delete, upload_files. rewrite Hdry. split.
  - exact (WorldFacts.for_each_notes (fun path => LogInfo ("Deleting " ++ path))
             paths done).
  - exact (WorldFacts.for_each_notes
             (fun path => LogInfo ("Uploading " ++ path ++ " to Amazon S3")) paths done).
Qed.

(** [delete] stops at the first path that cannot be removed. *)
Lemma delete_raises (paths : list string) (done calls : list call) (e : Py.exn) :
  delete env world paths done = (calls, Py.Raise e) ->
  exists before path after trace,
    paths = (before ++ path :: after)%list
    /\ calls = (trace ++ [Remove path])%list
    /\ world trace (Remove path) = Py.Raise e
    /\ removed calls = (removed done ++ before ++ [path])%list.
Proof.
  destruct (dry env) eqn:Hdry.
  { intros Hrun. rewrite (proj1 (dry_runs paths done Hdry)) in Hrun. discriminate Hrun. }
  unfold delete. rewrite Hdry. revert done.
  induction paths as [|path paths IH]; intros done.
  - cbn. unfold mret, Run.run_ret. discriminate.
  - cbn [Run.for_each]. rewrite !WorldFacts.run_then.
    set (logged := (done ++ [LogInfo ("Deleting " ++ path)])%list).
    change (Run.note (LogInfo ("Deleting " ++ path)) done) with (logged, @Py.Ok unit tt).
    cbv iota.
    change (Run.perform world (Remove path) logged)
      with ((logged ++ [Remove path])%list, world logged (Remove path)).
    assert (Hlogged : removed logged = removed done).
    { subst logged. rewrite omap_app. apply app_nil_r. }
    destruct (world logged (Remove path)) as [[]|e'] eqn:Hw.
    + intros Hrun.
      destruct (IH _ Hrun) as [before [p [after [trace [-> [-> [Hw' Hrem]]]]]]].
      exists (path :: before), p, after, trace.
      split; [reflexivity|]. split; [reflexivity|]. split; [exact Hw'|].
      rewrite Hrem, omap_app, Hlogged. cbn [omap list_omap].
      rewrite <- !app_assoc. reflexivity.
    + intros [= <- <-]. exists [], path, paths, logged.
      split; [reflexivity|]. split; [reflexivity|]. split; [exact Hw|].
      rewrite omap_app, Hlogged. reflexivity.
Qed.

(** X26. [delete] and [upload_files] under a world that may refuse a
    call.  When every call is accepted, [delete] removes the paths it is
    given, each once and in their order, and [upload_files] puts one
    object per path, in their order, into the bucket of the
    configuration, readable by everyone, under the last component of the
    path as key.  When [delete] raises, it is the exception of a removal
    that the world refused: the paths before that one have been removed,
    those after it have not, and the refused call is the last one made.
    In a dry run neither function removes or stores anything, and
    neither can fail.  [upload_files] removes nothing and [delete]
    stores nothing that is accepted. *)
Theorem delete_and_upload_calls (paths : list string) :
  let deleted := delete env world paths [] in
  let uploaded := upload_files env world paths [] in
  (Run.accepts outside world (fst deleted) ->
     snd deleted = Py.Ok tt
     /\ removed (fst deleted) = (if dry env then [] else paths)
     /\ stored (fst deleted) = [])
  /\ (Run.accepts outside world (fst uploaded) ->
        snd uploaded = Py.Ok tt
        /\ stored (fst uploaded)
           = (if dry env then []
              else map (fun path =>
                          (aws_bucket env, basename path, path, "public-read"%string))
                     paths)
        /\ removed (fst uploaded) = [])
  /\ (forall e, snd deleted = Py.Raise e ->
        exists before path after trace,
          paths = (before ++ path :: after)%list
          /\ fst deleted = (trace ++ [Remove path])%list
          /\ world trace (Remove path) = Py.Raise e
          /\ removed (fst deleted) = (before ++ [path])%list)
  /\ (dry env = true ->
        snd deleted = Py.Ok tt /\ snd uploaded = Py.Ok tt
        /\ removed (fst deleted) = [] /\ stored (fst uploaded) = []).
Proof.
  intros deleted uploaded. split; [|split; [|split]].
  - intros Hacc. subst deleted.
    rewrite (WorldFacts.makes_run outside world _ _ _ [] (delete_makes paths) Hacc).
    cbn [fst snd app]. split; [reflexivity|]. apply removed_delete_calls.
  - intros Hacc. subst uploaded.
    rewrite (WorldFacts.makes_run outside world _ _ _ [] (upload_files_makes paths) Hacc).
    cbn [fst snd app]. split; [reflexivity|]. apply stored_upload_calls.
  - intros e He. subst deleted.
    destruct (delete env world paths []) as [calls outcome] eqn:Hrun.
    cbn [fst snd] in *. subst outcome.
    destruct (delete_raises paths [] calls e Hrun)
      as [before [path [after [trace [Hp [Hc [Hw Hr]]]]]]].
    exists before, path, after, trace. repeat split; assumption.
  - intros Hdry. subst deleted uploaded.
    destruct (dry_runs paths [] Hdry) as [-> ->]. cbn [fst snd app].
    rewrite (proj1 (removed_delete_calls paths)), (proj1 (stored_upload_calls paths)), Hdry.
    repeat split; reflexivity.
Qed.

Lemma exif_date_total (dt : string) : exists date, exif_date dt = Py.Ok date.
Proof.
  unfold exif_date. destruct dt as [|c t]; [eexists; reflexivity|]. cbn [Str.split].
  destruct (Ascii.eqb c " "); [eexists; reflexivity|].
  destruct (Str.split " " t); eexists; reflexivity.
Qed.

(** The calls that [process_image] makes for the renditions when none is
    refused. *)
Local Abbreviation files_calls img img_path pictures :=
  (save_calls pictures ++ [ImageClose img]
   ++ upload_calls (map snd pictures)
   ++ delete_calls (img_path :: map snd pictures))%list.

(** The part of [process_image] that acts on the files. *)
Local Abbreviation files_run img img_path pictures :=
  (Run.for_each
     (fun rf : Image * string =>
        Run.perform world (ImageSave (fst rf) (snd rf)) ;;
        Run.perform world (ImageClose (fst rf)))
     pictures ;;
   Run.perform world (ImageClose img) ;;
   upload_files env world (map snd pictures) ;;
   delete env world (img_path :: map snd pictures)).

Lemma files_run_makes (img : Image) (img_path : string) (pictures : list (Image * string)) :
  Run.makes outside world (files_run img img_path pictures)
    (files_calls img img_path pictures) tt.
Proof.
  apply WorldFacts.makes_then.
  { apply WorldFacts.makes_for_each. intros [r f]. cbn [fst snd].
    apply (WorldFacts.makes_then outside world _ _ [ImageSave r f] [ImageClose r]);
      apply WorldFacts.makes_perform; reflexivity. }
  apply WorldFacts.makes_then; [apply WorldFacts.makes_perform; reflexivity|].
  apply WorldFacts.makes_then; [apply upload_files_makes | apply delete_makes].
Qed.

(** The run of [process_image] once the renditions are there. *)
Lemma process_image_resized (post_object : post) (img_path : string) (img : Image)
    getexif (metadata : gmap string exif) (date : option string) (resized : list Image) :
  get_img_data EXIF_TAGS getexif = Py.Ok metadata ->
  match metadata !! "DateTime"%string with
  | Some (EText dt) => Py.fmap Some (exif_date dt)
  | Some (EInt _) => Py.Raise Py.AttributeError
  | None => Py.Ok (p_date post_object)
  end = Py.Ok date ->
  resize_image bbox img metadata = Py.Ok resized ->
  let oid := p_oid post_object in
  let widths := map (fun r => fst (size r)) resized in
  let files := map (fun w => ("/tmp/" ++ jpg_name oid w)%string) widths in
  let dated := Post oid (p_summary post_object) date (p_og_image post_object)
                 (p_content post_object) in
  process_image env EXIF_TAGS bbox world post_object img_path (Py.Ok img) getexif
  = match
      files_run img img_path (combine resized files)
        [LogInfo ("Making image post #" ++ Str.fmt_d oid); ImageOpen img_path;
         LogInfo ("Resizing image #" ++ Str.fmt_d oid ++ " (" ++ img_path ++ ")")]
    with
    | (calls, Py.Raise e) => (calls, dated, Py.Raise e)
    | (calls, Py.Ok _) =>
        match max_of widths with
        | Py.Raise e => (calls, dated, Py.Raise e)
        | Py.Ok widest =>
            match create_img_tag oid widths (p_summary post_object) with
            | Py.Raise e =>
                (calls,
                 Post oid (p_summary post_object) date (Some (jpg_name oid widest))
                   (p_content post_object),
                 Py.Raise e)
            | Py.Ok tag =>
                (calls,
                 Post oid (p_summary post_object) date (Some (jpg_name oid widest))
                   (Some tag),
                 Py.Ok tt)
            end
        end
    end.
Proof.
  intros Hdata Hentry Hresized oid widths files dated.
  assert (Hfiles : map (fun w => path_join TEMP_PATH (jpg_name oid w)) widths = files).
  { subst files. apply map_ext. intros w. apply PathFacts.new_file. }
  assert (Hsnd : map snd (combine resized files) = files).
  { subst files widths. clear. induction resized as [|r l IH]; [reflexivity|].
    cbn [map combine snd]. now rewrite IH. }
  unfold process_image. rewrite Hdata, Hentry, Hresized. fold oid widths.
  rewrite Hfiles, Hsnd. reflexivity.
Qed.

(** The run of [process_image] when nothing is refused. *)
Lemma process_image_accepted (post_object : post) (img_path : string) (img : Image)
    getexif (metadata : gmap string exif) (r1 r2 r3 r4 : Image) :
  get_img_data EXIF_TAGS getexif = Py.Ok metadata ->
  (forall n, metadata !! "DateTime"%string <> Some (EInt n)) ->
  resize_image bbox img metadata = Py.Ok [r1; r2; r3; r4] ->
  Run.accepts outside world
    (fst (fst (process_image env EXIF_TAGS bbox world post_object img_path (Py.Ok img)
                 getexif))) ->
  let oid := p_oid post_object in
  let widths := [fst (size r1); fst (size r2); fst (size r3); fst (size r4)] in
  let files := map (fun w => ("/tmp/" ++ jpg_name oid w)%string) widths in
  exists date widest tag,
    max_of widths = Py.Ok widest
    /\ create_img_tag oid widths (p_summary post_object) = Py.Ok tag
    /\ process_image env EXIF_TAGS bbox world post_object img_path (Py.Ok img) getexif
       = (([LogInfo ("Making image post #" ++ Str.fmt_d oid); ImageOpen img_path;
            LogInfo ("Resizing image #" ++ Str.fmt_d oid ++ " (" ++ img_path ++ ")")]
           ++ files_calls img img_path (combine [r1; r2; r3; r4] files))%list,
          Post oid (p_summary post_object) date (Some (jpg_name oid widest)) (Some tag),
          Py.Ok tt).
Proof.
  intros Hdata Hdate Hresized Hacc oid widths files.
  assert (Hentry : exists date,
             match metadata !! "DateTime"%string with
             | Some (EText dt) => Py.fmap Some (exif_date dt)
             | Some (EInt _) => Py.Raise Py.AttributeError
             | None => Py.Ok (p_date post_object)
             end = Py.Ok date).
  { destruct (metadata !! "DateTime"%string) as [[n|dt]|] eqn:Hdt.
    - exfalso. exact (Hdate n eq_refl).
    - destruct (exif_date_total dt) as [date ->]. eexists; reflexivity.
    - eexists; reflexivity. }
  destruct Hentry as [date Hentry].
  pose proof (process_image_resized post_object img_path img getexif metadata date
                _ Hdata Hentry Hresized) as Hrun.
  cbv zeta in Hrun. fold oid in Hrun.
  change (map (fun r => fst (size r)) [r1; r2; r3; r4]) with widths in Hrun.
  change (map (fun w => ("/tmp/" ++ jpg_name oid w)%string) widths) with files in Hrun.
  set (calls0 := [LogInfo _; ImageOpen _; LogInfo _]) in Hrun.
  assert (Hfst : fst (fst (process_image env EXIF_TAGS bbox world post_object img_path
                             (Py.Ok img) getexif))
                 = fst (files_run img img_path (combine [r1; r2; r3; r4] files) calls0)).
  { rewrite Hrun. destruct (files_run _ _ _ calls0) as [calls [[]|e]]; [|reflexivity].
    destruct (max_of widths); [|reflexivity].
    destruct (create_img_tag _ _ _); reflexivity. }
  rewrite Hfst in Hacc.
  rewrite (WorldFacts.makes_run outside world _ _ _ calls0
             (files_run_makes img img_path _) Hacc) in Hrun.
  destruct (max_of widths) as [widest|e] eqn:Hmax; [|discriminate Hmax].
  destruct (create_img_tag oid widths (p_summary post_object)) as [tag|e] eqn:Htag.
  - exists date, widest, tag. split; [reflexivity|]. split; [reflexivity|]. exact Hrun.
  - subst widths. rewrite create_img_tag_parts in Htag. discriminate Htag.
Qed.

(** X27. What a [process_image] that is refused nothing leaves behind.
    When the picture could be opened and its EXIF data read, its
    [DateTime] is no number, [resize_image] returned its renditions,
    and the world accepted every call of the run: the call returns;
    every rendition is saved as [/tmp/{oid}-{width}.jpg], also in a dry
    run; outside a dry run every such file is stored under the key
    [{oid}-{width}.jpg] and then removed, as is the picture that was
    received, and in a dry run nothing is stored or removed; the
    [og_image] of the post is the name of a rendition of the largest
    width; and the tag that becomes the content names, for every width,
    the key stored for it. *)
Theorem process_image_files (post_object : post) (img_path : string) (img : Image)
    getexif (metadata : gmap string exif) (resized : list Image) :
  get_img_data EXIF_TAGS getexif = Py.Ok metadata ->
  (forall n, metadata !! "DateTime"%string <> Some (EInt n)) ->
  resize_image bbox img metadata = Py.Ok resized ->
  Run.accepts outside world
    (fst (fst (process_image env EXIF_TAGS bbox world post_object img_path (Py.Ok img)
                 getexif))) ->
  let oid := p_oid post_object in
  let widths := map (fun r => fst (size r)) resized in
  let key w := (Str.fmt_d oid ++ "-" ++ Str.fmt_d w ++ ".jpg")%string in
  let files := map (fun w => ("/tmp/" ++ key w)%string) widths in
  exists calls post_object' widest tag,
    process_image env EXIF_TAGS bbox world post_object img_path (Py.Ok img) getexif
    = (calls, post_object', Py.Ok tt)
    /\ saved calls = combine resized files
    /\ stored calls
       = (if dry env then []
          else map (fun w => (aws_bucket env, key w, ("/tmp/" ++ key w)%string,
                              "public-read"%string))
                 widths)
    /\ removed calls = (if dry env then [] else img_path :: files)
    /\ p_og_image post_object' = Some (key widest)
    /\ In widest widths /\ Forall (fun w => w <= widest) widths
    /\ p_content post_object' = Some tag
    /\ Forall (fun w => Str.contains ("{{ site.assets_url }}/" ++ key w) tag = true)
         widths.
Proof.
  intros Hdata Hdate Hresized Hacc oid widths key files.
  destruct (RunFacts.resize_image_four _ _ _ _ Hresized) as [r1 [r2 [r3 [r4 ->]]]].
  destruct (process_image_accepted post_object img_path img getexif metadata
              r1 r2 r3 r4 Hdata Hdate Hresized Hacc)
    as [date [widest [tag [Hmax [Htag Hrun]]]]].
  destruct (RunFacts.max_of_spec _ _ Hmax) as [Hin Hall].
  pose proof (create_img_tag_parts oid (fst (size r1)) (fst (size r2)) (fst (size r3))
                (fst (size r4)) (p_summary post_object)) as Hparts.
  set (pieces := [_; _; _; _; _; _; _; _; _; _; _; _; _; _; _; _; _; _]) in Hparts.
  assert (Hpieces : tag = Str.concat pieces).
  { subst widths oid. cbn [map] in Htag. congruence. }
  eexists _, _, widest, tag. split; [exact Hrun|].
  subst widths files key. cbn [combine flat_map app fst snd map].
  fold oid. change (fun w => (Str.fmt_d oid ++ "-" ++ Str.fmt_d w ++ ".jpg")%string)
    with (jpg_name oid).
  rewrite !PathFacts.basename_new_file.
  destruct (dry env); cbn [app omap list_omap p_og_image p_content].
  - repeat split; try reflexivity; try assumption.
    rewrite Hpieces. repeat constructor;
      (eapply PathFacts.contains_concat; [|apply PathFacts.srcset_entry_url]);
      subst pieces; cbn; tauto.
  - repeat split; try reflexivity; try assumption.
    rewrite Hpieces. repeat constructor;
      (eapply PathFacts.contains_concat; [|apply PathFacts.srcset_entry_url]);
      subst pieces; cbn; tauto.
Qed.

Lemma scaled_widths (T1 T2 : Z) (source s1 s2 : Z * Z) :
  0 < fst source -> 0 < snd source -> T1 < T2 ->
  scaled_to T1 source s1 -> scaled_to T2 source s2 -> fst s1 <= fst s2.
Proof.
  intros Hw Hh HT [_ [H1 _]] [_ [H2 _]].
  destruct source as [W H]. destruct s1 as [a1 b1]. destruct s2 as [a2 b2].
  cbn [fst snd] in *.
  set (L := Z.max W H) in *.
  assert (HL : 0 < L) by (subst L; lia).
  assert (B1 : 2 * (a1 * L - W * T1) <= L) by lia.
  assert (B2 : - L <= 2 * (a2 * L - W * T2)) by lia.
  assert (HWT : W * T1 < W * T2) by nia.
  assert (Hlt : (a1 - a2) * L < L) by nia.
  assert (a1 - a2 < 1) by nia. lia.
Qed.

(** X28. For a picture with sides from 1 to below 2^31 pixels whose
    longer side is less than 640 times the shorter one, and an
    orientation inside the table, when the world accepts every call of
    the run: the widths of the four renditions do not decrease, and the
    [og_image] of the post is the file of the last rendition, the one
    whose longer side is 1280. *)
Theorem process_image_og_image (post_object : post) (img_path : string) (img : Image)
    getexif (metadata : gmap string exif) (n : Z) :
  get_img_data EXIF_TAGS getexif = Py.Ok metadata ->
  (forall k, metadata !! "DateTime"%string <> Some (EInt k)) ->
  default (EInt 0) (metadata !! "Orientation"%string) = EInt n ->
  -9 <= n <= 8 ->
  well_sized img ->
  Z.max (fst (size img)) (snd (size img))
  < 640 * Z.min (fst (size img)) (snd (size img)) ->
  Run.accepts outside world
    (fst (fst (process_image env EXIF_TAGS bbox world post_object img_path (Py.Ok img)
                 getexif))) ->
  exists calls post_object' r1 r2 r3 r4,
    resize_image bbox img metadata = Py.Ok [r1; r2; r3; r4]
    /\ process_image env EXIF_TAGS bbox world post_object img_path (Py.Ok img) getexif
       = (calls, post_object', Py.Ok tt)
    /\ p_og_image post_object'
       = Some (Str.fmt_d (p_oid post_object) ++ "-" ++ Str.fmt_d (fst (size r4))
               ++ ".jpg")%string
    /\ Z.max (fst (size r4)) (snd (size r4)) = 1280
    /\ fst (size r1) <= fst (size r2) <= fst (size r3)
    /\ fst (size r3) <= fst (size r4).
Proof.
  intros Hdata Hdate Htag Hn Hsized Hthin Hacc.
  destruct (oriented_size bbox metadata img n Htag Hn) as [oimg [Hor Hsz]].
  assert (Hsized' : well_sized oimg
                    /\ Z.max (fst (size oimg)) (snd (size oimg))
                       < 640 * Z.min (fst (size oimg)) (snd (size oimg))).
  { unfold well_sized in *. destruct Hsz as [->| ->]; [tauto|].
    unfold swap. cbn [fst snd]. split; [tauto|lia]. }
  destruct Hsized' as [Hsized' Hthin'].
  destruct (renditions_of bbox metadata img oimg Hor Hsized' Hthin')
    as [s1 [s2 [s3 [s4 [Hrun [S1 [S2 [S3 S4]]]]]]]].
  destruct Hsized' as [[Hw _] [Hh _]].
  pose proof (scaled_widths 320 640 _ _ _ Hw Hh ltac:(lia) S1 S2) as H12.
  pose proof (scaled_widths 640 960 _ _ _ Hw Hh ltac:(lia) S2 S3) as H23.
  pose proof (scaled_widths 960 1280 _ _ _ Hw Hh ltac:(lia) S3 S4) as H34.
  destruct (process_image_accepted post_object img_path img getexif metadata
              _ _ _ _ Hdata Hdate Hrun Hacc)
    as [date [widest [tag [Hmax [_ Hcall]]]]].
  cbn [size max_of fold_left] in Hmax. injection Hmax as Hmax.
  replace widest with (fst s4) in Hcall by lia.
  eexists _, _, _, _, _, _. split; [exact Hrun|].
  split; [exact Hcall|]. cbn [size p_og_image].
  split; [reflexivity|]. split; [exact (proj1 S4)|]. lia.
Qed.

(** X29. [get_img_data] renames the tags of a picture and invents
    nothing: every entry of the result is the value of a tag of the
    picture under the name the table gives to that tag; and a tag of
    the picture that has a name is found under it with its value,
    provided every tag of the picture with that name carries that
    value. *)
Theorem get_img_data_names (items : list (Z * exif)) :
  exists metadata,
    get_img_data EXIF_TAGS (Py.Ok (Some items)) = Py.Ok metadata
    /\ (forall name v, metadata !! name = Some v ->
          exists k, In (k, v) items /\ EXIF_TAGS !! k = Some name)
    /\ (forall k v name,
          In (k, v) items -> EXIF_TAGS !! k = Some name ->
          (forall k' v', In (k', v') items -> EXIF_TAGS !! k' = Some name -> v' = v) ->
          metadata !! name = Some v).
Proof.
  unfold get_img_data. eexists. split; [reflexivity|].
  set (step := fun (acc : gmap string exif) (kv : Z * exif) =>
                 match EXIF_TAGS !! fst kv with
                 | Some name => <[name := snd kv]> acc
                 | None => acc
                 end).
  assert (Hsound : forall items acc name v,
             fold_left step items acc !! name = Some v ->
             acc !! name = Some v
             \/ exists k, In (k, v) items /\ EXIF_TAGS !! k = Some name).
  { clear. induction items as [|[k0 v0] items IH]; intros acc name v H; [left; exact H|].
    cbn [fold_left] in H. apply IH in H. destruct H as [H|[k [Hin Hk]]].
    - unfold step in H. cbn [fst snd] in H.
      destruct (EXIF_TAGS !! k0) as [name0|] eqn:Hk0; [|left; exact H].
      destruct (decide (name0 = name)) as [->|Hne].
      + rewrite lookup_insert_eq in H. injection H as <-.
        right. exists k0. split; [left; reflexivity | exact Hk0].
      + rewrite lookup_insert_ne in H by exact Hne. left. exact H.
    - right. exists k. split; [right; exact Hin | exact Hk]. }
  assert (Hkeep : forall items acc name v,
             acc !! name = Some v ->
             (forall k' v', In (k', v') items -> EXIF_TAGS !! k' = Some name -> v' = v) ->
             fold_left step items acc !! name = Some v).
  { clear. induction items as [|[k0 v0] items IH]; intros acc name v Hacc Hall;
      [exact Hacc|].
    cbn [fold_left]. apply IH.
    - unfold step. cbn [fst snd].
      destruct (EXIF_TAGS !! k0) as [name0|] eqn:Hk0; [|exact Hacc].
      destruct (decide (name0 = name)) as [->|Hne].
      + rewrite lookup_insert_eq. f_equal. apply (Hall k0 v0); [left; reflexivity|exact Hk0].
      + rewrite lookup_insert_ne by exact Hne. exact Hacc.
    - intros k' v' Hin. apply Hall. right. exact Hin. }
  split.
  - intros name v H. apply Hsound in H. destruct H as [H|H]; [|exact H].
    rewrite lookup_empty in H. discriminate H.
  - intros k v name Hin Hk Hall. revert Hin Hall.
    generalize (empty : gmap string exif).
    induction items as [|[k0 v0] items IH]; intros acc Hin Hall; [destruct Hin|].
    cbn [fold_left]. destruct Hin as [[= -> ->]|Hin].
    + apply Hkeep.
      * unfold step. cbn [fst snd]. rewrite Hk. apply lookup_insert_eq.
      * intros k' v' Hin'. apply Hall. right. exact Hin'.
    + apply IH; [exact Hin|]. intros k' v' Hin'. apply Hall. right. exact Hin'.
Qed.

(** ** The date and the file of a post *)

Lemma isoformat_plain (d : Datetime.date) (x : ascii) :
  Str.is_digit x = false -> x <> "-"%char ->
  ~ In x (Str.chars (Datetime.isoformat d)).
Proof.
  intros Hx Hdash. unfold Datetime.isoformat. rewrite !TextFacts.chars_app. intros Hin.
  assert (Hd : forall s, Forall (fun c => Str.is_digit c = true) (Str.chars s) ->
                         ~ In x (Str.chars s)).
  { intros s Hs Hin'.
    pose proof (proj1 (List.Forall_forall _ _) Hs _ Hin') as H. cbv beta in H.
    congruence. }
  repeat (apply in_app_or in Hin; destruct Hin as [Hin|Hin]).
  - exact (Hd _ (DateFacts.four_digits_digits _) Hin).
  - destruct Hin as [Hin|[]]. congruence.
  - exact (Hd _ (DateFacts.two_digits_digits _) Hin).
  - destruct Hin as [Hin|[]]. congruence.
  - exact (Hd _ (DateFacts.two_digits_digits _) Hin).
Qed.

Lemma post_name_plain (d : Datetime.date) (oid : Z) :
  ~ In "/"%char (Str.chars (post_name (Datetime.isoformat d) oid)).
Proof.
  unfold post_name. rewrite !TextFacts.chars_app. intros Hin.
  repeat (apply in_app_or in Hin; destruct Hin as [Hin|Hin]).
  - revert Hin. apply isoformat_plain; [reflexivity | discriminate].
  - destruct Hin as [Hin|[]]. discriminate Hin.
  - exact (PathFacts.fmt_d_plain oid Hin).
  - cbn in Hin. destruct Hin as [H|[H|[H|[]]]]; discriminate H.
Qed.

(** The file of a post lies in the directory that [get_new_oid] lists,
    [rel('blog/_posts')], under the name made of the day and the
    identifier. *)
Lemma post_path_name (today : Datetime.date) (oid : Z) :
  post_path env today oid
  = (path_join (uploader_dirpath env) "blog/_posts"
     ++ String "/" (post_name (Datetime.isoformat today) oid))%string
  /\ basename (post_path env today oid) = post_name (Datetime.isoformat today) oid.
Proof.
  assert (Hpath : post_path env today oid
                  = (path_join (uploader_dirpath env) "blog/_posts"
                     ++ String "/" (post_name (Datetime.isoformat today) oid))%string).
  { unfold post_path, path_join.
    change (Str.startswith "/" ("blog/_posts/" ++ ?n)) with false.
    change (Str.startswith "/" "blog/_posts") with false. cbv iota.
    destruct (_ || _); rewrite !TextFacts.append_assoc; reflexivity. }
  split; [exact Hpath|]. rewrite Hpath.
  apply PathFacts.basename_after_slash, post_name_plain.
Qed.

Local Abbreviation written calls :=
  (omap (fun c => match c with WriteFile f text => Some (f, text) | _ => None end) calls).

Lemma forall2_in {A B : Type} (R : A -> B -> Prop) (l : list A) (l' : list B) (b : B) :
  Forall2 R l l' -> In b l' -> exists a, In a l /\ R a b.
Proof.
  induction 1 as [|x y l l' Hxy _ IH]; [intros []|]. intros [<-|Hin].
  - exists x. split; [left; reflexivity | exact Hxy].
  - destruct (IH Hin) as [a [Ha Hab]]. exists a. split; [right; exact Ha | exact Hab].
Qed.

Lemma forall2_out {A B : Type} (R : A -> B -> Prop) (l : list A) (l' : list B) (a : A) :
  Forall2 R l l' -> In a l -> exists b, In b l' /\ R a b.
Proof.
  induction 1 as [|x y l l' Hxy _ IH]; [intros []|]. intros [<-|Hin].
  - exists y. split; [left; reflexivity | exact Hxy].
  - destruct (IH Hin) as [b [Hb Hab]]. exists b. split; [right; exact Hb | exact Hab].
Qed.

(** X25. The file of a post carries its identifier.  When
    [create_post] returns for a post whose identifier [get_new_oid] gave
    for the directory, it has written one file, in [blog/_posts] under
    the directory of the program and with the name made of the day and
    the identifier (no file in a dry run); no post of the directory has
    that name; and once the file is in the directory, [get_new_oid]
    gives the next identifier. *)
Theorem create_post_next_oid (today : Datetime.date) (post_object : post)
    (posts : list string) (calls : list call) :
  get_new_oid posts = Py.Ok (p_oid post_object) ->
  create_post env today post_object = (calls, Py.Ok tt) ->
  let name := post_name (Datetime.isoformat today) (p_oid post_object) in
  let directory := path_join (uploader_dirpath env) "blog/_posts" in
  (exists contents,
      written calls
      = if dry env then [] else [((directory ++ String "/" name)%string, contents)])
  /\ ~ In name posts
  /\ get_new_oid (name :: posts) = Py.Ok (p_oid post_object + 1).
Proof.
  intros Hoid Hrun name directory.
  destruct (get_new_oid_top posts _ Hoid) as [oids [Hoids [Hin Hmax]]].
  set (oid := p_oid post_object) in *.
  assert (Hpos : 1 <= oid).
  { destruct (forall2_in _ _ _ _ Hoids Hin) as [p [_ Hp]].
    pose proof (ListingFacts.post_oid_nonneg p (oid - 1) Hp). lia. }
  assert (Hname : post_oid name = Py.Ok oid).
  { apply OidFacts.post_oid_of_name; [|lia].
    apply isoformat_plain; [reflexivity | discriminate]. }
  split; [|split].
  - unfold create_post in Hrun.
    destruct (Py.bind _ _) as [lines|e]; [|discriminate Hrun].
    injection Hrun as <-. exists (Str.join Str.lf lines).
    fold oid. rewrite (proj1 (post_path_name today oid)). fold name directory.
    destruct (dry env); reflexivity.
  - intros Hold. destruct (forall2_out _ _ _ _ Hoids Hold) as [k [Hk Hkname]].
    rewrite Hname in Hkname. injection Hkname as <-.
    pose proof (proj1 (List.Forall_forall _ _) Hmax oid Hk) as Hle. cbv beta in Hle. lia.
  - unfold get_new_oid. cbn [Py.mapM]. rewrite Hname. cbn [Py.bind].
    rewrite (proj2 (ListingFacts.mapM_ok post_oid posts oids) Hoids). cbn [Py.bind].
    destruct (OidFacts.sorted_last_is_max (oid :: oids)) as [top [-> [Htop Hall]]];
      [discriminate|].
    cbn [Py.bind]. f_equal.
    assert (oid <= top).
    { exact (proj1 (List.Forall_forall _ _) Hall oid (or_introl eq_refl)). }
    destruct Htop as [<-|Htop]; [reflexivity|].
    pose proof (proj1 (List.Forall_forall _ _) Hmax top Htop) as Hle. cbv beta in Hle. lia.
Qed.

(** X24. The day of an EXIF time stamp comes through: for a picture
    whose [DateTime] is [YYYY:MM:DD hh:mm:ss] with the day a date of the
    calendar, [process_image] stores the date [YYYY-MM-DD], whatever
    then becomes of the call; and [create_post] reads a post with that
    date back as the same day, does not fail, and writes the line of
    the link with the month by its name, the day and the year. *)
Theorem exif_date_read_back (today : Datetime.date) (post_object : post)
    (img_path : string) (img : Image) getexif (metadata : gmap string exif)
    (d : Datetime.date) (time : string) :
  Datetime.valid_date d ->
  get_img_data EXIF_TAGS getexif = Py.Ok metadata ->
  metadata !! "DateTime"%string
  = Some (EText ((Datetime.four_digits (Datetime.year d) ++ ":"
                  ++ Datetime.two_digits (Datetime.month d) ++ ":"
                  ++ Datetime.two_digits (Datetime.day d)) ++ String " " time)) ->
  (exists calls post_object' outcome,
      process_image env EXIF_TAGS bbox world post_object img_path (Py.Ok img) getexif
      = (calls, post_object', outcome)
      /\ p_date post_object' = Some (Datetime.isoformat d))
  /\ (forall posted content,
        p_date posted = Some (Datetime.isoformat d) ->
        p_content posted = Some content ->
        exists calls lines,
          create_post env today posted = (calls, Py.Ok tt)
          /\ post_lines env d posted = Py.Ok lines
          /\ In (LogDebug (Str.join Str.lf lines)) calls
          /\ In ("    <a href=" ++ Str.dq ++ "/" ++ Str.fmt_d (p_oid posted) ++ Str.dq
                 ++ ">" ++ Datetime.date_str d ++ "</a>")%string lines).
Proof.
  intros Hvalid Hdata Hstamp. split.
  - unfold process_image. rewrite Hdata, Hstamp.
    destruct d as [y m dd]. cbn [Datetime.year Datetime.month Datetime.day].
    rewrite DateFacts.exif_date_stamp. cbn [Py.fmap].
    destruct (resize_image bbox img metadata) as [resized|e];
      [|eexists _, _, _; split; reflexivity].
    match goal with
    | |- context [match ?run with (_, _) => _ end] =>
        destruct run as [calls [[]|e]]; [|eexists _, _, _; split; reflexivity]
    end.
    destruct (max_of _) as [widest|e]; [|eexists _, _, _; split; reflexivity].
    cbn [p_summary p_oid p_date p_og_image p_content].
    destruct (create_img_tag _ _ _) as [tag|e]; eexists _, _, _; split; reflexivity.
  - intros posted content Hdate Hcontent.
    unfold create_post. rewrite Hdate, (DateFacts.strptime_isoformat d Hvalid).
    cbn [Py.bind]. unfold post_lines. rewrite Hcontent. cbn [Py.of_option Py.bind].
    eexists _, _. split; [reflexivity|]. split; [reflexivity|]. split.
    + right. left. reflexivity.
    + apply in_or_app. left. apply in_or_app. left. apply in_or_app. right.
      do 4 right. left. reflexivity.
Qed.

End Posting.

(** ** Instances *)

Lemma process_image_files_witness :
  let env := Settings None "aws.bucket" "foo.bar" "/srv/uploader" in
  let world : Run.world call := fun _ _ => Py.Ok tt in
  let post_object := Post 111 "Hi hello" None None None in
  let img := MkImage (1600, 1200) [] in
  let resized := [MkImage (320, 240) [Resize (320, 240) LANCZOS];
                  MkImage (640, 480) [Resize (640, 480) LANCZOS];
                  MkImage (960, 720) [Resize (960, 720) LANCZOS];
                  MkImage (1280, 960) [Resize (1280, 960) LANCZOS]] in
  let oid := p_oid post_object in
  let widths := map (fun r => fst (size r)) resized in
  let key w := (Str.fmt_d oid ++ "-" ++ Str.fmt_d w ++ ".jpg")%string in
  let files := map (fun w => ("/tmp/" ++ key w)%string) widths in
  exists calls post_object' widest tag,
    process_image env empty (fun _ sz => sz) world post_object "/path/to/file.jpg"
      (Py.Ok img) (Py.Ok None)
    = (calls, post_object', Py.Ok tt)
    /\ omap (fun c => match c with ImageSave r f => Some (r, f) | _ => None end) calls
       = combine resized files
    /\ omap (fun c => match c with PutObject b k f a => Some (b, k, f, a) | _ => None end)
         calls
       = (if dry env then []
          else map (fun w => (aws_bucket env, key w, ("/tmp/" ++ key w)%string,
                              "public-read"%string))
                 widths)
    /\ omap (fun c => match c with Remove f => Some f | _ => None end) calls
       = (if dry env then [] else "/path/to/file.jpg"%string :: files)
    /\ p_og_image post_object' = Some (key widest)
    /\ In widest widths /\ Forall (fun w => w <= widest) widths
    /\ p_content post_object' = Some tag
    /\ Forall (fun w => Str.contains ("{{ site.assets_url }}/" ++ key w) tag = true)
         widths.
Proof.
  intros env world post_object img resized.
  apply (process_image_files env (empty : gmap Z string) (fun _ sz => sz) world
           post_object "/path/to/file.jpg" img (Py.Ok None) (empty : gmap string exif)
           resized).
  - reflexivity.
  - intros n. vm_compute. discriminate.
  - vm_compute. reflexivity.
  - intros before c after _ _. reflexivity.
Defined.

Lemma process_image_og_image_witness :
  let env := Settings None "aws.bucket" "foo.bar" "/srv/uploader" in
  let world : Run.world call := fun _ _ => Py.Ok tt in
  let post_object := Post 111 "Hi hello" None None None in
  let img := MkImage (1200, 1600) [] in
  exists calls post_object' r1 r2 r3 r4,
    resize_image (fun _ sz => sz) img empty = Py.Ok [r1; r2; r3; r4]
    /\ process_image env empty (fun _ sz => sz) world post_object "/path/to/file.jpg"
         (Py.Ok img) (Py.Ok None)
       = (calls, post_object', Py.Ok tt)
    /\ p_og_image post_object'
       = Some (Str.fmt_d (p_oid post_object) ++ "-" ++ Str.fmt_d (fst (size r4))
               ++ ".jpg")%string
    /\ Z.max (fst (size r4)) (snd (size r4)) = 1280
    /\ fst (size r1) <= fst (size r2) <= fst (size r3)
    /\ fst (size r3) <= fst (size r4).
Proof.
  intros env world post_object img.
  apply (process_image_og_image env (empty : gmap Z string) (fun _ sz => sz) world
           post_object "/path/to/file.jpg" img (Py.Ok None) (empty : gmap string exif) 0).
  - reflexivity.
  - intros k. vm_compute. discriminate.
  - vm_compute. reflexivity.
  - lia.
  - unfold well_sized. cbn. lia.
  - cbn. lia.
  - intros before c after _ _. reflexivity.
Defined.

(** A run of [delete] in which the second file cannot be removed. *)
Lemma delete_and_upload_calls_witness :
  let env := Settings None "aws.bucket" "foo.bar" "/srv/uploader" in
  let world : Run.world call :=
    fun _ c =>
      match c with
      | Remove path =>
          if String.eqb path "2" then Py.Raise (Py.OSError "No such file or directory")
          else Py.Ok tt
      | _ => Py.Ok tt
      end in
  delete env world ["1"; "2"; "3"]%string []
  = ([LogInfo "Deleting 1"; Remove "1"; LogInfo "Deleting 2"; Remove "2"],
     Py.Raise (Py.OSError "No such file or directory"))
  /\ exists before path after trace,
       ["1"; "2"; "3"]%string = (before ++ path :: after)%list
       /\ fst (delete env world ["1"; "2"; "3"]%string []) = (trace ++ [Remove path])%list
       /\ world trace (Remove path) = Py.Raise (Py.OSError "No such file or directory")
       /\ omap (fun c => match c with Remove f => Some f | _ => None end)
            (fst (delete env world ["1"; "2"; "3"]%string []))
          = (before ++ [path])%list.
Proof.
  intros env world. split; [vm_compute; reflexivity|].
  apply (proj1 (proj2 (proj2 (delete_and_upload_calls env world ["1"; "2"; "3"]%string)))
           (Py.OSError "No such file or directory")).
  vm_compute. reflexivity.
Defined.

Lemma create_post_next_oid_witness :
  let env := Settings None "aws.bucket" "foo.bar" "/srv/uploader" in
  let today := Datetime.Date 2017 8 3 in
  let post_object := Post 4 "Hi hello" None None (Some "<img />"%string) in
  let posts := ["2012-05-15-0.md"; "2016-11-02-1.md"; "2017-01-16-3.md"]%string in
  let name := post_name (Datetime.isoformat today) (p_oid post_object) in
  let directory := path_join (uploader_dirpath env) "blog/_posts" in
  (exists contents,
      omap (fun c => match c with WriteFile f text => Some (f, text) | _ => None end)
        (fst (create_post env today post_object))
      = if dry env then [] else [((directory ++ String "/" name)%string, contents)])
  /\ ~ In name posts
  /\ get_new_oid (name :: posts) = Py.Ok (p_oid post_object + 1).
Proof.
  intros env today post_object posts.
  apply (create_post_next_oid env today post_object posts
           (fst (create_post env today post_object))).
  - vm_compute. reflexivity.
  - vm_compute. reflexivity.
Defined.

Lemma exif_date_read_back_witness :
  let env := Settings None "aws.bucket" "foo.bar" "/srv/uploader" in
  let tags : gmap Z string := <[306 := "DateTime"%string]> empty in
  let d := Datetime.Date 2017 5 5 in
  let post_object := Post 111 "Hi hello" None None None in
  let img := MkImage (1600, 1200) [] in
  let getexif := Py.Ok (Some [(306, EText "2017:05:05 13:21:05")]) in
  (exists calls post_object' outcome,
      process_image env tags (fun _ sz => sz) (fun _ _ => Py.Ok tt) post_object
        "/path/to/file.jpg" (Py.Ok img) getexif
      = (calls, post_object', outcome)
      /\ p_date post_object' = Some (Datetime.isoformat d))
  /\ (forall posted content,
        p_date posted = Some (Datetime.isoformat d) ->
        p_content posted = Some content ->
        exists calls lines,
          create_post env (Datetime.Date 2017 8 3) posted = (calls, Py.Ok tt)
          /\ post_lines env d posted = Py.Ok lines
          /\ In (LogDebug (Str.join Str.lf lines)) calls
          /\ In ("    <a href=" ++ Str.dq ++ "/" ++ Str.fmt_d (p_oid posted) ++ Str.dq
                 ++ ">" ++ Datetime.date_str d ++ "</a>")%string lines).
Proof.
  intros env tags d post_object img getexif.
  apply (exif_date_read_back env tags (fun _ sz => sz) (fun _ _ => Py.Ok tt)
           (Datetime.Date 2017 8 3)
           post_object "/path/to/file.jpg" img getexif
           (<["DateTime"%string := EText "2017:05:05 13:21:05"]>
              (empty : gmap string exif))
           d "13:21:05").
  - unfold Datetime.valid_date. cbn. lia.
  - vm_compute. reflexivity.
  - vm_compute. reflexivity.
Defined.
